(** * Period and ledger engine of backend-tabunganKita

    A shallow embedding of the two Express routers of the repository,
    the savings router (budget periods, called savings in the code; its
    text is the second part of [index.js]) and [routes/transactions.js]
    (the ledger), over an explicit model of the relational store they
    reach through Prisma.

    Conventions of the embedding:
    - a JavaScript number carrying money is the rational it stands for
      ([Q]) and the arithmetic on it is written with the operations of
      [Q]; the rounding that each operation on doubles makes is not
      modelled, so the theorems say which operation of the code a field
      comes from and use no identity of exact arithmetic between
      different operations;
    - identifiers, months, years, week numbers and time values are
      integers ([Z]); on such values [parseInt] and [parseFloat] are the
      identity, as they are in the code on integers below 1e21 in
      absolute value; the width of the [INTEGER] columns is not
      modelled, and the theorems that promise a write bound the integers
      they store;
    - a request field is [option]: [None] is a field absent from the body
      ([undefined]);
    - a [Date] is its time value, the milliseconds since the epoch, read
      in UTC; the constructor yields an invalid date, and [getDate] NaN
      ([None]), beyond the range of time values;
    - the columns [createdAt] and [updatedAt], which the ORM maintains on
      its own, are left out of the rows. *)

From Stdlib Require Import ZArith QArith List String Ascii Bool Lia.
From Stdlib Require Import Qabs Qround DecimalString.
From Stdlib Require Import Sorted Permutation.
Import ListNotations.

Open Scope Z_scope.

(** ** The calendar arithmetic behind [Date] *)

Module JsDate.

Definition msPerDay : Z := 86400000.

(** Day number (days since 1970-01-01) of the civil date [y]-[m]-[d],
    [m] in 1..12.  The day [d] enters linearly, so that a day of 0 or
    below, or beyond the end of the month, rolls over into the
    neighbouring months as [MakeDay] prescribes. *)
Definition days_from_civil (y m d : Z) : Z :=
  let y' := if m <=? 2 then y - 1 else y in
  let era := y' / 400 in
  let yoe := y' - era * 400 in
  let mp := (m + 9) mod 12 in
  let doy := (153 * mp + 2) / 5 + d - 1 in
  let doe := yoe * 365 + yoe / 4 - yoe / 100 + doy in
  era * 146097 + doe - 719468.

(** Civil date (year, month 1..12, day of month) of a day number. *)
Definition civil_from_days (z : Z) : Z * Z * Z :=
  let z' := z + 719468 in
  let era := z' / 146097 in
  let doe := z' - era * 146097 in
  let yoe := (doe - doe / 1460 + doe / 36524 - doe / 146096) / 365 in
  let y := yoe + era * 400 in
  let doy := doe - (365 * yoe + yoe / 4 - yoe / 100) in
  let mp := (5 * doy + 2) / 153 in
  let d := doy - (153 * mp + 2) / 5 + 1 in
  let m := if mp <? 10 then mp + 3 else mp - 9 in
  (if m <=? 2 then y + 1 else y, m, d).

(** [MakeDay(year, month, date)]: [month] is the 0-based month index and
    may lie outside 0..11, in which case it carries into the year. *)
Definition MakeDay (year month date : Z) : Z :=
  let ym := year + month / 12 in
  let mn := month mod 12 in
  days_from_civil ym (mn + 1) 1 + (date - 1).

(** [TimeClip]: a time value more than 8.64e15 ms away from the epoch
    is NaN, here [None]. *)
Definition maxTime : Z := 8640000000000000.

Definition TimeClip (time : Z) : option Z :=
  if Z.abs time <=? maxTime then Some time else None.

(** The year [new Date(year, ...)] takes: 0..99 stands for
    1900 + year. *)
Definition full_year (year : Z) : Z :=
  if (0 <=? year) && (year <=? 99) then 1900 + year else year.

(** [new Date(year, month, date)]: the time value of the date, or
    [None] for an invalid date. *)
Definition Date_ymd (year month date : Z) : option Z :=
  TimeClip (MakeDay (full_year year) month date * msPerDay).

(** [new Date(value)] on a time value. *)
Definition Date_of (value : Z) : Z := value.

(** [Date.prototype.getDate]: the day of the month. *)
Definition getDate (t : Z) : Z := snd (civil_from_days (t / msPerDay)).

(** The calendar as the specification words it: leap years and the
    length of each month, [month] counted from 1. *)
Definition is_leap_year (y : Z) : bool :=
  (y mod 4 =? 0) && (negb (y mod 100 =? 0) || (y mod 400 =? 0)).

Definition calendar_days (year month : Z) : Z :=
  if month =? 2 then (if is_leap_year year then 29 else 28)
  else if (month =? 4) || (month =? 6) || (month =? 9) || (month =? 11)
       then 30 else 31.

(** One cycle of the Gregorian calendar, and the months of a year. *)
Definition cycle_years : list Z := map Z.of_nat (seq 0 400).
Definition months : list Z := map Z.of_nat (seq 1 12).

End JsDate.


(** ** JavaScript values as the handlers use them *)

Module Js.

Definition Qlt_bool (x y : Q) : bool := negb (Qle_bool y x).

(** Truthiness of a numeric field: absent and zero are falsy. *)
Definition truthyQ (v : option Q) : bool :=
  match v with
  | None => false
  | Some q => negb (Qeq_bool q 0)
  end.

Definition truthyZ (v : option Z) : bool :=
  match v with
  | None => false
  | Some z => negb (z =? 0)
  end.

(** [parseFloat] and [parseInt] on a field.  On an absent field the
    source obtains NaN; every handler has answered before it uses such
    a value, and the model puts 0 there. *)
Definition parseFloat (v : option Q) : Q :=
  match v with Some q => q | None => 0%Q end.

Definition parseInt (v : option Z) : Z :=
  match v with Some z => z | None => 0 end.

(** [Number.MAX_VALUE], the largest finite double. *)
Definition MAX_VALUE : Q := inject_Z (2 ^ 1024 - 2 ^ 971).

(** [value || fallback] on strings: the empty string is falsy. *)
Definition or_string (v : option string) (fallback : string) : string :=
  match v with
  | Some s => if String.eqb s "" then fallback else s
  | None => fallback
  end.

Definition two_digits (n : Z) : string :=
  let s := NilZero.string_of_uint (N.to_uint (Z.to_N n)) in
  if n <? 10 then String "0" s else s.

(** [Number.prototype.toFixed(2)]: the nearest multiple of 1/100, the
    larger one on a tie, a negative number printed as [-] followed by
    the digits of its absolute value. *)
Definition toFixed2 (x : Q) : string :=
  let a := Qabs x in
  let n := Qfloor (a * 100 + (1 # 2))%Q in
  let digits :=
    (NilZero.string_of_uint (N.to_uint (Z.to_N (n / 100)))
     ++ "." ++ two_digits (n mod 100))%string in
  if Qlt_bool x 0 then String "-" digits else digits.

End Js.

(** ** The store: the tables [savings] and [transactions] *)

Module Saving.
Record t : Type := mk {
  id : Z;
  userId : Z;
  monthlyIncome : Q;
  savingTarget : Q;
  availableAmount : Q;
  dailyBudget : Q;
  period : string;
  month : Z;
  year : Z;
  weekNumber : option Z
}.

(** The fields of the model: the columns of the table [savings] and the
    two relations. *)
Definition fields : list string :=
  ["id"; "userId"; "monthlyIncome"; "savingTarget"; "availableAmount";
   "dailyBudget"; "period"; "month"; "year"; "weekNumber"; "createdAt";
   "updatedAt"; "user"; "transactions"]%string.
End Saving.

Module Transaction.
Record t : Type := mk {
  id : Z;
  userId : Z;
  savingId : Z;
  amount : Q;
  type : string;
  description : option string;
  date : Z
}.
End Transaction.

Record Store : Type := mkStore {
  savings : list Saving.t;
  transactions : list Transaction.t;
  nextSavingId : Z;
  nextTransactionId : Z
}.

(** The Prisma calls of the two routers.  Rows are kept in insertion
    order; a query without [orderBy] returns them in that order. *)
Module Prisma.

Section Ordering.
Context {A : Type} (before : A -> A -> bool).

(** Stable insertion: [x] comes from earlier in the table than the
    rows of [l], and goes in front of the first row it may precede.
    Rows that compare equal thus keep their table order, a choice the
    database leaves open. *)
Fixpoint insert_row (x : A) (l : list A) : list A :=
  match l with
  | [] => [x]
  | y :: l' => if before x y then x :: l else y :: insert_row x l'
  end.

Definition orderBy (l : list A) : list A := fold_right insert_row [] l.
End Ordering.

(** The rows of primary key [k] rewritten in place by [data]. *)
Definition set_rows {A : Type} (key : A -> Z) (k : Z) (data : A -> A)
  (l : list A) : list A :=
  map (fun r => if key r =? k then data r else r) l.

(** A [select]: every name has to be a field of the model, or the
    client refuses the query and the call throws. *)
Definition select_ (model_fields names : list string) : bool :=
  forallb (fun name => existsb (String.eqb name) model_fields) names.

(** A [Float] argument of a write.  NaN ([None]) is no value of the
    column: the write is refused and the call throws. *)
Definition with_float {A : Type} (v : option Q) (call : Q -> option A)
  : option A :=
  match v with
  | Some q => call q
  | None => None
  end.

(** [orderBy: { date: 'desc' }] *)
Definition date_desc (x y : Transaction.t) : bool :=
  Transaction.date y <=? Transaction.date x.

(** [orderBy: [{ year: 'desc' }, { month: 'desc' }]] *)
Definition year_month_desc (x y : Saving.t) : bool :=
  (Saving.year y <? Saving.year x)
  || ((Saving.year y =? Saving.year x)
      && (Saving.month y <=? Saving.month x)).

Module saving.

Definition findFirst (where_ : Saving.t -> bool) (st : Store)
  : option Saving.t :=
  find where_ (savings st).

Definition findMany (where_ : Saving.t -> bool) (st : Store)
  : list Saving.t :=
  filter where_ (savings st).

(** [create]: the row takes the next value of the auto-increment. *)
Definition create (data : Z -> Saving.t) (st : Store)
  : Saving.t * Store :=
  let row := data (nextSavingId st) in
  (row, mkStore (savings st ++ [row]) (transactions st)
                (nextSavingId st + 1) (nextTransactionId st)).

(** [update({ where: { id }, data })]: the updated row, or [None]
    when no row has this id (the call throws). *)
Definition update (id : Z) (data : Saving.t -> Saving.t) (st : Store)
  : option (Saving.t * Store) :=
  match find (fun r => Saving.id r =? id) (savings st) with
  | None => None
  | Some r =>
      Some (data r,
            mkStore (set_rows Saving.id id data (savings st))
              (transactions st) (nextSavingId st) (nextTransactionId st))
  end.

(** [upsert({ where, update, create })] on the unique key. *)
Definition upsert (where_ : Saving.t -> bool)
  (update_ : Saving.t -> Saving.t) (create_ : Z -> Saving.t) (st : Store)
  : option (Saving.t * Store) :=
  match find where_ (savings st) with
  | Some r => update (Saving.id r) update_ st
  | None => Some (create create_ st)
  end.

(** [delete({ where: { id } })], [None] when no row has this id; the
    foreign key of [transactions] is declared [ON DELETE CASCADE]. *)
Definition delete (id : Z) (st : Store) : option Store :=
  match find (fun r => Saving.id r =? id) (savings st) with
  | None => None
  | Some _ =>
      Some (mkStore
              (filter (fun r => negb (Saving.id r =? id)) (savings st))
              (filter (fun t => negb (Transaction.savingId t =? id))
                      (transactions st))
              (nextSavingId st) (nextTransactionId st))
  end.

End saving.

Module transaction.

Definition findFirst (where_ : Transaction.t -> bool) (st : Store)
  : option Transaction.t :=
  find where_ (transactions st).

Definition findMany (where_ : Transaction.t -> bool) (st : Store)
  : list Transaction.t :=
  filter where_ (transactions st).

Definition count (where_ : Transaction.t -> bool) (st : Store) : nat :=
  List.length (filter where_ (transactions st)).

Definition create (data : Z -> Transaction.t) (st : Store)
  : Transaction.t * Store :=
  let row := data (nextTransactionId st) in
  (row, mkStore (savings st) (transactions st ++ [row])
                (nextSavingId st) (nextTransactionId st + 1)).

Definition update (id : Z) (data : Transaction.t -> Transaction.t)
  (st : Store) : option (Transaction.t * Store) :=
  match find (fun r => Transaction.id r =? id) (transactions st) with
  | None => None
  | Some r =>
      Some (data r,
            mkStore (savings st)
              (set_rows Transaction.id id data (transactions st))
              (nextSavingId st) (nextTransactionId st))
  end.

Definition delete (id : Z) (st : Store) : option Store :=
  match find (fun r => Transaction.id r =? id) (transactions st) with
  | None => None
  | Some _ =>
      Some (mkStore (savings st)
              (filter (fun t => negb (Transaction.id t =? id))
                      (transactions st))
              (nextSavingId st) (nextTransactionId st))
  end.

(** [deleteMany({ where })]: never throws. *)
Definition deleteMany (where_ : Transaction.t -> bool) (st : Store)
  : Store :=
  mkStore (savings st)
    (filter (fun t => negb (where_ t)) (transactions st))
    (nextSavingId st) (nextTransactionId st).

End transaction.

(** The relation [saving.transactions] and its inverse
    [transaction.saving], as [include] loads them. *)
Definition transactions_of (s : Saving.t) (st : Store)
  : list Transaction.t :=
  filter (fun t => Transaction.savingId t =? Saving.id s) (transactions st).

Definition saving_of (t : Transaction.t) (st : Store) : option Saving.t :=
  find (fun s => Saving.id s =? Transaction.savingId t) (savings st).

End Prisma.

(** ** Responses *)

Module AllSummary.
Record t : Type := mk {
  totalSpent : Q;
  remainingBudget : Q;
  transactionCount : nat
}.
End AllSummary.

Module MonthSummary.
Record t : Type := mk {
  totalSpent : Q;
  remainingBudget : Q;
  expectedSpent : Q;
  difference : Q;
  daysInMonth : option Z;
  currentDay : Z
}.
End MonthSummary.

(** A transaction of [GET /transactions/saving/:savingId] with the
    computed fields spread next to its own, and the saving that the
    [include] of the query asks for. *)
Module Calc.
Record t : Type := mk {
  transaction : Transaction.t;
  saving : option Saving.t;
  runningTotal : Q;
  expectedSpent : Q;
  difference : string
}.
End Calc.

Module Pagination.
Record t : Type := mk {
  total : nat;
  limit : nat;
  offset : nat;
  hasMore : bool
}.
End Pagination.

Inductive body : Type :=
| Err (error : string)
| ErrCount (error : string) (transactionCount : nat)
| SavingUpdated (message : string) (saving : Saving.t)
| SavingsWithSummary
    (l : list (Saving.t * list Transaction.t * AllSummary.t))
| SavingMonth (saving : Saving.t) (transactions : list Transaction.t)
    (summary : MonthSummary.t)
| SavingDeleted (message : string) (id month year : Z)
| SavingForceDeleted (message : string) (id month year : Z)
    (deletedTransactions : nat)
| TransactionMsg (message : string) (transaction : Transaction.t)
    (saving : option Saving.t)
| TransactionsWithCalculations (l : list Calc.t)
| TransactionsPage (transactions : list (Transaction.t * option Saving.t))
    (pagination : Pagination.t)
| Msg (message : string).

Record response : Type := mkResponse { status : Z; json : body }.

Definition internal_error : response :=
  mkResponse 500 (Err "Internal server error").

Module Prisma_tx.

(** A statement sent to a database that may stop answering: when it is
    not [served], or when the call itself fails, the statement throws
    ([None]) and has written nothing. *)
Definition statement (served : bool) (call : Store -> option Store)
  (st : Store) : option Store :=
  if served then call st else None.

(** The statements of a callback, one [await] after the other, on the
    live store: each write stays once it is made, and the first
    statement that throws ends the run.  The result tells whether the
    callback returned and gives the store it leaves. *)
Fixpoint run (statements : list (Store -> option Store)) (st : Store)
  : bool * Store :=
  match statements with
  | [] => (true, st)
  | statement :: rest =>
      match statement st with
      | Some st' => run rest st'
      | None => (false, st)
      end
  end.

(** [prisma.$transaction(async (prisma) => ...)]: the writes of the
    callback are committed when it returns; when it throws they are
    rolled back, the store is the one the transaction started from, and
    the exception reaches the caller. *)
Definition transaction_ (callback : list (Store -> option Store))
  (st : Store) : bool * Store :=
  match run callback st with
  | (true, st') => (true, st')
  | (false, _) => (false, st)
  end.

End Prisma_tx.

(** ** The savings router *)

Module SavingsRoute.

(** The fields read from [req.body] by [POST /savings]. *)
Module Body.
Record t : Type := mk {
  monthlyIncome : option Q;
  savingTarget : option Q;
  period : option string;
  month : option Z;
  year : option Z;
  weekNumber : option Z
}.
End Body.

Definition bad_request (error : string) : response :=
  mkResponse 400 (Err error).

Definition not_found (error : string) : response :=
  mkResponse 404 (Err error).

Definition saved (o : option (Saving.t * Store)) (st : Store)
  : response * Store :=
  match o with
  | Some (saving, st') =>
      (mkResponse 200 (SavingUpdated "Savings updated successfully" saving),
       st')
  | None => (internal_error, st)
  end.

(** The [where] of the weekly upsert, the compound unique key
    [userId_month_year_weekNumber]. *)
Definition weekly_key (userId month year weekNumber : Z) (r : Saving.t)
  : bool :=
  (Saving.userId r =? userId)
  && (Saving.month r =? month)
  && (Saving.year r =? year)
  && match Saving.weekNumber r with
     | Some w => w =? weekNumber
     | None => false
     end.

(** The [where] of the monthly lookup: [weekNumber: null]. *)
Definition monthly_key (userId month year : Z) (r : Saving.t) : bool :=
  (Saving.userId r =? userId)
  && (Saving.month r =? month)
  && (Saving.year r =? year)
  && match Saving.weekNumber r with
     | Some _ => false
     | None => true
     end.

(** The [update] and [data] objects of an update: the five fields they
    list. *)
Definition update_data
  (finalMonthlyIncome finalSavingTarget finalAvailableAmount
     finalDailyBudget : Q) (period : string) (r : Saving.t) : Saving.t :=
  Saving.mk (Saving.id r) (Saving.userId r)
    finalMonthlyIncome finalSavingTarget finalAvailableAmount
    finalDailyBudget period
    (Saving.month r) (Saving.year r) (Saving.weekNumber r).

(** The [create] and [data] objects of an insertion. *)
Definition create_data (userId : Z)
  (finalMonthlyIncome finalSavingTarget finalAvailableAmount
     finalDailyBudget : Q) (period : string) (month year : Z)
  (weekNumber : option Z) (id : Z) : Saving.t :=
  Saving.mk id userId
    finalMonthlyIncome finalSavingTarget finalAvailableAmount
    finalDailyBudget period month year weekNumber.

(** The number of days the available amount is spread over: NaN
    ([None]) when [new Date(year, month, 0)] is an invalid date. *)
Definition days_of (period : string) (year month : Z) : option Z :=
  if String.eqb period "weekly" then Some 7
  else option_map JsDate.getDate (JsDate.Date_ymd year month 0).

(** [router.post('/')]: create or update a period. *)
Definition post (userId : Z) (req : Body.t) (st : Store)
  : response * Store :=
  let monthlyIncome := Body.monthlyIncome req in
  let savingTarget := Body.savingTarget req in
  let period :=
    match Body.period req with Some p => p | None => "monthly"%string end in
  let month := Body.month req in
  let year := Body.year req in
  let weekNumber := Body.weekNumber req in
  if negb (Js.truthyQ monthlyIncome) || negb (Js.truthyQ savingTarget) then
    (bad_request "Monthly income and saving target are required", st)
  else
  let finalMonthlyIncome := Js.parseFloat monthlyIncome in
  let finalSavingTarget := Js.parseFloat savingTarget in
  let finalAvailableAmount := (finalMonthlyIncome - finalSavingTarget)%Q in
  let days := days_of period (Js.parseInt year) (Js.parseInt month) in
  let finalDailyBudget :=
    option_map (fun days => (finalAvailableAmount / inject_Z days)%Q) days in
  if Qle_bool finalMonthlyIncome 0 then
    (bad_request "Monthly income must be positive", st)
  else if Js.Qlt_bool finalSavingTarget 0 then
    (bad_request "Saving target cannot be negative", st)
  else if Qle_bool finalMonthlyIncome finalSavingTarget then
    (bad_request
       "Saving target cannot be equal or greater than monthly income", st)
  else if negb (Js.truthyZ month) || negb (Js.truthyZ year) then
    (bad_request "Month and year are required", st)
  else if (Js.parseInt month <? 1) || (12 <? Js.parseInt month) then
    (bad_request "Month must be between 1 and 12", st)
  else
  let update_ dailyBudget :=
    update_data finalMonthlyIncome finalSavingTarget finalAvailableAmount
      dailyBudget period in
  let create_ dailyBudget :=
    create_data userId finalMonthlyIncome finalSavingTarget
      finalAvailableAmount dailyBudget period
      (Js.parseInt month) (Js.parseInt year) in
  if String.eqb period "weekly" then
    if negb (Js.truthyZ weekNumber) then
      (bad_request "Week number is required for weekly savings", st)
    else
      saved
        (Prisma.with_float finalDailyBudget
           (fun dailyBudget =>
              Prisma.saving.upsert
                (weekly_key userId (Js.parseInt month) (Js.parseInt year)
                   (Js.parseInt weekNumber))
                (update_ dailyBudget)
                (create_ dailyBudget (Some (Js.parseInt weekNumber))) st))
        st
  else
    let existingSaving :=
      Prisma.saving.findFirst
        (monthly_key userId (Js.parseInt month) (Js.parseInt year)) st in
    match existingSaving with
    | Some existing =>
        saved
          (Prisma.with_float finalDailyBudget
             (fun dailyBudget =>
                Prisma.saving.update (Saving.id existing)
                  (update_ dailyBudget) st))
          st
    | None =>
        saved
          (Prisma.with_float finalDailyBudget
             (fun dailyBudget =>
                Some (Prisma.saving.create (create_ dailyBudget None) st)))
          st
    end.

(** [transactions.reduce((sum, transaction) => sum + transaction.amount, 0)] *)
Definition totalSpent (transactions : list Transaction.t) : Q :=
  fold_left (fun sum transaction => (sum + Transaction.amount transaction)%Q)
            transactions 0%Q.

(** [router.get('/all')] *)
Definition get_all (userId : Z) (st : Store) : response * Store :=
  let savings :=
    Prisma.orderBy Prisma.year_month_desc
      (Prisma.saving.findMany (fun r => Saving.userId r =? userId) st) in
  let savingsWithSummary :=
    map (fun saving =>
           let transactions := Prisma.transactions_of saving st in
           let totalSpent := totalSpent transactions in
           let remainingBudget :=
             (Saving.availableAmount saving - totalSpent)%Q in
           (saving, transactions,
            AllSummary.mk totalSpent remainingBudget
                          (List.length transactions)))
        savings in
  (mkResponse 200 (SavingsWithSummary savingsWithSummary), st).

(** [router.get('/:year/:month')]; [now] is the clock read by
    [new Date()]. *)
Definition get_year_month (now : Z) (userId : Z) (year month : Z)
  (st : Store) : response * Store :=
  let saving :=
    Prisma.saving.findFirst (monthly_key userId month year) st in
  match saving with
  | None => (not_found "Savings not found for this month", st)
  | Some saving =>
      let transactions :=
        Prisma.orderBy Prisma.date_desc (Prisma.transactions_of saving st) in
      let totalSpent := totalSpent transactions in
      let remainingBudget := (Saving.availableAmount saving - totalSpent)%Q in
      let daysInMonth :=
        option_map JsDate.getDate (JsDate.Date_ymd year month 0) in
      let currentDay := JsDate.getDate now in
      let expectedSpent :=
        (Saving.dailyBudget saving * inject_Z currentDay)%Q in
      let difference := (expectedSpent - totalSpent)%Q in
      (mkResponse 200
         (SavingMonth saving transactions
            (MonthSummary.mk totalSpent remainingBudget expectedSpent
               difference daysInMonth currentDay)),
       st)
  end.

(** [router.delete('/:id')]: the safe deletion. *)
Definition delete (userId : Z) (savingId : Z) (st : Store)
  : response * Store :=
  let saving :=
    Prisma.saving.findFirst
      (fun r => (Saving.id r =? savingId) && (Saving.userId r =? userId))
      st in
  match saving with
  | None => (not_found "Saving not found or does not belong to you", st)
  | Some saving =>
      let transactions := Prisma.transactions_of saving st in
      if (0 <? List.length transactions)%nat then
        (mkResponse 400
           (ErrCount
              "Cannot delete saving with existing transactions. Please delete all transactions first."
              (List.length transactions)),
         st)
      else
        match Prisma.saving.delete savingId st with
        | None => (internal_error, st)
        | Some st' =>
            (mkResponse 200
               (SavingDeleted "Saving deleted successfully"
                  (Saving.id saving) (Saving.month saving)
                  (Saving.year saving)),
             st')
        end
  end.

(** [router.delete('/:id/force')]: the period with its transactions.
    [served n] tells whether the database answers the [n]-th statement
    of the transaction; the store of the result is the one the database
    is left with, also when the handler ends in its [catch]. *)
Definition delete_force_on (served : nat -> bool) (userId : Z)
  (savingId : Z) (st : Store) : response * Store :=
  let saving :=
    Prisma.saving.findFirst
      (fun r => (Saving.id r =? savingId) && (Saving.userId r =? userId))
      st in
  match saving with
  | None => (not_found "Saving not found or does not belong to you", st)
  | Some saving =>
      let transactionCount :=
        List.length (Prisma.transactions_of saving st) in
      match
        Prisma_tx.transaction_
          [Prisma_tx.statement (served 0%nat)
             (fun prisma =>
                Some (Prisma.transaction.deleteMany
                        (fun t => Transaction.savingId t =? savingId)
                        prisma));
           Prisma_tx.statement (served 1%nat)
             (fun prisma => Prisma.saving.delete savingId prisma)]
          st
      with
      | (false, st') => (internal_error, st')
      | (true, st') =>
          (mkResponse 200
             (SavingForceDeleted
                "Saving and all associated transactions deleted successfully"
                (Saving.id saving) (Saving.month saving)
                (Saving.year saving) transactionCount),
           st')
      end
  end.

(** The handler on a database that answers every statement. *)
Definition delete_force : Z -> Z -> Store -> response * Store :=
  delete_force_on (fun _ => true).

End SavingsRoute.

(** ** [routes/transactions.js] *)

Module TransactionsRoute.

(** The fields read from [req.body] by [POST /transactions]. *)
Module PostBody.
Record t : Type := mk {
  amount : option Q;
  description : option string;
  date : option Z;
  savingId : option Z
}.
End PostBody.

(** The fields read from [req.body] by [PUT /transactions/:id].  A
    description may be absent ([None]), [null] ([Some None]) or a
    string. *)
Module PutBody.
Record t : Type := mk {
  amount : option Q;
  description : option (option string);
  date : option Z
}.
End PutBody.

Definition bad_request (error : string) : response :=
  mkResponse 400 (Err error).

Definition not_found (error : string) : response :=
  mkResponse 404 (Err error).

(** [router.post('/')]; [now] is the clock read by [new Date()]. *)
Definition post (now : Z) (userId : Z) (req : PostBody.t) (st : Store)
  : response * Store :=
  let amount := PostBody.amount req in
  let description := PostBody.description req in
  let date := PostBody.date req in
  let savingId := PostBody.savingId req in
  if negb (Js.truthyQ amount) || negb (Js.truthyZ savingId) then
    (bad_request "Amount and saving ID are required", st)
  else if Qle_bool (Js.parseFloat amount) 0 then
    (bad_request "Amount must be positive", st)
  else
    let saving :=
      Prisma.saving.findFirst
        (fun r =>
           (Saving.id r =? Js.parseInt savingId)
           && (Saving.userId r =? userId))
        st in
    match saving with
    | None => (not_found "Saving not found", st)
    | Some _ =>
        let (transaction, st') :=
          Prisma.transaction.create
            (fun id =>
               Transaction.mk id userId (Js.parseInt savingId)
                 (Js.parseFloat amount) "expense"
                 (Some (Js.or_string description ""))
                 (if Js.truthyZ date then JsDate.Date_of (Js.parseInt date)
                  else now))
            st in
        (mkResponse 201
           (TransactionMsg "Transaction created successfully" transaction
              (Prisma.saving_of transaction st')),
         st')
    end.

(** The callback of [transactions.map] with the variable
    [runningTotal] it updates, threaded through the traversal. *)
Fixpoint with_calculations (saving : Saving.t) (st : Store)
  (runningTotal : Q) (transactions : list Transaction.t) : list Calc.t :=
  match transactions with
  | [] => []
  | transaction :: rest =>
      let runningTotal :=
        (runningTotal + Transaction.amount transaction)%Q in
      let transactionDate := JsDate.Date_of (Transaction.date transaction) in
      let dayOfMonth := JsDate.getDate transactionDate in
      let expectedSpent :=
        (Saving.dailyBudget saving * inject_Z dayOfMonth)%Q in
      let difference := (expectedSpent - runningTotal)%Q in
      Calc.mk transaction (Prisma.saving_of transaction st)
        runningTotal expectedSpent
        (if Qle_bool 0 difference
         then String "+" (Js.toFixed2 difference)
         else Js.toFixed2 difference)
      :: with_calculations saving st runningTotal rest
  end.

(** [router.get('/saving/:savingId')] *)
Definition get_saving (userId : Z) (savingId : Z) (st : Store)
  : response * Store :=
  let saving :=
    Prisma.saving.findFirst
      (fun r => (Saving.id r =? savingId) && (Saving.userId r =? userId))
      st in
  match saving with
  | None => (not_found "Saving not found", st)
  | Some saving =>
      let transactions :=
        if Prisma.select_ Saving.fields
             ["monthlyAmount"; "dailyBudget"; "month"; "year"]%string
        then
          Some (Prisma.orderBy Prisma.date_desc
                  (Prisma.transaction.findMany
                     (fun t =>
                        (Transaction.savingId t =? savingId)
                        && (Transaction.userId t =? userId))
                     st))
        else None in
      match transactions with
      | None => (internal_error, st)
      | Some transactions =>
          let transactionsWithCalculations :=
            with_calculations saving st 0%Q transactions in
          (mkResponse 200
             (TransactionsWithCalculations
                (rev transactionsWithCalculations)),
           st)
      end
  end.

(** [router.get('/')]: [limit] and [offset] come from the query string,
    50 and 0 when absent. *)
Definition get_all (userId : Z) (limit offset : option nat) (st : Store)
  : response * Store :=
  let limit := match limit with Some n => n | None => 50%nat end in
  let offset := match offset with Some n => n | None => 0%nat end in
  let transactions :=
    firstn limit
      (skipn offset
         (Prisma.orderBy Prisma.date_desc
            (Prisma.transaction.findMany
               (fun t => Transaction.userId t =? userId) st))) in
  let total :=
    Prisma.transaction.count (fun t => Transaction.userId t =? userId) st in
  (mkResponse 200
     (TransactionsPage
        (map (fun t => (t, Prisma.saving_of t st)) transactions)
        (Pagination.mk total limit offset (offset + limit <? total)%nat)),
   st).

(** The [data] of the update: each spread adds its field when its
    guard holds. *)
Definition put_data (req : PutBody.t) (r : Transaction.t) : Transaction.t :=
  let amount := PutBody.amount req in
  let description := PutBody.description req in
  let date := PutBody.date req in
  Transaction.mk (Transaction.id r) (Transaction.userId r)
    (Transaction.savingId r)
    (if Js.truthyQ amount then Js.parseFloat amount
     else Transaction.amount r)
    (Transaction.type r)
    (match description with
     | Some d => d
     | None => Transaction.description r
     end)
    (if Js.truthyZ date then JsDate.Date_of (Js.parseInt date)
     else Transaction.date r).

(** [router.put('/:id')] *)
Definition put (userId : Z) (id : Z) (req : PutBody.t) (st : Store)
  : response * Store :=
  let existingTransaction :=
    Prisma.transaction.findFirst
      (fun t => (Transaction.id t =? id) && (Transaction.userId t =? userId))
      st in
  match existingTransaction with
  | None => (not_found "Transaction not found", st)
  | Some _ =>
      match Prisma.transaction.update id (put_data req) st with
      | None => (internal_error, st)
      | Some (transaction, st') =>
          (mkResponse 200
             (TransactionMsg "Transaction updated successfully" transaction
                (Prisma.saving_of transaction st')),
           st')
      end
  end.

(** [router.delete('/:id')] *)
Definition delete (userId : Z) (id : Z) (st : Store) : response * Store :=
  let existingTransaction :=
    Prisma.transaction.findFirst
      (fun t => (Transaction.id t =? id) && (Transaction.userId t =? userId))
      st in
  match existingTransaction with
  | None => (not_found "Transaction not found", st)
  | Some _ =>
      match Prisma.transaction.delete id st with
      | None => (internal_error, st)
      | Some st' =>
          (mkResponse 200 (Msg "Transaction deleted successfully"), st')
      end
  end.

End TransactionsRoute.

(** ** The engine as one transition function *)

Inductive request : Type :=
| PostSaving (req : SavingsRoute.Body.t)
| GetSavingsAll
| GetSavingMonth (year month : Z)
| DeleteSaving (id : Z)
| DeleteSavingForce (id : Z)
| PostTransaction (req : TransactionsRoute.PostBody.t)
| GetTransactionsOfSaving (savingId : Z)
| GetTransactions (limit offset : option nat)
| PutTransaction (id : Z) (req : TransactionsRoute.PutBody.t)
| DeleteTransaction (id : Z).

(** One request of the authenticated user [userId] served at time
    [now]. *)
Definition handle (now : Z) (userId : Z) (r : request) (st : Store)
  : response * Store :=
  match r with
  | PostSaving req => SavingsRoute.post userId req st
  | GetSavingsAll => SavingsRoute.get_all userId st
  | GetSavingMonth year month =>
      SavingsRoute.get_year_month now userId year month st
  | DeleteSaving id => SavingsRoute.delete userId id st
  | DeleteSavingForce id => SavingsRoute.delete_force userId id st
  | PostTransaction req => TransactionsRoute.post now userId req st
  | GetTransactionsOfSaving savingId =>
      TransactionsRoute.get_saving userId savingId st
  | GetTransactions limit offset =>
      TransactionsRoute.get_all userId limit offset st
  | PutTransaction id req => TransactionsRoute.put userId id req st
  | DeleteTransaction id => TransactionsRoute.delete userId id st
  end.

(** The rows a response carries. *)
Definition savings_in (b : body) : list Saving.t :=
  match b with
  | SavingUpdated _ saving => [saving]
  | SavingsWithSummary l => map (fun x => fst (fst x)) l
  | SavingMonth saving _ _ => [saving]
  | TransactionMsg _ _ (Some saving) => [saving]
  | TransactionsWithCalculations l =>
      flat_map (fun c => match Calc.saving c with
                         | Some s => [s]
                         | None => []
                         end) l
  | TransactionsPage l _ =>
      flat_map (fun x => match snd x with Some s => [s] | None => [] end) l
  | _ => []
  end.

Definition transactions_in (b : body) : list Transaction.t :=
  match b with
  | SavingsWithSummary l => flat_map (fun x => snd (fst x)) l
  | SavingMonth _ transactions _ => transactions
  | TransactionMsg _ transaction _ => [transaction]
  | TransactionsWithCalculations l => map Calc.transaction l
  | TransactionsPage l _ => map fst l
  | _ => []
  end.

(** ** Invariants of the store *)

(** The uniqueness key of a period. *)
Definition key (s : Saving.t) : Z * Z * Z * option Z :=
  (Saving.userId s, Saving.month s, Saving.year s, Saving.weekNumber s).

(** What holds of every store the engine can reach from the empty one:
    primary keys are distinct and below the auto-increment counters, a
    transaction refers to a period of its own user, and no two periods
    share a uniqueness key. *)
Record wf_store (st : Store) : Prop := mk_wf {
  wf_saving_ids : NoDup (map Saving.id (savings st));
  wf_transaction_ids : NoDup (map Transaction.id (transactions st));
  wf_saving_range :
    forall s, In s (savings st) -> 1 <= Saving.id s < nextSavingId st;
  wf_transaction_range :
    forall t, In t (transactions st) ->
              1 <= Transaction.id t < nextTransactionId st;
  wf_owner :
    forall t, In t (transactions st) ->
      exists s, In s (savings st)
                /\ Saving.id s = Transaction.savingId t
                /\ Saving.userId s = Transaction.userId t;
  wf_keys : NoDup (map key (savings st));
  wf_counters : 1 <= nextSavingId st /\ 1 <= nextTransactionId st
}.

Definition empty_store : Store := mkStore [] [] 1 1.

(** The stores the engine reaches, one request after the other. *)
Inductive reachable : Store -> Prop :=
| reach_empty : reachable empty_store
| reach_step (now userId : Z) (r : request) (st : Store) :
    reachable st -> reachable (snd (handle now userId r st)).

(** ** Isolation between users *)

(** The answer to a request of [userId] carries rows of that user only,
    and the rows of every other user are in the store as before. *)
Definition isolated (userId : Z) (st : Store) (out : response * Store)
  : Prop :=
  (forall s, In s (savings_in (json (fst out))) -> Saving.userId s = userId)
  /\ (forall t, In t (transactions_in (json (fst out))) ->
                Transaction.userId t = userId)
  /\ (forall other, other <> userId ->
        filter (fun s => Saving.userId s =? other) (savings (snd out))
        = filter (fun s => Saving.userId s =? other) (savings st)
        /\ filter (fun t => Transaction.userId t =? other)
                  (transactions (snd out))
           = filter (fun t => Transaction.userId t =? other)
                    (transactions st)).

(** The request names, by its id, a period or a transaction that exists
    and belongs to another user; for the creation of a transaction, whose
    amount is checked first, the amount is a positive number. *)
Definition owned_by_other (userId : Z) (r : request) (st : Store) : Prop :=
  match r with
  | DeleteSaving id | DeleteSavingForce id | GetTransactionsOfSaving id =>
      exists s, In s (savings st) /\ Saving.id s = id
                /\ Saving.userId s <> userId
  | PostTransaction req =>
      exists amount id s,
        TransactionsRoute.PostBody.amount req = Some amount
        /\ (0 < amount)%Q
        /\ TransactionsRoute.PostBody.savingId req = Some id
        /\ In s (savings st) /\ Saving.id s = id
        /\ Saving.userId s <> userId
  | PutTransaction id _ | DeleteTransaction id =>
      exists t, In t (transactions st) /\ Transaction.id t = id
                /\ Transaction.userId t <> userId
  | PostSaving _ | GetSavingsAll | GetSavingMonth _ _ | GetTransactions _ _ =>
      False
  end.

(** ** Inputs of the upsert *)

(** The uniqueness key a request of [userId] addresses. *)
Definition req_key (userId : Z) (req : SavingsRoute.Body.t)
  : Z * Z * Z * option Z :=
  (userId,
   Js.parseInt (SavingsRoute.Body.month req),
   Js.parseInt (SavingsRoute.Body.year req),
   match SavingsRoute.Body.period req with
   | Some p =>
       if String.eqb p "weekly"
       then Some (Js.parseInt (SavingsRoute.Body.weekNumber req))
       else None
   | None => None
   end).

Definition is_weekly (req : SavingsRoute.Body.t) : bool :=
  match SavingsRoute.Body.period req with
  | Some p => String.eqb p "weekly"
  | None => false
  end.

(** The requests that pass the checks of [POST /savings]: an income
    that is a finite number, a positive target below it, a month in
    1..12, a year other than 0, and a week number other than 0 for a
    weekly period. *)
Definition valid (req : SavingsRoute.Body.t) : Prop :=
  (exists income target,
      SavingsRoute.Body.monthlyIncome req = Some income
      /\ SavingsRoute.Body.savingTarget req = Some target
      /\ (0 < target)%Q /\ (target < income)%Q
      /\ (income <= Js.MAX_VALUE)%Q)
  /\ (exists month, SavingsRoute.Body.month req = Some month
                    /\ 1 <= month <= 12)
  /\ (exists year, SavingsRoute.Body.year req = Some year /\ year <> 0)
  /\ (is_weekly req = true ->
      exists week, SavingsRoute.Body.weekNumber req = Some week
                   /\ week <> 0).

(** The values of an [INTEGER] column. *)
Definition int32 (z : Z) : Prop := -2147483648 <= z <= 2147483647.

(** The requests [POST /savings] takes and stores: those that pass its
    checks and whose integers can be stored.  The year of a monthly
    period is one all of whose months end within the range of [Date],
    from -271820 to 275759; the year and the week number of a weekly
    period are values of an [INTEGER] column. *)
Definition accepted (req : SavingsRoute.Body.t) : Prop :=
  (exists income target,
      SavingsRoute.Body.monthlyIncome req = Some income
      /\ SavingsRoute.Body.savingTarget req = Some target
      /\ (0 < target)%Q /\ (target < income)%Q
      /\ (income <= Js.MAX_VALUE)%Q)
  /\ (exists month, SavingsRoute.Body.month req = Some month
                    /\ 1 <= month <= 12)
  /\ (exists year, SavingsRoute.Body.year req = Some year /\ year <> 0
                   /\ if is_weekly req then int32 year
                      else -271820 <= year <= 275759)
  /\ (is_weekly req = true ->
      exists week, SavingsRoute.Body.weekNumber req = Some week
                   /\ week <> 0 /\ int32 week).

(** The call to the store made by [POST /savings] for a request that has
    passed every check. *)
Definition written (userId : Z) (req : SavingsRoute.Body.t) (st : Store)
  : option (Saving.t * Store) :=
  let period :=
    match SavingsRoute.Body.period req with
    | Some p => p
    | None => "monthly"%string
    end in
  let income := Js.parseFloat (SavingsRoute.Body.monthlyIncome req) in
  let target := Js.parseFloat (SavingsRoute.Body.savingTarget req) in
  let month := Js.parseInt (SavingsRoute.Body.month req) in
  let year := Js.parseInt (SavingsRoute.Body.year req) in
  let week := Js.parseInt (SavingsRoute.Body.weekNumber req) in
  let daily :=
    option_map (fun days => ((income - target) / inject_Z days)%Q)
      (SavingsRoute.days_of period year month) in
  let update_ daily :=
    SavingsRoute.update_data income target (income - target)%Q daily period in
  let create_ daily :=
    SavingsRoute.create_data userId income target (income - target)%Q daily
      period month year in
  if String.eqb period "weekly" then
    Prisma.with_float daily
      (fun daily =>
         Prisma.saving.upsert (SavingsRoute.weekly_key userId month year week)
           (update_ daily) (create_ daily (Some week)) st)
  else
    match
      Prisma.saving.findFirst (SavingsRoute.monthly_key userId month year) st
    with
    | Some existing =>
        Prisma.with_float daily
          (fun daily =>
             Prisma.saving.update (Saving.id existing) (update_ daily) st)
    | None =>
        Prisma.with_float daily
          (fun daily => Some (Prisma.saving.create (create_ daily None) st))
    end.

(** The checks of [POST /savings], all passed. *)
Definition passed (req : SavingsRoute.Body.t) : bool :=
  let income := Js.parseFloat (SavingsRoute.Body.monthlyIncome req) in
  let target := Js.parseFloat (SavingsRoute.Body.savingTarget req) in
  let month := Js.parseInt (SavingsRoute.Body.month req) in
  Js.truthyQ (SavingsRoute.Body.monthlyIncome req)
  && Js.truthyQ (SavingsRoute.Body.savingTarget req)
  && negb (Qle_bool income 0)
  && negb (Js.Qlt_bool target 0)
  && negb (Qle_bool income target)
  && Js.truthyZ (SavingsRoute.Body.month req)
  && Js.truthyZ (SavingsRoute.Body.year req)
  && negb (month <? 1) && negb (12 <? month)
  && (negb (is_weekly req) || Js.truthyZ (SavingsRoute.Body.weekNumber req)).

(** What [written] does, by cases: it rewrites the rows of one id in
    place, or appends a row under the next id. *)
Inductive outcome (userId : Z) (req : SavingsRoute.Body.t) (st : Store)
  (s : Saving.t) (st' : Store) : Prop :=
| Updated (r : Saving.t) (data : Saving.t -> Saving.t) :
    In r (savings st) ->
    (if is_weekly req
     then SavingsRoute.weekly_key userId
            (Js.parseInt (SavingsRoute.Body.month req))
            (Js.parseInt (SavingsRoute.Body.year req))
            (Js.parseInt (SavingsRoute.Body.weekNumber req)) r
     else SavingsRoute.monthly_key userId
            (Js.parseInt (SavingsRoute.Body.month req))
            (Js.parseInt (SavingsRoute.Body.year req)) r) = true ->
    (forall x, data x =
       Saving.mk (Saving.id x) (Saving.userId x)
         (Saving.monthlyIncome s) (Saving.savingTarget s)
         (Saving.availableAmount s) (Saving.dailyBudget s)
         (Saving.period s)
         (Saving.month x) (Saving.year x) (Saving.weekNumber x)) ->
    (exists r', In r' (savings st) /\ Saving.id r' = Saving.id r
                /\ s = data r') ->
    st' = mkStore (Prisma.set_rows Saving.id (Saving.id r) data (savings st))
            (transactions st) (nextSavingId st) (nextTransactionId st) ->
    outcome userId req st s st'
| Created :
    (forall r, In r (savings st) ->
       (if is_weekly req
        then SavingsRoute.weekly_key userId
               (Js.parseInt (SavingsRoute.Body.month req))
               (Js.parseInt (SavingsRoute.Body.year req))
               (Js.parseInt (SavingsRoute.Body.weekNumber req)) r
        else SavingsRoute.monthly_key userId
               (Js.parseInt (SavingsRoute.Body.month req))
               (Js.parseInt (SavingsRoute.Body.year req)) r) = false) ->
    Saving.id s = nextSavingId st ->
    Saving.userId s = userId ->
    Saving.month s = Js.parseInt (SavingsRoute.Body.month req) ->
    Saving.year s = Js.parseInt (SavingsRoute.Body.year req) ->
    Saving.weekNumber s =
      (if is_weekly req
       then Some (Js.parseInt (SavingsRoute.Body.weekNumber req))
       else None) ->
    st' = mkStore (savings st ++ [s]) (transactions st)
            (nextSavingId st + 1) (nextTransactionId st) ->
    outcome userId req st s st'.

(** The conditions under which the specification has the upsert fail
    with a validation error, as it lists them. *)
Definition listed_rejection (req : SavingsRoute.Body.t) : Prop :=
  SavingsRoute.Body.monthlyIncome req = None
  \/ SavingsRoute.Body.savingTarget req = None
  \/ (exists income,
        SavingsRoute.Body.monthlyIncome req = Some income /\ (income <= 0)%Q)
  \/ (exists target,
        SavingsRoute.Body.savingTarget req = Some target /\ (target < 0)%Q)
  \/ (exists income target,
        SavingsRoute.Body.monthlyIncome req = Some income
        /\ SavingsRoute.Body.savingTarget req = Some target
        /\ (income <= target)%Q)
  \/ SavingsRoute.Body.month req = None
  \/ SavingsRoute.Body.year req = None
  \/ (exists month,
        SavingsRoute.Body.month req = Some month /\ (month < 1 \/ 12 < month)).

(** The further rejection the router makes: a weekly period without its
    week number. *)
Definition weekly_without_week (req : SavingsRoute.Body.t) : Prop :=
  is_weekly req = true /\ SavingsRoute.Body.weekNumber req = None.

(** ** A small ledger used in the examples *)

Module Sample.

(** June 2024 of user 1: 150 available over 30 days, 5 a day. *)
Definition june : Saving.t :=
  Saving.mk 1 1 1000 850 150 5 "monthly" 6 2024 None.

(** The first of June 2024 at [h] o'clock. *)
Definition june_1st (h : Z) : Z :=
  JsDate.MakeDay 2024 5 1 * JsDate.msPerDay + h * 3600000.

Definition spent (id : Z) (amount : Q) (h : Z) : Transaction.t :=
  Transaction.mk id 1 1 amount "expense" (Some ""%string) (june_1st h).

(** Amounts 10, 20 and 30, in this order in time. *)
Definition ledger : Store :=
  mkStore [june] [spent 1 10 8; spent 2 20 9; spent 3 30 10] 2 4.

(** The same period of user 1 next to a period of user 2. *)
Definition other_june : Saving.t :=
  Saving.mk 2 2 900 300 600 20 "monthly" 6 2024 None.

Definition other_spent : Transaction.t :=
  Transaction.mk 2 2 2 40 "expense" None (june_1st 9).

Definition two_users : Store :=
  mkStore [june; other_june] [spent 1 10 8; other_spent] 3 3.

End Sample.

(** Requests to [POST /savings] used in the examples. *)
Module ValidationExamples.

Definition weekly_no_week : SavingsRoute.Body.t :=
  SavingsRoute.Body.mk (Some 1000%Q) (Some 100%Q) (Some "weekly"%string)
    (Some 6) (Some 2024) None.

Definition june_budget : SavingsRoute.Body.t :=
  SavingsRoute.Body.mk (Some 1000%Q) (Some 850%Q) None
    (Some 6) (Some 2024) None.

Definition june_raise : SavingsRoute.Body.t :=
  SavingsRoute.Body.mk (Some 1200%Q) (Some 850%Q) (Some "monthly"%string)
    (Some 6) (Some 2024) None.

Definition no_target : SavingsRoute.Body.t :=
  SavingsRoute.Body.mk (Some 1000%Q) None None (Some 6) (Some 2024) None.

Definition zero_target : SavingsRoute.Body.t :=
  SavingsRoute.Body.mk (Some 1000%Q) (Some 0%Q) None
    (Some 6) (Some 2024) None.

(** June of the year 300000, which no [Date] reaches. *)
Definition far_june : SavingsRoute.Body.t :=
  SavingsRoute.Body.mk (Some 1000%Q) (Some 850%Q) None
    (Some 6) (Some 300000) None.

End ValidationExamples.


(** Newest first. *)
Definition newer_first (a b : Transaction.t) : Prop :=
  Transaction.date b <= Transaction.date a.

(** The requests that only read. *)
Definition is_read (r : request) : bool :=
  match r with
  | GetSavingsAll | GetSavingMonth _ _
  | GetTransactionsOfSaving _ | GetTransactions _ _ => true
  | _ => false
  end.


(** The later period first: by year, then by month. *)
Definition later_first (a b : Saving.t) : Prop :=
  Saving.year b < Saving.year a
  \/ (Saving.year b = Saving.year a /\ Saving.month b <= Saving.month a).

(** The amounts of a list of transactions added up from 0, one after
    the other in the order of the list. *)
Definition sum_amounts (l : list Transaction.t) : Q :=
  fold_left (fun sum t => (sum + Transaction.amount t)%Q) l 0%Q.

(** The entries of [GET /savings/all]. *)
Definition overview_of (userId : Z) (st : Store)
  : list (Saving.t * list Transaction.t * AllSummary.t) :=
  match json (fst (SavingsRoute.get_all userId st)) with
  | SavingsWithSummary l => l
  | _ => []
  end.

(** Further requests used in the examples. *)
Module MoreExamples.

Definition week_two : SavingsRoute.Body.t :=
  SavingsRoute.Body.mk (Some 700%Q) (Some 70%Q) (Some "weekly"%string)
    (Some 6) (Some 2024) (Some 2).

End MoreExamples.

(** Deleting the transactions of a list one after the other, as their
    owner. *)
Definition delete_each (userId : Z) (l : list Transaction.t) (st : Store)
  : Store :=
  fold_left (fun acc t => snd (TransactionsRoute.delete userId
                                 (Transaction.id t) acc))
            l st.

(** [f] holds of the [n] integers from [z] on. *)
Fixpoint holds_from (f : Z -> bool) (n : nat) (z : Z) : bool :=
  match n with
  | O => true
  | S n' => if f z then holds_from f n' (z + 1) else false
  end.

(** ** Strings of the to-do list

    A title or a description is the list of its UTF-16 code units, so
    that [trim] can be modelled on the white space of the language. *)

Module JsString.

Definition t : Type := list N.

(** The code units of a literal of 7-bit characters. *)
Definition of_string (s : string) : t :=
  map N_of_ascii (list_ascii_of_string s).

(** WhiteSpace and LineTerminator of ECMAScript: what
    [String.prototype.trim] removes. *)
Definition is_white_space (c : N) : bool :=
  ((c =? 9) || (c =? 10) || (c =? 11) || (c =? 12) || (c =? 13)
   || (c =? 32) || (c =? 160) || (c =? 5760)
   || ((8192 <=? c) && (c <=? 8202))
   || (c =? 8232) || (c =? 8233) || (c =? 8239) || (c =? 8287)
   || (c =? 12288) || (c =? 65279))%N.

Fixpoint trim_start (s : t) : t :=
  match s with
  | [] => []
  | c :: rest => if is_white_space c then trim_start rest else s
  end.

Definition trim_end (s : t) : t := rev (trim_start (rev s)).

(** [String.prototype.trim] *)
Definition trim (s : t) : t := trim_end (trim_start s).

(** [s === ''] *)
Definition is_empty (s : t) : bool :=
  match s with [] => true | _ :: _ => false end.

(** [value || ''] *)
Definition or_empty (v : option t) : t :=
  match v with Some s => s | None => [] end.

End JsString.

(** A JSON value as [Boolean] sees it. *)
Inductive json_value : Type :=
| JNull
| JBool (b : bool)
| JNumber (q : Q)
| JString (s : JsString.t)
| JObject.

(** [Boolean(value)]: [null], [false], 0 and the empty string are
    falsy, objects and arrays are truthy. *)
Definition Boolean (v : json_value) : bool :=
  match v with
  | JNull => false
  | JBool b => b
  | JNumber q => negb (Qeq_bool q 0)
  | JString s => negb (JsString.is_empty s)
  | JObject => true
  end.

(** ** The table [todos] *)

Module Todo.
Record t : Type := mk {
  id : Z;
  userId : Z;
  title : JsString.t;
  description : option JsString.t;
  completed : bool;
  createdAt : Z
}.
End Todo.

Record TodoStore : Type := mkTodoStore {
  todos : list Todo.t;
  nextTodoId : Z
}.

Module TodoCounts.
Record t : Type := mk {
  total : nat;
  completed : nat;
  pending : nat
}.
End TodoCounts.

Module TodoPagination.
Record t : Type := mk {
  limit : nat;
  offset : nat;
  hasMore : bool
}.
End TodoPagination.

Inductive todo_body : Type :=
| TodoErr (error : string)
| TodoMsg (message : string) (todo : Todo.t)
| TodoList (todos : list Todo.t) (counts : TodoCounts.t)
    (pagination : TodoPagination.t)
| TodosDeleted (message : string) (deletedCount : nat)
| TodoOne (todo : Todo.t)
| TodoDone (message : string).

Record todo_response : Type :=
  mkTodoResponse { todo_status : Z; todo_json : todo_body }.

(** ** [routes/todos.js] *)

Module TodosRoute.

Module PostBody.
Record t : Type := mk {
  title : option JsString.t;
  description : option JsString.t
}.
End PostBody.

(** The fields of [PUT /todos/:id]: absent ([None]), [null]
    ([Some None]) or a string for the two texts, any JSON value for
    [completed]. *)
Module PutBody.
Record t : Type := mk {
  title : option (option JsString.t);
  description : option (option JsString.t);
  completed : option json_value
}.
End PutBody.

Definition fail (status : Z) (error : string) : todo_response :=
  mkTodoResponse status (TodoErr error).

Definition owned (id userId : Z) (r : Todo.t) : bool :=
  (Todo.id r =? id) && (Todo.userId r =? userId).

(** [prisma.todo.update({ where: { id }, data })] *)
Definition update (id : Z) (data : Todo.t -> Todo.t) (st : TodoStore)
  : option (Todo.t * TodoStore) :=
  match find (fun r => Todo.id r =? id) (todos st) with
  | None => None
  | Some r =>
      Some (data r,
            mkTodoStore (Prisma.set_rows Todo.id id data (todos st))
              (nextTodoId st))
  end.

(** [router.post('/')]; [now] is the clock behind the default of
    [createdAt]. *)
Definition post (now userId : Z) (req : PostBody.t) (st : TodoStore)
  : todo_response * TodoStore :=
  let title := PostBody.title req in
  let description := PostBody.description req in
  match title with
  | None => (fail 400 "Title is required", st)
  | Some title =>
      if JsString.is_empty title || JsString.is_empty (JsString.trim title)
      then (fail 400 "Title is required", st)
      else
        let todo :=
          Todo.mk (nextTodoId st) userId (JsString.trim title)
            (Some (JsString.or_empty (option_map JsString.trim description)))
            false now in
        (mkTodoResponse 201 (TodoMsg "Todo created successfully" todo),
         mkTodoStore (todos st ++ [todo]) (nextTodoId st + 1))
  end.

(** [orderBy: [{ completed: 'asc' }, { createdAt: 'desc' }]] *)
Definition pending_then_newest (x y : Todo.t) : bool :=
  (negb (Todo.completed x) && Todo.completed y)
  || (Bool.eqb (Todo.completed x) (Todo.completed y)
      && (Todo.createdAt y <=? Todo.createdAt x)).

(** The [where] of the listing: the user, and the state when the query
    has [completed]. *)
Definition listed (userId : Z) (completed : option JsString.t)
  (r : Todo.t) : bool :=
  (Todo.userId r =? userId)
  && match completed with
     | None => true
     | Some v =>
         Bool.eqb (Todo.completed r)
           (if list_eq_dec N.eq_dec v (JsString.of_string "true")
            then true else false)
     end.

(** [router.get('/')] *)
Definition get_all (userId : Z) (completed : option JsString.t)
  (limit offset : option nat) (st : TodoStore)
  : todo_response * TodoStore :=
  let limit := match limit with Some n => n | None => 100%nat end in
  let offset := match offset with Some n => n | None => 0%nat end in
  let where_ := listed userId completed in
  let todos_ :=
    firstn limit
      (skipn offset
         (Prisma.orderBy pending_then_newest (filter where_ (todos st)))) in
  let total := List.length (filter where_ (todos st)) in
  let completedCount :=
    List.length
      (filter (fun r => (Todo.userId r =? userId) && Todo.completed r)
              (todos st)) in
  let pendingCount :=
    List.length
      (filter (fun r => (Todo.userId r =? userId)
                        && negb (Todo.completed r))
              (todos st)) in
  (mkTodoResponse 200
     (TodoList todos_
        (TodoCounts.mk total completedCount pendingCount)
        (TodoPagination.mk limit offset (offset + limit <? total)%nat)),
   st).

(** [router.delete('/completed/all')] *)
Definition delete_completed (userId : Z) (st : TodoStore)
  : todo_response * TodoStore :=
  let where_ r := (Todo.userId r =? userId) && Todo.completed r in
  let count := List.length (filter where_ (todos st)) in
  (mkTodoResponse 200
     (TodosDeleted
        (NilZero.string_of_uint (Nat.to_uint count)
         ++ " completed todos deleted successfully")
        count),
   mkTodoStore (filter (fun r => negb (where_ r)) (todos st))
     (nextTodoId st)).

(** [router.get('/:id')] *)
Definition get_one (userId id : Z) (st : TodoStore)
  : todo_response * TodoStore :=
  match find (owned id userId) (todos st) with
  | None => (fail 404 "Todo not found", st)
  | Some todo => (mkTodoResponse 200 (TodoOne todo), st)
  end.

(** The [updateData] of an update, applied to a row; the title has been
    checked before. *)
Definition put_data (req : PutBody.t) (r : Todo.t) : Todo.t :=
  Todo.mk (Todo.id r) (Todo.userId r)
    (match PutBody.title req with
     | Some (Some title) => JsString.trim title
     | _ => Todo.title r
     end)
    (match PutBody.description req with
     | Some description =>
         Some (JsString.or_empty (option_map JsString.trim description))
     | None => Todo.description r
     end)
    (match PutBody.completed req with
     | Some completed => Boolean completed
     | None => Todo.completed r
     end)
    (Todo.createdAt r).

(** [router.put('/:id')]: a [null] title makes [title.trim()] throw,
    which the handler turns into the answer 500. *)
Definition put (userId id : Z) (req : PutBody.t) (st : TodoStore)
  : todo_response * TodoStore :=
  match find (owned id userId) (todos st) with
  | None => (fail 404 "Todo not found", st)
  | Some _ =>
      match PutBody.title req with
      | Some None => (fail 500 "Internal server error", st)
      | Some (Some title) =>
          if JsString.is_empty (JsString.trim title)
          then (fail 400 "Title cannot be empty", st)
          else
            match update id (put_data req) st with
            | None => (fail 500 "Internal server error", st)
            | Some (todo, st') =>
                (mkTodoResponse 200
                   (TodoMsg "Todo updated successfully" todo), st')
            end
      | None =>
          match update id (put_data req) st with
          | None => (fail 500 "Internal server error", st)
          | Some (todo, st') =>
              (mkTodoResponse 200
                 (TodoMsg "Todo updated successfully" todo), st')
          end
      end
  end.

(** [router.patch('/:id/toggle')] *)
Definition toggle (userId id : Z) (st : TodoStore)
  : todo_response * TodoStore :=
  match find (owned id userId) (todos st) with
  | None => (fail 404 "Todo not found", st)
  | Some existingTodo =>
      match
        update id
          (fun r =>
             Todo.mk (Todo.id r) (Todo.userId r) (Todo.title r)
               (Todo.description r) (negb (Todo.completed existingTodo))
               (Todo.createdAt r))
          st
      with
      | None => (fail 500 "Internal server error", st)
      | Some (todo, st') =>
          (mkTodoResponse 200
             (TodoMsg "Todo status updated successfully" todo), st')
      end
  end.

(** [router.delete('/:id')] *)
Definition delete (userId id : Z) (st : TodoStore)
  : todo_response * TodoStore :=
  match find (owned id userId) (todos st) with
  | None => (fail 404 "Todo not found", st)
  | Some _ =>
      match find (fun r => Todo.id r =? id) (todos st) with
      | None => (fail 500 "Internal server error", st)
      | Some _ =>
          (mkTodoResponse 200 (TodoDone "Todo deleted successfully"),
           mkTodoStore (filter (fun r => negb (Todo.id r =? id)) (todos st))
             (nextTodoId st))
      end
  end.

End TodosRoute.

(** One request to the to-do router. *)
Inductive todo_request : Type :=
| TodoPost (req : TodosRoute.PostBody.t)
| TodoGetAll (completed : option JsString.t) (limit offset : option nat)
| TodoDeleteCompleted
| TodoGet (id : Z)
| TodoPut (id : Z) (req : TodosRoute.PutBody.t)
| TodoToggle (id : Z)
| TodoDelete (id : Z).

Definition handle_todo (now userId : Z) (r : todo_request) (st : TodoStore)
  : todo_response * TodoStore :=
  match r with
  | TodoPost req => TodosRoute.post now userId req st
  | TodoGetAll completed limit offset =>
      TodosRoute.get_all userId completed limit offset st
  | TodoDeleteCompleted => TodosRoute.delete_completed userId st
  | TodoGet id => TodosRoute.get_one userId id st
  | TodoPut id req => TodosRoute.put userId id req st
  | TodoToggle id => TodosRoute.toggle userId id st
  | TodoDelete id => TodosRoute.delete userId id st
  end.

(** The to-dos a response carries. *)
Definition todos_in (b : todo_body) : list Todo.t :=
  match b with
  | TodoMsg _ todo | TodoOne todo => [todo]
  | TodoList l _ _ => l
  | _ => []
  end.

(** Ids are distinct and below the counter. *)
Definition todo_wf (st : TodoStore) : Prop :=
  NoDup (map Todo.id (todos st))
  /\ forall r, In r (todos st) -> Todo.id r < nextTodoId st.

(** A text without white space at either end. *)
Definition starts_clean (s : JsString.t) : Prop :=
  match s with
  | [] => True
  | c :: _ => JsString.is_white_space c = false
  end.

Definition clean (s : JsString.t) : Prop :=
  starts_clean s /\ starts_clean (rev s).

(** Only white space. *)
Definition blank (s : JsString.t) : Prop :=
  Forall (fun c => JsString.is_white_space c = true) s.

(** Pending before completed, and the newer first among equals. *)
Definition todo_order (a b : Todo.t) : Prop :=
  (Todo.completed a = false /\ Todo.completed b = true)
  \/ (Todo.completed a = Todo.completed b
      /\ Todo.createdAt b <= Todo.createdAt a).

Module TodoExamples.

Definition buy_milk : Todo.t :=
  Todo.mk 1 1 (JsString.of_string "buy milk") (Some []) false 10.

Definition call_bank : Todo.t :=
  Todo.mk 2 1 (JsString.of_string "call bank") (Some []) true 20.

Definition water_plants : Todo.t :=
  Todo.mk 3 2 (JsString.of_string "water plants") None true 30.

Definition board : TodoStore :=
  mkTodoStore [buy_milk; call_bank; water_plants] 4.

End TodoExamples.

(** The request names, by its id, a to-do of another user. *)
Definition todo_of_other (userId : Z) (r : todo_request) (st : TodoStore)
  : Prop :=
  match r with
  | TodoGet id | TodoPut id _ | TodoToggle id | TodoDelete id =>
      exists t, In t (todos st) /\ Todo.id t = id /\ Todo.userId t <> userId
  | TodoPost _ | TodoGetAll _ _ _ | TodoDeleteCompleted => False
  end.

(** What every request of a caller keeps of a table [st]: a table in
    order, an answer made of the caller's to-dos, and the to-dos of the
    others as they were. *)
Definition todo_kept (st : TodoStore) (userId : Z)
  (out : todo_response * TodoStore) : Prop :=
  todo_wf (snd out)
  /\ (forall t, In t (todos_in (todo_json (fst out))) ->
                Todo.userId t = userId)
  /\ (forall other, other <> userId ->
        filter (fun t => Todo.userId t =? other) (todos (snd out))
        = filter (fun t => Todo.userId t =? other) (todos st)).

(** ** Calendar facts *)

Module JsDateFacts.
Import JsDate.

Lemma days_from_civil_shift (y m d k : Z) :
  days_from_civil (y + 400 * k) m d = days_from_civil y m d + 146097 * k.
Proof.
  unfold days_from_civil.
  assert (E : forall a, (a + 400 * k) / 400 = a / 400 + k).
  { intro a. replace (a + 400 * k) with (a + k * 400) by ring.
    apply Z.div_add; lia. }
  destruct (m <=? 2).
  - replace (y + 400 * k - 1) with (y - 1 + 400 * k) by ring.
    rewrite E.
    replace (y - 1 + 400 * k - (((y - 1) / 400) + k) * 400)
      with (y - 1 - (y - 1) / 400 * 400) by ring.
    ring.
  - rewrite E.
    replace (y + 400 * k - (y / 400 + k) * 400)
      with (y - y / 400 * 400) by ring.
    ring.
Qed.

Lemma civil_from_days_shift (z k : Z) :
  civil_from_days (z + 146097 * k) =
  let '(y, m, d) := civil_from_days z in (y + 400 * k, m, d).
Proof.
  unfold civil_from_days.
  replace (z + 146097 * k + 719468) with (z + 719468 + k * 146097) by ring.
  rewrite Z.div_add by lia.
  set (e := (z + 719468) / 146097).
  replace (z + 719468 + k * 146097 - (e + k) * 146097)
    with (z + 719468 - e * 146097) by ring.
  set (doe := z + 719468 - e * 146097).
  set (yoe := (doe - doe / 1460 + doe / 36524 - doe / 146096) / 365).
  set (doy := doe - (365 * yoe + yoe / 4 - yoe / 100)).
  set (mp := (5 * doy + 2) / 153).
  cbv zeta.
  destruct ((if mp <? 10 then mp + 3 else mp - 9) <=? 2);
    f_equal; f_equal; ring.
Qed.

Lemma is_leap_year_shift (y k : Z) :
  is_leap_year (y + 400 * k) = is_leap_year y.
Proof.
  unfold is_leap_year.
  replace ((y + 400 * k) mod 4) with (y mod 4).
  2:{ replace (y + 400 * k) with (y + (100 * k) * 4) by ring.
      now rewrite Z_mod_plus_full. }
  replace ((y + 400 * k) mod 100) with (y mod 100).
  2:{ replace (y + 400 * k) with (y + (4 * k) * 100) by ring.
      now rewrite Z_mod_plus_full. }
  replace ((y + 400 * k) mod 400) with (y mod 400).
  2:{ replace (y + 400 * k) with (y + k * 400) by ring.
      now rewrite Z_mod_plus_full. }
  reflexivity.
Qed.

Lemma calendar_days_shift (y k m : Z) :
  calendar_days (y + 400 * k) m = calendar_days y m.
Proof. unfold calendar_days. now rewrite is_leap_year_shift. Qed.

Lemma MakeDay_shift (y k m d : Z) :
  MakeDay (y + 400 * k) m d = MakeDay y m d + 146097 * k.
Proof.
  unfold MakeDay.
  replace (y + 400 * k + m / 12) with (y + m / 12 + 400 * k) by ring.
  rewrite days_from_civil_shift. ring.
Qed.

(** The day before the first of the month after [m], over one cycle of
    400 years, checked by evaluation. *)
Lemma last_day_cycle :
  forallb (fun r =>
    forallb (fun m =>
      snd (civil_from_days (MakeDay r m 0)) =? calendar_days r m) months)
    cycle_years = true.
Proof. vm_compute. reflexivity. Qed.

Lemma in_cycle_years (r : Z) : 0 <= r < 400 -> In r cycle_years.
Proof.
  intro H. unfold cycle_years. apply in_map_iff.
  exists (Z.to_nat r). split; [lia|]. apply in_seq. lia.
Qed.

Lemma in_months (m : Z) : 1 <= m <= 12 -> In m months.
Proof.
  intro H. unfold months. apply in_map_iff.
  exists (Z.to_nat m). split; [lia|]. apply in_seq. lia.
Qed.

Lemma forallb_Zeqb (f g : Z -> Z) (l : list Z) :
  forallb (fun x => f x =? g x) l = true ->
  forall x, In x l -> f x = g x.
Proof.
  intros H x Hx. rewrite forallb_forall in H.
  apply Z.eqb_eq. exact (H x Hx).
Qed.

Lemma last_day_in_cycle (r m : Z) :
  0 <= r < 400 -> 1 <= m <= 12 ->
  snd (civil_from_days (MakeDay r m 0)) = calendar_days r m.
Proof.
  intros Hr Hm.
  pose proof last_day_cycle as C.
  rewrite forallb_forall in C.
  specialize (C r (in_cycle_years r Hr)).
  exact (forallb_Zeqb (fun m => snd (civil_from_days (MakeDay r m 0)))
           (calendar_days r) months C m (in_months m Hm)).
Qed.

Lemma day_of_month_shift (z k : Z) :
  snd (civil_from_days (z + 146097 * k)) = snd (civil_from_days z).
Proof.
  rewrite civil_from_days_shift.
  now destruct (civil_from_days z) as [[y0 m0] d0].
Qed.

Lemma last_day_of_month (y m : Z) :
  1 <= m <= 12 ->
  snd (civil_from_days (MakeDay y m 0)) = calendar_days y m.
Proof.
  intro Hm.
  assert (G : forall r k, 0 <= r < 400 ->
            snd (civil_from_days (MakeDay (r + 400 * k) m 0)) =
            calendar_days (r + 400 * k) m).
  { intros r k Hr.
    rewrite MakeDay_shift, day_of_month_shift, calendar_days_shift.
    exact (last_day_in_cycle r m Hr Hm). }
  pose proof (Z.div_mod y 400 ltac:(lia)) as E.
  pose proof (Z.mod_pos_bound y 400 ltac:(lia)) as B.
  specialize (G (y mod 400) (y / 400) B).
  replace (y mod 400 + 400 * (y / 400)) with y in G by lia.
  exact G.
Qed.

Lemma getDate_days (n : Z) : getDate (n * msPerDay) = snd (civil_from_days n).
Proof.
  unfold getDate. rewrite Z.div_mul; [reflexivity | unfold msPerDay; lia].
Qed.

(** The day of the month of day 0 of the month after [month] is the
    length of the month [month] (counted from 1) of [year], for every
    year but 0, which the constructor reads as 1900. *)
Lemma month_length (year month : Z) :
  year <> 0 -> 1 <= month <= 12 ->
  getDate (MakeDay (full_year year) month 0 * msPerDay)
  = calendar_days year month.
Proof.
  intros Hy Hm. unfold full_year.
  rewrite getDate_days, last_day_of_month by assumption.
  destruct ((0 <=? year) && (year <=? 99)) eqn:E; [|reflexivity].
  apply andb_true_iff in E. destruct E as [E1 E2].
  apply Z.leb_le in E1. apply Z.leb_le in E2.
  unfold calendar_days. destruct (month =? 2); [|reflexivity].
  assert (L : is_leap_year (1900 + year) = is_leap_year year).
  { unfold is_leap_year.
    replace ((1900 + year) mod 4) with (year mod 4).
    2:{ replace (1900 + year) with (year + 475 * 4) by ring.
        now rewrite Z_mod_plus_full. }
    assert (year mod 100 = year) by (apply Z.mod_small; lia).
    assert ((1900 + year) mod 100 = year).
    { replace (1900 + year) with (year + 19 * 100) by ring.
      rewrite Z_mod_plus_full. assumption. }
    replace ((1900 + year) mod 100 =? 0) with false
      by (symmetry; apply Z.eqb_neq; lia).
    replace (year mod 100 =? 0) with false
      by (symmetry; apply Z.eqb_neq; lia).
    reflexivity. }
  now rewrite L.
Qed.

(** The months of the years -271820 to 275759 all end within the
    hundred million days on either side of the epoch that a [Date] can
    hold. *)
Lemma month_end_days (y m : Z) :
  -271820 <= y <= 275759 -> 1 <= m <= 12 ->
  -100000000 <= MakeDay y m 0 <= 100000000.
Proof.
  intros Hy Hm.
  assert (C : m = 1 \/ m = 2 \/ m = 3 \/ m = 4 \/ m = 5 \/ m = 6 \/ m = 7
              \/ m = 8 \/ m = 9 \/ m = 10 \/ m = 11 \/ m = 12) by lia.
  unfold MakeDay, days_from_civil.
  repeat (destruct C as [->|C]); try subst m; simpl;
    Z.to_euclidean_division_equations; lia.
Qed.

Lemma full_year_range (year : Z) :
  -271820 <= year <= 275759 -> -271820 <= full_year year <= 275759.
Proof.
  intro H. unfold full_year.
  destruct ((0 <=? year) && (year <=? 99)) eqn:E; [|exact H].
  apply andb_true_iff in E. destruct E as [E1 E2].
  apply Z.leb_le in E1. apply Z.leb_le in E2. lia.
Qed.

(** [new Date(year, month, 0).getDate()] for these years: the date is
    valid and its day of the month is the length of the month. *)
Lemma days_in_month (year month : Z) :
  year <> 0 -> -271820 <= year <= 275759 -> 1 <= month <= 12 ->
  option_map getDate (Date_ymd year month 0)
  = Some (calendar_days year month).
Proof.
  intros Hy Hr Hm. unfold Date_ymd, TimeClip.
  pose proof (month_end_days (full_year year) month
                (full_year_range year Hr) Hm) as B.
  replace (Z.abs (MakeDay (full_year year) month 0 * msPerDay) <=? maxTime)
    with true.
  - simpl. f_equal. now apply month_length.
  - symmetry. apply Z.leb_le. unfold msPerDay, maxTime. lia.
Qed.

(** The months of the years before -271821 and after 275760 all end
    outside of it. *)
Lemma month_end_beyond (y m : Z) :
  y < -271821 \/ 275760 < y -> 1 <= m <= 12 ->
  MakeDay y m 0 < -100000000 \/ 100000000 < MakeDay y m 0.
Proof.
  intros Hy Hm.
  assert (C : m = 1 \/ m = 2 \/ m = 3 \/ m = 4 \/ m = 5 \/ m = 6 \/ m = 7
              \/ m = 8 \/ m = 9 \/ m = 10 \/ m = 11 \/ m = 12) by lia.
  unfold MakeDay, days_from_civil.
  repeat (destruct C as [->|C]); try subst m; simpl;
    Z.to_euclidean_division_equations; lia.
Qed.

Lemma no_month_end (year month : Z) :
  year < -271821 \/ 275760 < year -> 1 <= month <= 12 ->
  Date_ymd year month 0 = None.
Proof.
  intros Hy Hm. unfold Date_ymd, TimeClip.
  assert (F : full_year year = year).
  { unfold full_year.
    destruct ((0 <=? year) && (year <=? 99)) eqn:E; [|reflexivity].
    apply andb_true_iff in E. destruct E as [E1 E2].
    apply Z.leb_le in E1. lia. }
  rewrite F.
  pose proof (month_end_beyond year month Hy Hm) as B.
  replace (Z.abs (MakeDay year month 0 * msPerDay) <=? maxTime) with false;
    [reflexivity|].
  symmetry. apply Z.leb_gt. unfold msPerDay, maxTime. lia.
Qed.

(** Whenever the date is valid, whatever the year, its day of the month
    is the length of the month. *)
Lemma valid_month_length (year month days : Z) :
  year <> 0 -> 1 <= month <= 12 ->
  option_map getDate (Date_ymd year month 0) = Some days ->
  days = calendar_days year month.
Proof.
  intros Hy Hm. unfold Date_ymd, TimeClip.
  destruct (Z.abs _ <=? maxTime); simpl; [|discriminate].
  intro E. injection E as <-. now apply month_length.
Qed.

(** Beyond the range the constructor yields an invalid date: the year
    300000 has no valid June. *)
Example invalid_date : option_map getDate (Date_ymd 300000 6 0) = None.
Proof. reflexivity. Qed.

End JsDateFacts.

(** ** Amounts of stored transactions *)

(** C3, evaluated on the code: every amount of the sample ledger is
    positive, the owner of transaction 1 sends [{ amount: -5 }] to
    [PUT /transactions/1], the answer is 200 and the stored amount is
    now -5. *)
Theorem C3_update_stores_negative_amount :
  let req := TransactionsRoute.PutBody.mk (Some (-5)%Q) None None in
  Forall (fun t => (0 < Transaction.amount t)%Q) (transactions Sample.ledger)
  /\ status (fst (TransactionsRoute.put 1 1 req Sample.ledger)) = 200
  /\ map Transaction.amount
       (transactions (snd (TransactionsRoute.put 1 1 req Sample.ledger)))
     = [-5; 20; 30]%Q.
Proof.
  split; [|split]; [|reflexivity|reflexivity].
  repeat constructor.
Qed.

(** ** Validation of [POST /savings] *)

Module UpsertFacts.
Import SavingsRoute.

Lemma Qeq_bool_false (q : Q) : ~ (q == 0)%Q -> Qeq_bool q 0 = false.
Proof.
  intro H. destruct (Qeq_bool q 0) eqn:E; [|reflexivity].
  apply Qeq_bool_iff in E. contradiction.
Qed.

Lemma Qle_bool_false (a b : Q) : (b < a)%Q -> Qle_bool a b = false.
Proof.
  intro H. destruct (Qle_bool a b) eqn:E; [|reflexivity].
  apply Qle_bool_iff in E. exfalso. exact (Qlt_not_le _ _ H E).
Qed.

Lemma Qle_bool_false_inv (a b : Q) : Qle_bool a b = false -> (b < a)%Q.
Proof.
  intro H. apply Qnot_le_lt. intro L.
  apply Qle_bool_iff in L. congruence.
Qed.

Lemma is_weekly_period (req : Body.t) :
  String.eqb
    (match Body.period req with Some p => p | None => "monthly"%string end)
    "weekly" = is_weekly req.
Proof. unfold is_weekly. now destruct (Body.period req). Qed.

(** A request is either answered 400 with the store untouched, or has
    passed every check and reaches the store. *)
Lemma post_cases (userId : Z) (req : Body.t) (st : Store) :
  (passed req = false
   /\ exists error, post userId req st = (bad_request error, st))
  \/ (passed req = true
      /\ post userId req st = saved (written userId req st) st).
Proof.
  unfold post, passed, written.
  rewrite !is_weekly_period.
  destruct (Js.truthyQ (Body.monthlyIncome req)); simpl;
    [|left; split; eauto].
  destruct (Js.truthyQ (Body.savingTarget req)); simpl;
    [|left; split; eauto].
  destruct (Qle_bool (Js.parseFloat (Body.monthlyIncome req)) 0); simpl;
    [left; split; eauto|].
  destruct (Js.Qlt_bool (Js.parseFloat (Body.savingTarget req)) 0); simpl;
    [left; split; eauto|].
  destruct (Qle_bool (Js.parseFloat (Body.monthlyIncome req))
                     (Js.parseFloat (Body.savingTarget req))); simpl;
    [left; split; eauto|].
  destruct (Js.truthyZ (Body.month req)); simpl; [|left; split; eauto].
  destruct (Js.truthyZ (Body.year req)); simpl; [|left; split; eauto].
  destruct (Js.parseInt (Body.month req) <? 1); simpl;
    [left; split; eauto|].
  destruct (12 <? Js.parseInt (Body.month req)); simpl;
    [left; split; eauto|].
  destruct (is_weekly req); simpl.
  - destruct (Js.truthyZ (Body.weekNumber req)); simpl;
      [right; split; reflexivity | left; split; eauto].
  - right. split; [reflexivity|].
    now destruct (Prisma.saving.findFirst _ st).
Qed.

Lemma accepted_valid (req : Body.t) : accepted req -> valid req.
Proof.
  intros (A & M & (year & Hy & Hy0 & _) & Hw).
  split; [exact A|]. split; [exact M|]. split; [eauto|].
  intro Wk. destruct (Hw Wk) as (week & Hwk & Hw0 & _). eauto.
Qed.

Lemma valid_passed (req : Body.t) : valid req -> passed req = true.
Proof.
  intros [(income & target & Hi & Ht & Hpos & Hlt & _)
            [(month & Hm & Hmr) [(year & Hy & Hy0) Hw]]].
  unfold passed. rewrite Hi, Ht, Hm, Hy. simpl.
  assert (0 < income)%Q by (eapply Qlt_trans; eassumption).
  rewrite (Qeq_bool_false income), (Qeq_bool_false target).
  2:{ intro E. rewrite E in Hpos. exact (Qlt_irrefl _ Hpos). }
  2:{ intro E. rewrite E in H. exact (Qlt_irrefl _ H). }
  rewrite (Qle_bool_false income 0 H).
  rewrite (Qle_bool_false income target Hlt).
  unfold Js.Qlt_bool.
  replace (Qle_bool 0 target) with true
    by (symmetry; apply Qle_bool_iff, Qlt_le_weak, Hpos).
  replace (month =? 0) with false by (symmetry; apply Z.eqb_neq; lia).
  replace (year =? 0) with false by (symmetry; apply Z.eqb_neq; lia).
  replace (month <? 1) with false by (symmetry; apply Z.ltb_ge; lia).
  replace (12 <? month) with false by (symmetry; apply Z.ltb_ge; lia).
  simpl. destruct (is_weekly req); [|reflexivity].
  destruct (Hw eq_refl) as (week & Hwk & Hw0). rewrite Hwk. simpl.
  now replace (week =? 0) with false by (symmetry; apply Z.eqb_neq; lia).
Qed.

Lemma accepted_passed (req : Body.t) : accepted req -> passed req = true.
Proof. intro A. apply valid_passed, accepted_valid, A. Qed.

(** The fields of a request that has passed every check. *)
Lemma passed_fields (req : Body.t) :
  passed req = true ->
  exists income target month year,
    Body.monthlyIncome req = Some income
    /\ Body.savingTarget req = Some target
    /\ Body.month req = Some month
    /\ Body.year req = Some year
    /\ 1 <= month <= 12 /\ year <> 0.
Proof.
  unfold passed. intro P.
  repeat (apply andb_true_iff in P; destruct P as [P ?]).
  destruct (Body.monthlyIncome req) as [income|]; [|discriminate].
  destruct (Body.savingTarget req) as [target|]; [|discriminate].
  destruct (Body.month req) as [month|]; [|discriminate].
  destruct (Body.year req) as [year|]; [|discriminate].
  exists income, target, month, year. simpl in *.
  repeat match goal with
         | H : negb _ = true |- _ => apply negb_true_iff in H
         end.
  repeat split; try reflexivity.
  - now apply Z.ltb_ge.
  - now apply Z.ltb_ge.
  - now apply Z.eqb_neq.
Qed.

(** The day count of a request that is written: 7 for a week, the
    length of the month otherwise. *)
Lemma written_days_are (req : Body.t) (month year days : Z) :
  passed req = true ->
  Body.month req = Some month ->
  Body.year req = Some year ->
  days_of
    (match Body.period req with Some p => p | None => "monthly"%string end)
    year month = Some days ->
  days = if is_weekly req then 7 else JsDate.calendar_days year month.
Proof.
  intros P Em Ey.
  destruct (passed_fields req P)
    as (_ & _ & m & y & _ & _ & Hm & Hy & Hr & Hy0).
  assert (m = month) by congruence. assert (y = year) by congruence.
  subst m y. unfold days_of. rewrite is_weekly_period.
  destruct (is_weekly req); [congruence|].
  now apply JsDateFacts.valid_month_length.
Qed.

(** The day count of an accepted request: 7 for a week, the length of
    the month otherwise. *)
Lemma accepted_days (req : Body.t) (month year : Z) :
  accepted req ->
  Body.month req = Some month ->
  Body.year req = Some year ->
  days_of
    (match Body.period req with Some p => p | None => "monthly"%string end)
    year month
  = Some (if is_weekly req then 7 else JsDate.calendar_days year month).
Proof.
  intros (_ & (m & Hm & Hmr) & (y & Hy & Hy0 & Hyr) & _) Em Ey.
  assert (m = month) by congruence. assert (y = year) by congruence.
  subst m y. unfold days_of. rewrite is_weekly_period.
  destruct (is_weekly req); [reflexivity|].
  now apply JsDateFacts.days_in_month.
Qed.

Lemma rejected_not_passed (req : Body.t) :
  listed_rejection req \/ weekly_without_week req -> passed req = false.
Proof.
  intro H. unfold passed.
  destruct (Js.truthyQ (Body.monthlyIncome req)) eqn:Ti; [|reflexivity].
  destruct (Js.truthyQ (Body.savingTarget req)) eqn:Tt; [|reflexivity].
  destruct (Body.monthlyIncome req) as [income|] eqn:Ei; [|discriminate].
  destruct (Body.savingTarget req) as [target|] eqn:Et; [|discriminate].
  simpl.
  destruct (Qle_bool income 0) eqn:C1; [reflexivity|].
  destruct (Js.Qlt_bool target 0) eqn:C2; [reflexivity|].
  destruct (Qle_bool income target) eqn:C3; [reflexivity|].
  destruct (Js.truthyZ (Body.month req)) eqn:Tm; [|reflexivity].
  destruct (Js.truthyZ (Body.year req)) eqn:Ty; [|reflexivity].
  destruct (Body.month req) as [month|] eqn:Em; [|discriminate].
  destruct (Body.year req) as [year|] eqn:Ey; [|discriminate].
  simpl.
  destruct (month <? 1) eqn:C4; [reflexivity|].
  destruct (12 <? month) eqn:C5; [reflexivity|].
  simpl.
  apply Qle_bool_false_inv in C1, C3.
  unfold Js.Qlt_bool in C2. apply negb_false_iff, Qle_bool_iff in C2.
  apply Z.ltb_ge in C4, C5.
  destruct H as [H | [Hw Hn]].
  - exfalso.
    destruct H as [H|[H|[H|[H|[H|[H|[H|H]]]]]]]; try congruence.
    + destruct H as (i & Hi & Hle).
      assert (i = income) by congruence. subst i.
      exact (Qlt_not_le _ _ C1 Hle).
    + destruct H as (t & Ht & Hlt).
      assert (t = target) by congruence. subst t.
      exact (Qlt_not_le _ _ Hlt C2).
    + destruct H as (i & t & Hi & Ht & Hle).
      assert (i = income) by congruence.
      assert (t = target) by congruence. subst i t.
      exact (Qlt_not_le _ _ C3 Hle).
    + destruct H as (m & Hm & Hr).
      assert (m = month) by congruence. subst m. lia.
  - now rewrite Hw, Hn.
Qed.

End UpsertFacts.

(** ** Lists and tables *)

Module TableFacts.

Section Keyed.
Context {A : Type} (f : A -> Z).

Lemma find_key_some (l : list A) (r : A) :
  In r l -> exists r', find (fun x => f x =? f r) l = Some r'.
Proof.
  intro H. destruct (find (fun x => f x =? f r) l) eqn:E; [eauto|].
  exfalso. pose proof (find_none _ _ E r H) as N. simpl in N.
  rewrite Z.eqb_refl in N. discriminate.
Qed.

Lemma NoDup_key_inj (l : list A) (a b : A) :
  NoDup (map f l) -> In a l -> In b l -> f a = f b -> a = b.
Proof.
  induction l as [|x l IH]; simpl; intros N Ha Hb E; [contradiction|].
  inversion N as [|? ? Hx N']; subst.
  destruct Ha as [<-|Ha], Hb as [<-|Hb]; auto.
  - exfalso. apply Hx. rewrite E. now apply in_map.
  - exfalso. apply Hx. rewrite <- E. now apply in_map.
Qed.

Lemma find_key_unique (l : list A) (r : A) :
  NoDup (map f l) -> In r l -> find (fun x => f x =? f r) l = Some r.
Proof.
  intros N H. destruct (find_key_some l r H) as [r' E].
  rewrite E. f_equal.
  destruct (find_some _ _ E) as [H' K]. apply Z.eqb_eq in K.
  exact (NoDup_key_inj l r' r N H' H K).
Qed.

Lemma set_rows_keys (k : Z) (data : A -> A) (l : list A) :
  (forall r, f (data r) = f r) ->
  map f (Prisma.set_rows f k data l) = map f l.
Proof.
  intro H. unfold Prisma.set_rows. rewrite map_map. apply map_ext.
  intro r. destruct (f r =? k); auto.
Qed.

Lemma set_rows_In (k : Z) (data : A -> A) (l : list A) (r : A) :
  In r l -> f r = k -> In (data r) (Prisma.set_rows f k data l).
Proof.
  intros H E. unfold Prisma.set_rows. apply in_map_iff. exists r.
  split; [|assumption]. apply Z.eqb_eq in E. now rewrite E.
Qed.

Lemma set_rows_In_inv (k : Z) (data : A -> A) (l : list A) (x : A) :
  In x (Prisma.set_rows f k data l) ->
  (In x l /\ f x <> k) \/ (exists r, In r l /\ f r = k /\ x = data r).
Proof.
  unfold Prisma.set_rows. intro H. apply in_map_iff in H.
  destruct H as (r & E & H). destruct (f r =? k) eqn:K.
  - right. exists r. apply Z.eqb_eq in K. auto.
  - left. subst x. apply Z.eqb_neq in K. auto.
Qed.

End Keyed.

Lemma NoDup_map_inj {A B : Type} (f : A -> B) (l : list A) (a b : A) :
  NoDup (map f l) -> In a l -> In b l -> f a = f b -> a = b.
Proof.
  induction l as [|x l IH]; simpl; intros N Ha Hb E; [contradiction|].
  inversion N as [|? ? Hx N']; subst.
  destruct Ha as [<-|Ha], Hb as [<-|Hb]; auto.
  - exfalso. apply Hx. rewrite E. now apply in_map.
  - exfalso. apply Hx. rewrite <- E. now apply in_map.
Qed.

Lemma set_rows_In_other {A : Type} (f : A -> Z) (k : Z) (data : A -> A)
  (l : list A) (r : A) :
  In r l -> f r <> k -> In r (Prisma.set_rows f k data l).
Proof.
  intros H K. unfold Prisma.set_rows. apply in_map_iff. exists r.
  split; [|assumption]. apply Z.eqb_neq in K. now rewrite K.
Qed.

Lemma set_rows_fixed {A : Type} (f : A -> Z) (k : Z) (data : A -> A)
  (l : list A) :
  (forall r, In r l -> f r = k -> data r = r) ->
  Prisma.set_rows f k data l = l.
Proof.
  intro H. unfold Prisma.set_rows.
  rewrite <- (map_id l) at 2. apply map_ext_in.
  intros r Hr. destruct (f r =? k) eqn:K; [|reflexivity].
  apply Z.eqb_eq in K. auto.
Qed.

Lemma filter_all {A : Type} (p : A -> bool) (l : list A) :
  (forall x, In x l -> p x = true) -> filter p l = l.
Proof.
  induction l as [|x l IH]; simpl; intro H; [reflexivity|].
  rewrite (H x (or_introl eq_refl)). f_equal. apply IH. auto.
Qed.

Lemma filter_none {A : Type} (p : A -> bool) (l : list A) :
  (forall x, In x l -> p x = false) -> filter p l = [].
Proof.
  induction l as [|x l IH]; simpl; intro H; [reflexivity|].
  rewrite (H x (or_introl eq_refl)). apply IH. auto.
Qed.

Lemma filter_empty_inv {A : Type} (p : A -> bool) (l : list A) (x : A) :
  filter p l = [] -> In x l -> p x = false.
Proof.
  intros E H. destruct (p x) eqn:P; [|reflexivity].
  assert (In x (filter p l)) by (apply filter_In; auto).
  rewrite E in H0. contradiction.
Qed.

Lemma length_filter_split {A : Type} (p : A -> bool) (l : list A) :
  (List.length (filter p l)
   + List.length (filter (fun x => negb (p x)) l))%nat
  = List.length l.
Proof.
  induction l as [|x l IH]; simpl; [reflexivity|].
  destruct (p x); simpl; lia.
Qed.

Lemma filter_filter_ext {A : Type} (p q : A -> bool) (l : list A) :
  (forall x, In x l -> q x = true -> p x = true) ->
  filter q (filter p l) = filter q l.
Proof.
  induction l as [|x l IH]; simpl; intro H; [reflexivity|].
  destruct (p x) eqn:P; simpl.
  - destruct (q x); [f_equal|]; apply IH; auto.
  - destruct (q x) eqn:Q0.
    + rewrite (H x (or_introl eq_refl) Q0) in P. discriminate.
    + apply IH; auto.
Qed.

Lemma NoDup_map_filter {Row K : Type} (col : Row -> K) (keep : Row -> bool)
  (rows : list Row) :
  NoDup (map col rows) -> NoDup (map col (filter keep rows)).
Proof.
  induction rows as [|x l IH]; simpl; intro N; [constructor|].
  inversion N as [|? ? Hx N']; subst.
  destruct (keep x); simpl; [|auto].
  constructor; [|auto].
  intro H. apply Hx. apply in_map_iff in H. destruct H as (y & E & H).
  apply filter_In in H. apply in_map_iff. exists y. tauto.
Qed.

Section Sorted.
Context {A : Type} (before : A -> A -> bool).

Lemma insert_row_In (x y : A) (l : list A) :
  In y (Prisma.insert_row before x l) <-> y = x \/ In y l.
Proof.
  induction l as [|z l IH]; simpl.
  - intuition.
  - destruct (before x z); simpl; [intuition|].
    rewrite IH. intuition.
Qed.

Lemma orderBy_In (y : A) (l : list A) :
  In y (Prisma.orderBy before l) <-> In y l.
Proof.
  induction l as [|x l IH]; simpl; [tauto|].
  rewrite insert_row_In, IH. intuition.
Qed.
End Sorted.

End TableFacts.

(** ** The row written by [POST /savings] *)

Module WrittenFacts.
Import SavingsRoute.

Lemma saving_update_found (id : Z) (data : Saving.t -> Saving.t)
  (st : Store) (r : Saving.t) :
  In r (savings st) -> Saving.id r = id ->
  exists r', In r' (savings st) /\ Saving.id r' = id
             /\ Prisma.saving.update id data st
                = Some (data r',
                        mkStore (Prisma.set_rows Saving.id id data (savings st))
                          (transactions st) (nextSavingId st)
                          (nextTransactionId st)).
Proof.
  intros H E. subst id. unfold Prisma.saving.update.
  destruct (TableFacts.find_key_some Saving.id _ r H) as [r' F].
  rewrite F. destruct (find_some _ _ F) as [H' K].
  apply Z.eqb_eq in K. eauto.
Qed.

Lemma saving_update_inv (id : Z) (data : Saving.t -> Saving.t)
  (st : Store) (s : Saving.t) (st' : Store) :
  Prisma.saving.update id data st = Some (s, st') ->
  exists r, In r (savings st) /\ Saving.id r = id /\ s = data r
            /\ st' = mkStore (Prisma.set_rows Saving.id id data (savings st))
                       (transactions st) (nextSavingId st)
                       (nextTransactionId st).
Proof.
  unfold Prisma.saving.update.
  destruct (find _ (savings st)) as [r|] eqn:F; [|discriminate].
  intro E. injection E as <- <-.
  destruct (find_some _ _ F) as [H K]. apply Z.eqb_eq in K. eauto.
Qed.

(** Without a day count nothing is written. *)
Lemma written_nan (userId : Z) (req : Body.t) (st : Store) :
  days_of
    (match Body.period req with Some p => p | None => "monthly"%string end)
    (Js.parseInt (Body.year req)) (Js.parseInt (Body.month req)) = None ->
  written userId req st = None.
Proof.
  intro D. unfold written. rewrite D. simpl.
  destruct (String.eqb _ "weekly"); [reflexivity|].
  now destruct (Prisma.saving.findFirst _ st).
Qed.

(** With a day count the call reaches the store and returns a row. *)
Lemma written_days (userId : Z) (req : Body.t) (st : Store) (days : Z) :
  days_of
    (match Body.period req with Some p => p | None => "monthly"%string end)
    (Js.parseInt (Body.year req)) (Js.parseInt (Body.month req))
  = Some days ->
  exists s st', written userId req st = Some (s, st').
Proof.
  intro D. unfold written. rewrite D. simpl.
  rewrite UpsertFacts.is_weekly_period.
  destruct (is_weekly req).
  - unfold Prisma.saving.upsert.
    destruct (find _ (savings st)) as [r|] eqn:F.
    + destruct (find_some _ _ F) as [H _].
      edestruct (saving_update_found (Saving.id r)) as (r' & _ & _ & E);
        [exact H | reflexivity | rewrite E; eauto].
    + unfold Prisma.saving.create. eauto.
  - unfold Prisma.saving.findFirst.
    destruct (find _ (savings st)) as [r|] eqn:F.
    + destruct (find_some _ _ F) as [H _]. simpl.
      edestruct (saving_update_found (Saving.id r)) as (r' & _ & _ & E);
        [exact H | reflexivity | rewrite E; eauto].
    + unfold Prisma.saving.create. simpl. eauto.
Qed.

Lemma written_some (userId : Z) (req : Body.t) (st : Store) :
  accepted req -> exists s st', written userId req st = Some (s, st').
Proof.
  intro A.
  pose proof A as (_ & (month & Hm & _) & (year & Hy & _) & _).
  pose proof (UpsertFacts.accepted_days req month year A Hm Hy) as D.
  apply written_days with (days := if is_weekly req then 7
                                   else JsDate.calendar_days year month).
  now rewrite Hm, Hy.
Qed.

Lemma written_fields (userId : Z) (req : Body.t) (st : Store)
  (s : Saving.t) (st' : Store) :
  written userId req st = Some (s, st') ->
  let period :=
    match Body.period req with Some p => p | None => "monthly"%string end in
  let income := Js.parseFloat (Body.monthlyIncome req) in
  let target := Js.parseFloat (Body.savingTarget req) in
  Saving.monthlyIncome s = income
  /\ Saving.savingTarget s = target
  /\ Saving.availableAmount s = (income - target)%Q
  /\ (exists days,
        days_of period (Js.parseInt (Body.year req))
          (Js.parseInt (Body.month req)) = Some days
        /\ Saving.dailyBudget s = ((income - target) / inject_Z days)%Q)
  /\ Saving.period s = period.
Proof.
  unfold written. rewrite UpsertFacts.is_weekly_period.
  destruct (days_of _ _ _) as [days|] eqn:D; simpl.
  2:{ destruct (is_weekly req); [discriminate|].
      destruct (Prisma.saving.findFirst _ st); discriminate. }
  destruct (is_weekly req).
  - unfold Prisma.saving.upsert.
    destruct (find _ (savings st)) as [r|] eqn:F.
    + intro E. apply saving_update_inv in E.
      destruct E as (r0 & _ & _ & -> & _). simpl. eauto 10.
    + unfold Prisma.saving.create. intro E. injection E as <- <-.
      simpl. eauto 10.
  - unfold Prisma.saving.findFirst.
    destruct (find _ (savings st)) as [r|] eqn:F; simpl.
    + intro E. apply saving_update_inv in E.
      destruct E as (r0 & _ & _ & -> & _). simpl. eauto 10.
    + unfold Prisma.saving.create. intro E. injection E as <- <-.
      simpl. eauto 10.
Qed.

Lemma written_outcome (userId : Z) (req : Body.t) (st : Store)
  (s : Saving.t) (st' : Store) :
  written userId req st = Some (s, st') -> outcome userId req st s st'.
Proof.
  intro W. pose proof (written_fields _ _ _ _ _ W) as Fd.
  cbv zeta in Fd. destruct Fd as (F1 & F2 & F3 & (days & D & F4) & F5).
  revert W. unfold written. rewrite UpsertFacts.is_weekly_period.
  rewrite D. simpl.
  destruct (is_weekly req) eqn:Wk.
  - unfold Prisma.saving.upsert.
    destruct (find _ (savings st)) as [r|] eqn:F.
    + intro E. destruct (find_some _ _ F) as [H K].
      apply saving_update_inv in E.
      destruct E as (r0 & H0 & I0 & Es & ->).
      eapply Updated with (r := r); eauto.
      * rewrite Wk. exact K.
      * intro x. rewrite F1, F2, F3, F4, F5. reflexivity.
    + unfold Prisma.saving.create. intro E. injection E as <- <-.
      apply Created; try reflexivity.
      * rewrite Wk. intros r H. exact (find_none _ _ F r H).
      * now rewrite Wk.
  - unfold Prisma.saving.findFirst.
    destruct (find _ (savings st)) as [r|] eqn:F; simpl.
    + intro E. destruct (find_some _ _ F) as [H K].
      apply saving_update_inv in E.
      destruct E as (r0 & H0 & I0 & Es & ->).
      eapply Updated with (r := r); eauto.
      * rewrite Wk. exact K.
      * intro x. rewrite F1, F2, F3, F4, F5. reflexivity.
    + unfold Prisma.saving.create. intro E. injection E as <- <-.
      apply Created; try reflexivity.
      * rewrite Wk. intros r H. exact (find_none _ _ F r H).
      * now rewrite Wk.
Qed.

End WrittenFacts.

(** An amount of the examples is a finite number. *)
Ltac finite := apply Qle_bool_iff; vm_compute; reflexivity.

Lemma accepted_june_budget : accepted ValidationExamples.june_budget.
Proof.
  split; [|split; [|split]].
  - exists 1000%Q, 850%Q.
    split; [|split; [|split; [|split]]]; try reflexivity. finite.
  - exists 6. split; [reflexivity | lia].
  - exists 2024. split; [reflexivity | simpl; lia].
  - discriminate.
Defined.

Lemma accepted_june_raise : accepted ValidationExamples.june_raise.
Proof.
  split; [|split; [|split]].
  - exists 1200%Q, 850%Q.
    split; [|split; [|split; [|split]]]; try reflexivity. finite.
  - exists 6. split; [reflexivity | lia].
  - exists 2024. split; [reflexivity | simpl; lia].
  - discriminate.
Defined.

(** A target of exactly 0 is a number in the range the checks on the
    target allow ([finalSavingTarget < 0] is what they refuse), yet the
    test for required fields, [!savingTarget], takes it for a missing
    field and the request is answered 400. *)
Example zero_target_answered_400 :
  fst (SavingsRoute.post 1 ValidationExamples.zero_target empty_store)
  = SavingsRoute.bad_request "Monthly income and saving target are required".
Proof. reflexivity. Qed.

(** C2, as stated, fails on the code: a weekly request with a positive
    income, a target between 0 and the income, month 6 and year 2024,
    but no week number, is answered 400 although none of the listed
    conditions holds. *)
Lemma C2_weekly_without_week_is_rejected :
  status (fst (SavingsRoute.post 1 ValidationExamples.weekly_no_week
                 empty_store)) = 400
  /\ ~ listed_rejection ValidationExamples.weekly_no_week.
Proof.
  split; [reflexivity|].
  unfold listed_rejection. simpl.
  intros [H|[H|[H|[H|[H|[H|[H|H]]]]]]]; try discriminate.
  - destruct H as (i & Hi & Hle). injection Hi as <-.
    revert Hle. unfold Qle. simpl. lia.
  - destruct H as (t & Ht & Hlt). injection Ht as <-.
    revert Hlt. unfold Qlt. simpl. lia.
  - destruct H as (i & t & Hi & Ht & Hle).
    injection Hi as <-. injection Ht as <-.
    revert Hle. unfold Qle. simpl. lia.
  - destruct H as (m & Hm & Hr). injection Hm as <-. lia.
Qed.

(** A monthly request for a year beyond the range of [Date] passes
    every check, and the write is refused: the day count is NaN and so
    is the daily budget. *)
Example year_300000_answered_500 :
  SavingsRoute.post 1 ValidationExamples.far_june empty_store
  = (internal_error, empty_store).
Proof. reflexivity. Qed.

Lemma valid_far_june : valid ValidationExamples.far_june.
Proof.
  split; [|split; [|split]].
  - exists 1000%Q, 850%Q.
    split; [|split; [|split; [|split]]]; try reflexivity. finite.
  - exists 6. split; [reflexivity | lia].
  - exists 300000. split; [reflexivity | lia].
  - discriminate.
Defined.

(** C2, amended: [POST /savings] answers 400 and leaves the store as it
    was whenever the income or the target is missing, the income is not
    positive, the target is negative or not below the income, the month
    or the year is missing, the month is outside 1..12, or the period is
    weekly and the week number is missing.  It does not answer 400
    whenever the income is a finite number, the target is positive and
    below the income, the month is in 1..12, the year is not 0, and a
    weekly period comes with a week number other than 0; and then it
    answers 200 when moreover the year lies between -271820 and 275759
    (monthly) or the year and the week number are values of an
    [INTEGER] column (weekly). *)
Theorem C2_upsert_validation (userId : Z) (req : SavingsRoute.Body.t)
  (st : Store) :
  (listed_rejection req \/ weekly_without_week req ->
   status (fst (SavingsRoute.post userId req st)) = 400
   /\ snd (SavingsRoute.post userId req st) = st)
  /\ (valid req -> status (fst (SavingsRoute.post userId req st)) <> 400)
  /\ (accepted req -> status (fst (SavingsRoute.post userId req st)) = 200).
Proof.
  split; [|split].
  - intro H. apply UpsertFacts.rejected_not_passed in H.
    destruct (UpsertFacts.post_cases userId req st)
      as [[_ [error E]] | [P _]]; [|congruence].
    rewrite E. split; reflexivity.
  - intro H. pose proof (UpsertFacts.valid_passed req H) as P'.
    destruct (UpsertFacts.post_cases userId req st)
      as [[P _] | [_ E]]; [congruence|].
    rewrite E.
    destruct (written userId req st) as [[s st']|]; discriminate.
  - intro H. pose proof (UpsertFacts.accepted_passed req H) as P'.
    destruct (UpsertFacts.post_cases userId req st)
      as [[P _] | [_ E]]; [congruence|].
    rewrite E.
    destruct (WrittenFacts.written_some userId req st H) as (s & st' & W).
    rewrite W. reflexivity.
Qed.

Lemma C2_upsert_validation_witness :
  status (fst (SavingsRoute.post 1 ValidationExamples.no_target empty_store))
  = 400
  /\ status (fst (SavingsRoute.post 1 ValidationExamples.far_june
                    empty_store)) <> 400
  /\ status (fst (SavingsRoute.post 1 ValidationExamples.june_budget
                    empty_store)) = 200.
Proof.
  split; [|split].
  - apply (proj1 (C2_upsert_validation 1 ValidationExamples.no_target
                    empty_store)).
    left. right. left. reflexivity.
  - apply (proj1 (proj2 (C2_upsert_validation 1
                           ValidationExamples.far_june empty_store))).
    exact valid_far_june.
  - apply (proj2 (proj2 (C2_upsert_validation 1
                           ValidationExamples.june_budget empty_store))).
    exact accepted_june_budget.
Defined.

(** ** Derived fields *)

(** C5: every request [POST /savings] accepts is answered 200 with a
    row; and whenever the answer is 200, the row of the answer is in
    the store, holds the income and the target of the request, its
    [availableAmount] is the income minus the target, and its
    [dailyBudget] is that amount divided by the day count, 7 for a
    weekly period and the number of calendar days of the month of that
    year, leap years included, otherwise. *)
Theorem C5_derived_fields (userId : Z) (req : SavingsRoute.Body.t)
  (st : Store) :
  (accepted req ->
   exists message saving st',
     SavingsRoute.post userId req st
     = (mkResponse 200 (SavingUpdated message saving), st'))
  /\ (forall message saving st',
        SavingsRoute.post userId req st
        = (mkResponse 200 (SavingUpdated message saving), st') ->
        exists income target month year,
          SavingsRoute.Body.monthlyIncome req = Some income
          /\ SavingsRoute.Body.savingTarget req = Some target
          /\ SavingsRoute.Body.month req = Some month
          /\ SavingsRoute.Body.year req = Some year
          /\ In saving (savings st')
          /\ Saving.monthlyIncome saving = income
          /\ Saving.savingTarget saving = target
          /\ Saving.availableAmount saving = (income - target)%Q
          /\ Saving.dailyBudget saving
             = (Saving.availableAmount saving
                / inject_Z (if is_weekly req then 7
                            else JsDate.calendar_days year month))%Q).
Proof.
  split.
  - intro A. pose proof (UpsertFacts.accepted_passed req A) as P.
    destruct (UpsertFacts.post_cases userId req st)
      as [[P' _] | [_ E]]; [congruence|].
    destruct (WrittenFacts.written_some userId req st A) as (s & st' & W).
    rewrite W in E. simpl in E. eauto.
  - intros message saving st' E.
    destruct (UpsertFacts.post_cases userId req st)
      as [[_ [error B]] | [P S]]; [rewrite B in E; discriminate|].
    rewrite S in E.
    destruct (written userId req st) as [[s st0]|] eqn:W;
      [|discriminate].
    simpl in E. injection E as _ <- <-.
    destruct (UpsertFacts.passed_fields req P)
      as (income & target & month & year & Hi & Ht & Hm & Hy & _).
    exists income, target, month, year.
    pose proof (WrittenFacts.written_fields _ _ _ _ _ W) as F.
    cbv zeta in F. rewrite Hi, Ht, Hm, Hy in F. simpl in F.
    destruct F as (F1 & F2 & F3 & (days & D & F4) & F5).
    rewrite (UpsertFacts.written_days_are req month year days P Hm Hy D)
      in F4.
    repeat match goal with |- _ /\ _ => split end; try assumption.
    + destruct (WrittenFacts.written_outcome _ _ _ _ _ W)
        as [r data Hr _ _ (r' & Hr' & Hid & Es) ->
           | _ _ _ _ _ _ ->]; simpl.
      * subst s. apply TableFacts.set_rows_In; assumption.
      * apply in_or_app. right. now left.
    + now rewrite F4, F3.
Qed.

Lemma C5_derived_fields_witness :
  exists message saving st',
    SavingsRoute.post 1 ValidationExamples.june_budget empty_store
    = (mkResponse 200 (SavingUpdated message saving), st')
    /\ In saving (savings st')
    /\ Saving.availableAmount saving = (1000 - 850)%Q
    /\ Saving.dailyBudget saving
       = (Saving.availableAmount saving / inject_Z 30)%Q.
Proof.
  destruct (C5_derived_fields 1 ValidationExamples.june_budget empty_store)
    as [Ok Fields].
  destruct (Ok accepted_june_budget) as (message & saving & st' & E).
  destruct (Fields message saving st' E)
    as (income & target & month & year & Hi & Ht & Hm & Hy & I & _ & _
        & A & D).
  injection Hi as <-. injection Ht as <-.
  injection Hm as <-. injection Hy as <-.
  exists message, saving, st'. auto.
Defined.

(** ** Partial update of a transaction *)

Module UpdateFacts.
Import TransactionsRoute.

Lemma find_owned (userId : Z) (t : Transaction.t) (l : list Transaction.t) :
  NoDup (map Transaction.id l) -> In t l -> Transaction.userId t = userId ->
  find (fun x => (Transaction.id x =? Transaction.id t)
                 && (Transaction.userId x =? userId)) l = Some t.
Proof.
  intros N H U.
  destruct (find _ l) as [x|] eqn:F.
  - destruct (find_some _ _ F) as [Hx K].
    apply andb_true_iff in K. destruct K as [K _]. apply Z.eqb_eq in K.
    f_equal. exact (TableFacts.NoDup_key_inj Transaction.id l x t N Hx H K).
  - pose proof (find_none _ _ F t H) as K. simpl in K.
    rewrite Z.eqb_refl, U, Z.eqb_refl in K. discriminate.
Qed.



End UpdateFacts.




(** ** The invariants are kept by every request *)

Module WfFacts.

Lemma wf_empty : wf_store empty_store.
Proof.
  constructor; simpl; try constructor; try contradiction; lia.
Qed.

Lemma key_id_user (a b : Saving.t) :
  key a = key b -> Saving.userId a = Saving.userId b.
Proof. unfold key. congruence. Qed.

Lemma monthly_key_iff (u m y : Z) (r : Saving.t) :
  SavingsRoute.monthly_key u m y r = true <-> key r = (u, m, y, None).
Proof.
  unfold SavingsRoute.monthly_key, key.
  rewrite !andb_true_iff, !Z.eqb_eq.
  destruct (Saving.weekNumber r); split.
  - intros [_ H]. discriminate.
  - intro H. discriminate.
  - intros [[[-> ->] ->] _]. reflexivity.
  - intro H. injection H as -> -> ->. auto.
Qed.

Lemma weekly_key_iff (u m y w : Z) (r : Saving.t) :
  SavingsRoute.weekly_key u m y w r = true <-> key r = (u, m, y, Some w).
Proof.
  unfold SavingsRoute.weekly_key, key.
  rewrite !andb_true_iff, !Z.eqb_eq.
  destruct (Saving.weekNumber r) as [w'|]; split.
  - intros [[[-> ->] ->] H]. apply Z.eqb_eq in H. now subst.
  - intro H. injection H as -> -> -> ->. rewrite Z.eqb_refl. auto.
  - intros [_ H]. discriminate.
  - intro H. discriminate.
Qed.

Lemma req_key_weekly (u : Z) (req : SavingsRoute.Body.t) :
  req_key u req
  = (u, Js.parseInt (SavingsRoute.Body.month req),
     Js.parseInt (SavingsRoute.Body.year req),
     if is_weekly req
     then Some (Js.parseInt (SavingsRoute.Body.weekNumber req))
     else None).
Proof.
  unfold req_key, is_weekly.
  now destruct (SavingsRoute.Body.period req).
Qed.

(** The lookup of [POST /savings] selects the rows of the key of the
    request. *)
Lemma lookup_iff (u : Z) (req : SavingsRoute.Body.t) (r : Saving.t) :
  (if is_weekly req
   then SavingsRoute.weekly_key u
          (Js.parseInt (SavingsRoute.Body.month req))
          (Js.parseInt (SavingsRoute.Body.year req))
          (Js.parseInt (SavingsRoute.Body.weekNumber req)) r
   else SavingsRoute.monthly_key u
          (Js.parseInt (SavingsRoute.Body.month req))
          (Js.parseInt (SavingsRoute.Body.year req)) r) = true
  <-> key r = req_key u req.
Proof.
  rewrite req_key_weekly. destruct (is_weekly req).
  - apply weekly_key_iff.
  - apply monthly_key_iff.
Qed.

Section Operations.
Variable st : Store.
Hypothesis W : wf_store st.

Lemma wf_set_savings (k : Z) (data : Saving.t -> Saving.t) :
  (forall x, Saving.id (data x) = Saving.id x) ->
  (forall x, key (data x) = key x) ->
  wf_store (mkStore (Prisma.set_rows Saving.id k data (savings st))
              (transactions st) (nextSavingId st) (nextTransactionId st)).
Proof.
  intros Hid Hkey. destruct W as [N1 N2 R1 R2 O K C].
  constructor; simpl; auto.
  - now rewrite TableFacts.set_rows_keys.
  - intros s H.
    apply TableFacts.set_rows_In_inv in H.
    destruct H as [[H _] | (r & H & _ & ->)]; [auto|].
    rewrite Hid. auto.
  - intros t H. destruct (O t H) as (s & Hs & E1 & E2).
    destruct (Saving.id s =? k) eqn:Q.
    + exists (data s). split; [|split].
      * apply TableFacts.set_rows_In; [assumption | now apply Z.eqb_eq].
      * now rewrite Hid.
      * rewrite <- E2. apply key_id_user, Hkey.
    + exists s. split; [|auto].
      unfold Prisma.set_rows. apply in_map_iff. exists s.
      now rewrite Q.
  - unfold Prisma.set_rows. rewrite map_map.
    erewrite map_ext; [exact K|].
    intro r. simpl. destruct (Saving.id r =? k); auto.
Qed.

Lemma wf_add_saving (s : Saving.t) :
  Saving.id s = nextSavingId st ->
  ~ In (key s) (map key (savings st)) ->
  wf_store (mkStore (savings st ++ [s]) (transactions st)
              (nextSavingId st + 1) (nextTransactionId st)).
Proof.
  intros Hid Hkey. destruct W as [N1 N2 R1 R2 O K [C1 C2]].
  constructor; simpl; auto.
  - rewrite map_app. simpl. apply NoDup_app; [exact N1 | | ].
    + repeat constructor. simpl. tauto.
    + intros x Hx [<-|[]]. apply in_map_iff in Hx.
      destruct Hx as (r & E & Hr). specialize (R1 r Hr). lia.
  - intros r H. apply in_app_or in H. destruct H as [H|[<-|[]]].
    + specialize (R1 r H). lia.
    + lia.
  - intros t H. destruct (O t H) as (r & Hr & E).
    exists r. split; [apply in_or_app; now left | exact E].
  - rewrite map_app. simpl. apply NoDup_app; [exact K | | ].
    + repeat constructor. simpl. tauto.
    + intros x Hx [<-|[]]. contradiction.
  - lia.
Qed.

Lemma wf_delete_saving (k : Z) :
  wf_store
    (mkStore (filter (fun r => negb (Saving.id r =? k)) (savings st))
       (filter (fun t => negb (Transaction.savingId t =? k))
               (transactions st))
       (nextSavingId st) (nextTransactionId st)).
Proof.
  destruct W as [N1 N2 R1 R2 O K C].
  constructor; simpl; auto.
  - now apply TableFacts.NoDup_map_filter.
  - now apply TableFacts.NoDup_map_filter.
  - intros s H. apply filter_In in H. apply R1, H.
  - intros t H. apply filter_In in H. apply R2, H.
  - intros t H. apply filter_In in H. destruct H as [H Q].
    destruct (O t H) as (s & Hs & E1 & E2).
    exists s. split; [|auto]. apply filter_In. split; [assumption|].
    now rewrite E1.
  - now apply TableFacts.NoDup_map_filter.
Qed.

Lemma wf_filter_transactions (p : Transaction.t -> bool) :
  wf_store (mkStore (savings st) (filter p (transactions st))
              (nextSavingId st) (nextTransactionId st)).
Proof.
  destruct W as [N1 N2 R1 R2 O K C].
  constructor; simpl; auto.
  - now apply TableFacts.NoDup_map_filter.
  - intros t H. apply filter_In in H. apply R2, H.
  - intros t H. apply filter_In in H. apply O, H.
Qed.

Lemma wf_add_transaction (t : Transaction.t) (s : Saving.t) :
  Transaction.id t = nextTransactionId st ->
  In s (savings st) ->
  Saving.id s = Transaction.savingId t ->
  Saving.userId s = Transaction.userId t ->
  wf_store (mkStore (savings st) (transactions st ++ [t])
              (nextSavingId st) (nextTransactionId st + 1)).
Proof.
  intros Hid Hs E1 E2. destruct W as [N1 N2 R1 R2 O K [C1 C2]].
  constructor; simpl; auto.
  - rewrite map_app. simpl. apply NoDup_app; [exact N2 | | ].
    + repeat constructor. simpl. tauto.
    + intros x Hx [<-|[]]. apply in_map_iff in Hx.
      destruct Hx as (r & E & Hr). specialize (R2 r Hr). lia.
  - intros r H. apply in_app_or in H. destruct H as [H|[<-|[]]].
    + specialize (R2 r H). lia.
    + lia.
  - intros r H. apply in_app_or in H. destruct H as [H|[<-|[]]]; eauto.
  - lia.
Qed.

Lemma wf_set_transactions (k : Z)
  (data : Transaction.t -> Transaction.t) :
  (forall x, Transaction.id (data x) = Transaction.id x) ->
  (forall x, Transaction.userId (data x) = Transaction.userId x) ->
  (forall x, Transaction.savingId (data x) = Transaction.savingId x) ->
  wf_store (mkStore (savings st)
              (Prisma.set_rows Transaction.id k data (transactions st))
              (nextSavingId st) (nextTransactionId st)).
Proof.
  intros Hid Hu Hs. destruct W as [N1 N2 R1 R2 O K C].
  constructor; simpl; auto.
  - now rewrite TableFacts.set_rows_keys.
  - intros t H.
    apply TableFacts.set_rows_In_inv in H.
    destruct H as [[H _] | (r & H & _ & ->)]; [auto|].
    rewrite Hid. auto.
  - intros t H.
    apply TableFacts.set_rows_In_inv in H.
    destruct H as [[H _] | (r & H & _ & ->)]; [auto|].
    rewrite Hu, Hs. auto.
Qed.
End Operations.

End WfFacts.

Module HandlerFacts.

Lemma find_saving_owned (userId : Z) (s : Saving.t) (l : list Saving.t) :
  NoDup (map Saving.id l) -> In s l -> Saving.userId s = userId ->
  find (fun x => (Saving.id x =? Saving.id s)
                 && (Saving.userId x =? userId)) l = Some s.
Proof.
  intros N H U.
  destruct (find _ l) as [x|] eqn:F.
  - destruct (find_some _ _ F) as [Hx K].
    apply andb_true_iff in K. destruct K as [K _]. apply Z.eqb_eq in K.
    f_equal. exact (TableFacts.NoDup_key_inj Saving.id l x s N Hx H K).
  - pose proof (find_none _ _ F s H) as K. simpl in K.
    rewrite Z.eqb_refl, U, Z.eqb_refl in K. discriminate.
Qed.

Lemma find_saving_foreign (userId id : Z) (s : Saving.t)
  (l : list Saving.t) :
  NoDup (map Saving.id l) -> In s l -> Saving.id s = id ->
  Saving.userId s <> userId ->
  find (fun x => (Saving.id x =? id) && (Saving.userId x =? userId)) l
  = None.
Proof.
  intros N H I U.
  destruct (find _ l) as [x|] eqn:F; [|reflexivity].
  destruct (find_some _ _ F) as [Hx K].
  apply andb_true_iff in K. destruct K as [K1 K2].
  apply Z.eqb_eq in K1, K2.
  assert (x = s)
    by (apply (TableFacts.NoDup_key_inj Saving.id l x s N Hx H); congruence).
  subst x. contradiction.
Qed.

Lemma find_saving_inv (userId id : Z) (s : Saving.t) (l : list Saving.t) :
  find (fun x => (Saving.id x =? id) && (Saving.userId x =? userId)) l
  = Some s ->
  In s l /\ Saving.id s = id /\ Saving.userId s = userId.
Proof.
  intro F. destruct (find_some _ _ F) as [H K].
  apply andb_true_iff in K. destruct K as [K1 K2].
  apply Z.eqb_eq in K1, K2. auto.
Qed.

Lemma find_transaction_inv (userId id : Z) (t : Transaction.t)
  (l : list Transaction.t) :
  find (fun x => (Transaction.id x =? id)
                 && (Transaction.userId x =? userId)) l = Some t ->
  In t l /\ Transaction.id t = id /\ Transaction.userId t = userId.
Proof.
  intro F. destruct (find_some _ _ F) as [H K].
  apply andb_true_iff in K. destruct K as [K1 K2].
  apply Z.eqb_eq in K1, K2. auto.
Qed.

Lemma find_transaction_foreign (userId id : Z) (t : Transaction.t)
  (l : list Transaction.t) :
  NoDup (map Transaction.id l) -> In t l -> Transaction.id t = id ->
  Transaction.userId t <> userId ->
  find (fun x => (Transaction.id x =? id)
                 && (Transaction.userId x =? userId)) l = None.
Proof.
  intros N H I U.
  destruct (find _ l) as [x|] eqn:F; [|reflexivity].
  destruct (find_transaction_inv _ _ _ _ F) as (Hx & K1 & K2).
  assert (x = t)
    by (apply (TableFacts.NoDup_key_inj Transaction.id l x t N Hx H);
        congruence).
  subst x. contradiction.
Qed.

(** [GET /transactions/saving/:savingId] has two answers: 404 when the
    caller has no period of this id, and otherwise 500, since the query
    for the transactions selects [monthlyAmount], which is no field of a
    saving. *)
Lemma get_saving_cases (userId savingId : Z) (st : Store) :
  (Prisma.saving.findFirst
     (fun r => (Saving.id r =? savingId) && (Saving.userId r =? userId)) st
   = None
   /\ TransactionsRoute.get_saving userId savingId st
      = (TransactionsRoute.not_found "Saving not found", st))
  \/ ((exists s,
         Prisma.saving.findFirst
           (fun r => (Saving.id r =? savingId) && (Saving.userId r =? userId))
           st = Some s)
      /\ TransactionsRoute.get_saving userId savingId st
         = (internal_error, st)).
Proof.
  unfold TransactionsRoute.get_saving.
  destruct (Prisma.saving.findFirst _ st) as [s|];
    [right; split; [eauto | reflexivity] | left; split; reflexivity].
Qed.

(** The row [POST /savings] writes: where it is, whose it is, and that
    the store stays well formed. *)
Lemma written_wf (userId : Z) (req : SavingsRoute.Body.t) (st : Store)
  (s : Saving.t) (st' : Store) :
  wf_store st -> written userId req st = Some (s, st') ->
  wf_store st' /\ In s (savings st') /\ key s = req_key userId req.
Proof.
  intros W E. pose proof (wf_saving_ids st W) as N.
  destruct (WrittenFacts.written_outcome _ _ _ _ _ E)
    as [r data Hr Hp Hd (r' & Hr' & Hid & Es) -> | Hn I U M Y Wk ->].
  - assert (r' = r)
      by exact (TableFacts.NoDup_key_inj Saving.id _ r' r N Hr' Hr Hid).
    subst r'.
    assert (Kd : forall x, key (data x) = key x)
      by (intro x; rewrite Hd; reflexivity).
    assert (Id : forall x, Saving.id (data x) = Saving.id x)
      by (intro x; rewrite Hd; reflexivity).
    split; [|split].
    + now apply WfFacts.wf_set_savings.
    + subst s. simpl. now apply TableFacts.set_rows_In.
    + subst s. rewrite Kd. now apply WfFacts.lookup_iff.
  - assert (Ks : key s = req_key userId req).
    { rewrite WfFacts.req_key_weekly. unfold key. congruence. }
    split; [|split].
    + apply WfFacts.wf_add_saving; [assumption.. |].
      intro H. apply in_map_iff in H. destruct H as (r & Kr & Hr).
      assert (key r = req_key userId req) by congruence.
      apply WfFacts.lookup_iff in H. rewrite (Hn r Hr) in H. discriminate.
    + simpl. apply in_or_app. right. now left.
    + exact Ks.
Qed.

Lemma post_saving_wf (userId : Z) (req : SavingsRoute.Body.t) (st : Store) :
  wf_store st -> wf_store (snd (SavingsRoute.post userId req st)).
Proof.
  intro W.
  destruct (UpsertFacts.post_cases userId req st)
    as [[_ [error E]] | [_ E]]; rewrite E; [exact W|].
  destruct (written userId req st) as [[s st']|] eqn:Wr; [|exact W].
  simpl. exact (proj1 (written_wf _ _ _ _ _ W Wr)).
Qed.

Lemma delete_saving_wf (userId id : Z) (st : Store) :
  wf_store st -> wf_store (snd (SavingsRoute.delete userId id st)).
Proof.
  intro W. unfold SavingsRoute.delete, Prisma.saving.findFirst.
  destruct (find _ (savings st)) as [s|]; [|exact W].
  destruct (0 <? _)%nat; [exact W|].
  unfold Prisma.saving.delete.
  destruct (find _ (savings st)); [|exact W].
  simpl. now apply WfFacts.wf_delete_saving.
Qed.

Lemma delete_force_wf (userId id : Z) (st : Store) :
  wf_store st -> wf_store (snd (SavingsRoute.delete_force userId id st)).
Proof.
  intro W.
  unfold SavingsRoute.delete_force, SavingsRoute.delete_force_on,
    Prisma.saving.findFirst.
  destruct (find _ (savings st)) as [s|]; [|exact W].
  unfold Prisma_tx.transaction_, Prisma_tx.run, Prisma_tx.statement,
    Prisma.saving.delete, Prisma.transaction.deleteMany. simpl.
  destruct (find _ (savings st)); [|exact W].
  simpl.
  apply (WfFacts.wf_delete_saving
           (mkStore (savings st)
              (filter (fun t => negb (Transaction.savingId t =? id))
                      (transactions st))
              (nextSavingId st) (nextTransactionId st))).
  now apply WfFacts.wf_filter_transactions.
Qed.

Lemma post_transaction_wf (now userId : Z)
  (req : TransactionsRoute.PostBody.t) (st : Store) :
  wf_store st -> wf_store (snd (TransactionsRoute.post now userId req st)).
Proof.
  intro W. unfold TransactionsRoute.post, Prisma.saving.findFirst.
  destruct (_ || _); [exact W|].
  destruct (Qle_bool _ 0); [exact W|].
  destruct (find _ (savings st)) as [s|] eqn:F; [|exact W].
  destruct (find_saving_inv _ _ _ _ F) as (H & I & U).
  simpl. eapply WfFacts.wf_add_transaction; eauto.
Qed.

Lemma put_transaction_wf (userId id : Z)
  (req : TransactionsRoute.PutBody.t) (st : Store) :
  wf_store st -> wf_store (snd (TransactionsRoute.put userId id req st)).
Proof.
  intro W. unfold TransactionsRoute.put, Prisma.transaction.findFirst.
  destruct (find _ (transactions st)) as [t|]; [|exact W].
  unfold Prisma.transaction.update.
  destruct (find _ (transactions st)); [|exact W].
  simpl. now apply WfFacts.wf_set_transactions.
Qed.

Lemma delete_transaction_wf (userId id : Z) (st : Store) :
  wf_store st -> wf_store (snd (TransactionsRoute.delete userId id st)).
Proof.
  intro W. unfold TransactionsRoute.delete, Prisma.transaction.findFirst.
  destruct (find _ (transactions st)) as [t|]; [|exact W].
  unfold Prisma.transaction.delete.
  destruct (find _ (transactions st)); [|exact W].
  simpl. now apply WfFacts.wf_filter_transactions.
Qed.

(** Every store reached from a well-formed one is well formed. *)
Lemma handle_wf (now userId : Z) (r : request) (st : Store) :
  wf_store st -> wf_store (snd (handle now userId r st)).
Proof.
  intro W. destruct r; simpl.
  - now apply post_saving_wf.
  - exact W.
  - unfold SavingsRoute.get_year_month.
    now destruct (Prisma.saving.findFirst _ st).
  - now apply delete_saving_wf.
  - now apply delete_force_wf.
  - now apply post_transaction_wf.
  - now destruct (get_saving_cases userId savingId st)
      as [[_ ->] | [_ ->]].
  - exact W.
  - now apply put_transaction_wf.
  - now apply delete_transaction_wf.
Qed.

End HandlerFacts.

(** ** The ledger of a period *)

(** What the callback would make of the sample ledger, had the query
    returned its rows: the running total is accumulated while walking
    the newest-first result, so after the reversal the rows of amounts
    10, 20 and 30 would carry 60, 50 and 30. *)
Example fetch_order_totals :
  map Calc.runningTotal
    (rev (TransactionsRoute.with_calculations Sample.june Sample.ledger 0
            (Prisma.orderBy Prisma.date_desc (transactions Sample.ledger))))
  = [60; 50; 30]%Q.
Proof. reflexivity. Qed.

(** C1, on the code: for every period of the caller
    [GET /transactions/saving/:savingId] is answered 500 with the
    generic message, and the store is as before.  The query for the
    transactions of the period selects the field [monthlyAmount] of the
    included saving; the model [Saving] has [monthlyIncome] and no such
    field, the client refuses the query, and the handler ends in its
    [catch]: no list, no running total, no difference is returned. *)
Theorem C1_period_ledger_is_answered_500 (userId : Z) (st : Store)
  (s : Saving.t) :
  In s (savings st) ->
  Saving.userId s = userId ->
  TransactionsRoute.get_saving userId (Saving.id s) st
  = (mkResponse 500 (Err "Internal server error"), st).
Proof.
  intros H U.
  destruct (HandlerFacts.get_saving_cases userId (Saving.id s) st)
    as [[F _] | [_ E]]; [|exact E].
  exfalso. pose proof (find_none _ _ F s H) as K. simpl in K.
  rewrite Z.eqb_refl, U, Z.eqb_refl in K. discriminate.
Qed.

Lemma C1_period_ledger_is_answered_500_witness :
  TransactionsRoute.get_saving 1 1 Sample.ledger
  = (mkResponse 500 (Err "Internal server error"), Sample.ledger).
Proof.
  apply (C1_period_ledger_is_answered_500 1 Sample.ledger Sample.june).
  - simpl. auto.
  - reflexivity.
Defined.

(** ** The monthly path and the week number *)

(** C10: when the period is not weekly (the field is absent, or
    ["monthly"]), the answer and the resulting store of [POST /savings]
    are the same whatever week number the request carries, and the row
    of every answer of 200 has [weekNumber] null and is in the store.
    Every such request that the handler accepts is answered 200, and
    its row is in the store under the key of the month with
    [weekNumber] null.  The lookup is by that key: a row the store had
    under it is the one rewritten, no row being added, and without such
    a row one is appended; the rows of every other key, the weekly rows
    of the same month and year among them, stay as they are. *)
Theorem C10_monthly_ignores_week_number (userId : Z)
  (req : SavingsRoute.Body.t) (week : option Z) (st : Store) :
  wf_store st ->
  is_weekly req = false ->
  let sent :=
    SavingsRoute.Body.mk
      (SavingsRoute.Body.monthlyIncome req)
      (SavingsRoute.Body.savingTarget req)
      (SavingsRoute.Body.period req)
      (SavingsRoute.Body.month req)
      (SavingsRoute.Body.year req)
      week in
  SavingsRoute.post userId sent st = SavingsRoute.post userId req st
  /\ (forall message saving,
        json (fst (SavingsRoute.post userId sent st))
        = SavingUpdated message saving ->
        Saving.weekNumber saving = None
        /\ In saving (savings (snd (SavingsRoute.post userId sent st))))
  /\ (accepted req ->
      forall month year,
        SavingsRoute.Body.month req = Some month ->
        SavingsRoute.Body.year req = Some year ->
        exists message saving st',
          SavingsRoute.post userId sent st
          = (mkResponse 200 (SavingUpdated message saving), st')
          /\ In saving (savings st')
          /\ key saving = (userId, month, year, None)
          /\ (forall r, In r (savings st) ->
                        key r = (userId, month, year, None) ->
                Saving.id saving = Saving.id r
                /\ map Saving.id (savings st') = map Saving.id (savings st))
          /\ ((forall r, In r (savings st) ->
                         key r <> (userId, month, year, None)) ->
              savings st' = savings st ++ [saving])
          /\ (forall r, In r (savings st) ->
                        key r <> (userId, month, year, None) ->
                        In r (savings st'))).
Proof.
  intros W M sent.
  assert (Same : SavingsRoute.post userId sent st
                 = SavingsRoute.post userId req st).
  { unfold sent, SavingsRoute.post.
    cbn [SavingsRoute.Body.monthlyIncome SavingsRoute.Body.savingTarget
         SavingsRoute.Body.period SavingsRoute.Body.month
         SavingsRoute.Body.year SavingsRoute.Body.weekNumber].
    rewrite !UpsertFacts.is_weekly_period, M.
    reflexivity. }
  rewrite Same. split; [reflexivity|]. split.
  - intros message saving E.
    destruct (UpsertFacts.post_cases userId req st)
      as [[_ [error B]] | [_ P]].
    + rewrite B in E. discriminate.
    + rewrite P in *.
      destruct (written userId req st) as [[s st']|] eqn:Wr;
        [|discriminate].
      simpl in *. injection E as _ <-.
      destruct (HandlerFacts.written_wf _ _ _ _ _ W Wr) as (_ & I & K).
      split; [|exact I].
      rewrite WfFacts.req_key_weekly, M in K. unfold key in K. congruence.
  - intros A month year Hm Hy.
    pose proof (UpsertFacts.accepted_passed req A) as P.
    destruct (UpsertFacts.post_cases userId req st)
      as [[P' _] | [_ E]]; [congruence|].
    destruct (WrittenFacts.written_some userId req st A) as (s & st' & Wr).
    rewrite Wr in E. simpl in E.
    destruct (HandlerFacts.written_wf _ _ _ _ _ W Wr) as (_ & I & K).
    assert (Kq : req_key userId req = (userId, month, year, None)).
    { rewrite WfFacts.req_key_weekly, M, Hm, Hy. reflexivity. }
    pose proof (wf_saving_ids st W) as N.
    exists "Savings updated successfully"%string, s, st'.
    split; [exact E|]. split; [exact I|].
    split; [now rewrite K|].
    destruct (WrittenFacts.written_outcome _ _ _ _ _ Wr)
      as [r data Hr Hp Hd (r' & Hr' & Hid & Es) Est | Hn _ _ _ _ _ Est].
    + assert (r' = r)
        by exact (TableFacts.NoDup_key_inj Saving.id _ r' r N Hr' Hr Hid).
      subst r'.
      apply WfFacts.lookup_iff in Hp. rewrite Kq in Hp.
      assert (Id : forall x, Saving.id (data x) = Saving.id x)
        by (intro x; rewrite Hd; reflexivity).
      split; [|split].
      * intros x Hx Kx.
        assert (x = r).
        { apply (TableFacts.NoDup_map_inj key _ x r (wf_keys st W) Hx Hr).
          now rewrite Kx, Hp. }
        subst x. split; [now rewrite Es, Id|].
        rewrite Est. simpl. now apply TableFacts.set_rows_keys.
      * intro None_. exfalso. exact (None_ r Hr Hp).
      * intros x Hx Kx. rewrite Est. simpl.
        apply TableFacts.set_rows_In_other; [assumption|].
        intro Ex. apply Kx.
        now rewrite (TableFacts.NoDup_key_inj Saving.id _ x r N Hx Hr Ex).
    + split; [|split].
      * intros x Hx Kx. exfalso. specialize (Hn x Hx).
        rewrite <- Kq in Kx. apply WfFacts.lookup_iff in Kx.
        rewrite Kx in Hn. discriminate.
      * intros _. now rewrite Est.
      * intros x Hx _. rewrite Est. simpl. apply in_or_app. now left.
Qed.

Lemma C10_monthly_ignores_week_number_witness :
  SavingsRoute.post 1
    (SavingsRoute.Body.mk (Some 1000%Q) (Some 850%Q) None (Some 6)
       (Some 2024) (Some 3)) empty_store
  = SavingsRoute.post 1 ValidationExamples.june_budget empty_store
  /\ exists message saving st',
       SavingsRoute.post 1
         (SavingsRoute.Body.mk (Some 1000%Q) (Some 850%Q) None (Some 6)
            (Some 2024) (Some 3)) empty_store
       = (mkResponse 200 (SavingUpdated message saving), st')
       /\ In saving (savings st')
       /\ key saving = (1, 6, 2024, None).
Proof.
  destruct (C10_monthly_ignores_week_number 1 ValidationExamples.june_budget
              (Some 3) empty_store WfFacts.wf_empty eq_refl)
    as (Same & _ & Written).
  split; [exact Same|].
  destruct (Written accepted_june_budget 6 2024 eq_refl eq_refl)
    as (message & saving & st' & E & I & K & _).
  exists message, saving, st'. auto.
Defined.

(** ** Deleting a period *)

Module DeleteFacts.

Lemma filter_key_single {A : Type} (f : A -> Z) (l : list A) (r : A) :
  NoDup (map f l) -> In r l -> filter (fun x => f x =? f r) l = [r].
Proof.
  induction l as [|x l IH]; simpl; intros N H; [contradiction|].
  inversion N as [|? ? Hx N']; subst.
  destruct H as [->|H].
  - rewrite Z.eqb_refl. f_equal.
    apply TableFacts.filter_none. intros y Hy.
    apply Z.eqb_neq. intro E. apply Hx. rewrite <- E. now apply in_map.
  - replace (f x =? f r) with false; [now apply IH|].
    symmetry. apply Z.eqb_neq. intro E. apply Hx. rewrite E.
    now apply in_map.
Qed.

Lemma length_without_key {A : Type} (f : A -> Z) (l : list A) (r : A) :
  NoDup (map f l) -> In r l ->
  (List.length (filter (fun x => negb (f x =? f r)%Z) l) + 1)%nat
  = List.length l.
Proof.
  intros N H.
  rewrite <- (TableFacts.length_filter_split (fun x => f x =? f r) l).
  rewrite (filter_key_single f l r N H). simpl. lia.
Qed.

Lemma filter_negb_twice {A : Type} (p : A -> bool) (l : list A) :
  filter (fun x => negb (p x)) (filter (fun x => negb (p x)) l)
  = filter (fun x => negb (p x)) l.
Proof. apply TableFacts.filter_filter_ext. auto. Qed.

Lemma In_without {A : Type} (f : A -> Z) (k : Z) (l : list A) (x : A) :
  In x (filter (fun r => negb (f r =? k)) l) <-> In x l /\ f x <> k.
Proof.
  rewrite filter_In, negb_true_iff, Z.eqb_neq. reflexivity.
Qed.

End DeleteFacts.

(** C7: the safe deletion of a period of the caller that has
    transactions answers 400 with their exact number and leaves the
    store, hence the period and its transactions, as it was; on a period
    without transactions it answers 200 and removes this one row of
    [savings], no transaction and no other period. *)
Theorem C7_safe_delete (userId : Z) (st : Store) (s : Saving.t) :
  wf_store st ->
  In s (savings st) ->
  Saving.userId s = userId ->
  let dependents :=
    filter (fun t => Transaction.savingId t =? Saving.id s)
           (transactions st) in
  (dependents <> [] ->
   exists error,
     SavingsRoute.delete userId (Saving.id s) st
     = (mkResponse 400 (ErrCount error (List.length dependents)), st))
  /\ (dependents = [] ->
      exists message st',
        SavingsRoute.delete userId (Saving.id s) st
        = (mkResponse 200
             (SavingDeleted message (Saving.id s) (Saving.month s)
                (Saving.year s)),
           st')
        /\ transactions st' = transactions st
        /\ (forall r, In r (savings st') <-> In r (savings st) /\ r <> s)
        /\ (List.length (savings st') + 1)%nat = List.length (savings st)
        /\ nextSavingId st' = nextSavingId st
        /\ nextTransactionId st' = nextTransactionId st).
Proof.
  intros W H U dependents. pose proof (wf_saving_ids st W) as N.
  unfold SavingsRoute.delete, Prisma.saving.findFirst.
  rewrite (HandlerFacts.find_saving_owned userId s _ N H U).
  unfold Prisma.transactions_of. fold dependents.
  split; intro D.
  - destruct dependents as [|t l] eqn:E; [contradiction|].
    simpl. eauto.
  - rewrite D. simpl. unfold Prisma.saving.delete.
    rewrite (TableFacts.find_key_unique Saving.id _ s N H).
    eexists _, _. split; [reflexivity|]. simpl.
    split; [|split; [|split; [|split]]]; try reflexivity.
    + apply TableFacts.filter_all. intros t Ht.
      apply negb_true_iff.
      exact (TableFacts.filter_empty_inv _ _ t D Ht).
    + intro r. rewrite DeleteFacts.In_without. split.
      * intros [Hr K]. split; [assumption | congruence].
      * intros [Hr K]. split; [assumption|]. intro E. apply K.
        exact (TableFacts.NoDup_key_inj Saving.id _ r s N Hr H E).
    + exact (DeleteFacts.length_without_key Saving.id _ s N H).
Qed.

Lemma C7_safe_delete_witness :
  let dependents :=
    filter (fun t => Transaction.savingId t =? Saving.id Sample.june)
           (transactions Sample.ledger) in
  (dependents <> [] ->
   exists error,
     SavingsRoute.delete 1 (Saving.id Sample.june) Sample.ledger
     = (mkResponse 400 (ErrCount error (List.length dependents)),
        Sample.ledger))
  /\ (dependents = [] ->
      exists message st',
        SavingsRoute.delete 1 (Saving.id Sample.june) Sample.ledger
        = (mkResponse 200
             (SavingDeleted message (Saving.id Sample.june)
                (Saving.month Sample.june) (Saving.year Sample.june)),
           st')
        /\ transactions st' = transactions Sample.ledger
        /\ (forall r, In r (savings st')
                      <-> In r (savings Sample.ledger) /\ r <> Sample.june)
        /\ (List.length (savings st') + 1)%nat
           = List.length (savings Sample.ledger)
        /\ nextSavingId st' = nextSavingId Sample.ledger
        /\ nextTransactionId st' = nextTransactionId Sample.ledger).
Proof.
  apply (C7_safe_delete 1 Sample.ledger Sample.june).
  - constructor; simpl.
    + repeat constructor; simpl; tauto.
    + repeat constructor; simpl; intuition discriminate.
    + intros s [<-|[]]; simpl; lia.
    + intros t [<-|[<-|[<-|[]]]]; simpl; lia.
    + intros t [<-|[<-|[<-|[]]]]; exists Sample.june; simpl; auto.
    + repeat constructor; simpl; tauto.
    + lia.
  - simpl. auto.
  - reflexivity.
Defined.

(** ** Two upserts in a row *)

(** C6: whatever two requests to [POST /savings] are served one after
    the other, no two periods share a key after either of them.  When
    both are requests of one user that the handler accepts and they
    address the same uniqueness key (the same month and year, and the
    same week number when weekly), both are answered 200, the second
    inserts nothing and rewrites the row the first one wrote or rewrote,
    which then holds the income and target of the second request, and
    the row is the only one of its key.  Repeating the very same request
    gives the same row and the same store. *)
Theorem C6_sequential_upsert (userId : Z) (req1 req2 : SavingsRoute.Body.t)
  (st : Store) :
  wf_store st ->
  (NoDup (map key (savings (snd (SavingsRoute.post userId req1 st))))
   /\ NoDup (map key
               (savings
                  (snd (SavingsRoute.post userId req2
                          (snd (SavingsRoute.post userId req1 st)))))))
  /\ (accepted req1 ->
      accepted req2 ->
      req_key userId req2 = req_key userId req1 ->
      exists m1 s1 st1 m2 s2 st2,
        SavingsRoute.post userId req1 st
        = (mkResponse 200 (SavingUpdated m1 s1), st1)
        /\ SavingsRoute.post userId req2 st1
           = (mkResponse 200 (SavingUpdated m2 s2), st2)
        /\ NoDup (map key (savings st1))
        /\ NoDup (map key (savings st2))
        /\ map Saving.id (savings st2) = map Saving.id (savings st1)
        /\ Saving.id s2 = Saving.id s1
        /\ key s1 = req_key userId req1
        /\ key s2 = req_key userId req1
        /\ In s2 (savings st2)
        /\ (forall r, In r (savings st2) -> key r = req_key userId req1 ->
                      r = s2)
        /\ (forall r, In r (savings st1) -> r <> s1 -> In r (savings st2))
        /\ Saving.monthlyIncome s2
           = Js.parseFloat (SavingsRoute.Body.monthlyIncome req2)
        /\ Saving.savingTarget s2
           = Js.parseFloat (SavingsRoute.Body.savingTarget req2)
        /\ Saving.availableAmount s2
           = (Js.parseFloat (SavingsRoute.Body.monthlyIncome req2)
              - Js.parseFloat (SavingsRoute.Body.savingTarget req2))%Q
        /\ (req2 = req1 -> s2 = s1 /\ st2 = st1)).
Proof.
  intro W. split.
  { pose proof (HandlerFacts.post_saving_wf userId req1 st W) as W1.
    pose proof (HandlerFacts.post_saving_wf userId req2 _ W1) as W2.
    split; [exact (wf_keys _ W1) | exact (wf_keys _ W2)]. }
  intros A1 A2 K.
  pose proof (UpsertFacts.accepted_passed req1 A1) as P1.
  pose proof (UpsertFacts.accepted_passed req2 A2) as P2.
  destruct (UpsertFacts.post_cases userId req1 st)
    as [[P1' _] | [_ E1]]; [congruence|].
  destruct (WrittenFacts.written_some userId req1 st A1)
    as (s1 & st1 & W1).
  rewrite W1 in E1. simpl in E1.
  destruct (HandlerFacts.written_wf _ _ _ _ _ W W1) as (Wf1 & I1 & K1).
  destruct (UpsertFacts.post_cases userId req2 st1)
    as [[P2' _] | [_ E2]]; [congruence|].
  destruct (WrittenFacts.written_some userId req2 st1 A2)
    as (s2 & st2 & W2).
  rewrite W2 in E2. simpl in E2.
  destruct (HandlerFacts.written_wf _ _ _ _ _ Wf1 W2) as (Wf2 & I2 & K2).
  pose proof (wf_saving_ids st1 Wf1) as N1.
  exists "Savings updated successfully"%string, s1, st1,
         "Savings updated successfully"%string, s2, st2.
  pose proof (WrittenFacts.written_fields _ _ _ _ _ W1) as F1.
  pose proof (WrittenFacts.written_fields _ _ _ _ _ W2) as F2.
  cbv zeta in F1, F2.
  destruct F1 as (F11 & F12 & F13 & (d1 & D1 & F14) & F15).
  destruct F2 as (F21 & F22 & F23 & (d2 & D2 & F24) & F25).
  destruct (WrittenFacts.written_outcome _ _ _ _ _ W2)
    as [r data Hr Hp Hd (r' & Hr' & Hid & Es) Est | Hn _ _ _ _ _ _].
  2:{ exfalso. specialize (Hn s1 I1).
      assert (L : key s1 = req_key userId req2) by now rewrite K.
      apply WfFacts.lookup_iff in L. rewrite L in Hn. discriminate. }
  assert (r' = r)
    by exact (TableFacts.NoDup_key_inj Saving.id _ r' r N1 Hr' Hr Hid).
  subst r'.
  assert (r = s1).
  { apply (TableFacts.NoDup_map_inj key _ r s1 (wf_keys st1 Wf1) Hr I1).
    apply WfFacts.lookup_iff in Hp. now rewrite Hp, K1. }
  subst r.
  assert (Id : forall x, Saving.id (data x) = Saving.id x)
    by (intro x; rewrite Hd; reflexivity).
  clear P1 P2 W1 W2.
  split; [exact E1|]. split; [exact E2|].
  split; [exact (wf_keys st1 Wf1)|]. split; [exact (wf_keys st2 Wf2)|].
  split; [rewrite Est; simpl; now apply TableFacts.set_rows_keys|].
  split; [rewrite Es; apply Id|].
  split; [exact K1|]. split; [now rewrite K2|]. split; [exact I2|].
  split; [|split; [|split; [exact F21|split; [exact F22|split;
    [exact F23|]]]]].
  - intros x Hx Kx.
    apply (TableFacts.NoDup_map_inj key _ x s2 (wf_keys st2 Wf2) Hx I2).
    now rewrite Kx, K2.
  - intros x Hx Ne. rewrite Est. simpl.
    apply TableFacts.set_rows_In_other; [assumption|].
    intro E. apply Ne.
    exact (TableFacts.NoDup_key_inj Saving.id _ x s1 N1 Hx I1 E).
  - intros ->.
    assert (d2 = d1) by congruence. subst d2.
    assert (Fix : data s1 = s1).
    { rewrite Hd. rewrite F21, F22, F23, F24, F25.
      rewrite <- F14, <- F13, <- F11, <- F12, <- F15.
      now destruct s1. }
    split; [now rewrite Es|].
    rewrite Est. rewrite TableFacts.set_rows_fixed; [now destruct st1|].
    intros x Hx E.
    rewrite (TableFacts.NoDup_key_inj Saving.id _ x s1 N1 Hx I1 E).
    exact Fix.
Qed.

Lemma C6_sequential_upsert_witness :
  exists m1 s1 st1 m2 s2 st2,
    SavingsRoute.post 1 ValidationExamples.june_budget empty_store
    = (mkResponse 200 (SavingUpdated m1 s1), st1)
    /\ SavingsRoute.post 1 ValidationExamples.june_raise st1
       = (mkResponse 200 (SavingUpdated m2 s2), st2)
    /\ map Saving.id (savings st2) = map Saving.id (savings st1)
    /\ Saving.id s2 = Saving.id s1
    /\ Saving.monthlyIncome s2 = 1200%Q.
Proof.
  destruct (proj2 (C6_sequential_upsert 1 ValidationExamples.june_budget
                     ValidationExamples.june_raise empty_store
                     WfFacts.wf_empty)
              accepted_june_budget accepted_june_raise eq_refl)
    as (m1 & s1 & st1 & m2 & s2 & st2 & H).
  exists m1, s1, st1, m2, s2, st2. tauto.
Defined.

Lemma ledger_wf : wf_store Sample.ledger.
Proof.
  constructor; simpl.
  - repeat constructor; simpl; tauto.
  - repeat constructor; simpl; intuition discriminate.
  - intros s [<-|[]]; simpl; lia.
  - intros t [<-|[<-|[<-|[]]]]; simpl; lia.
  - intros t [<-|[<-|[<-|[]]]]; exists Sample.june; simpl; auto.
  - repeat constructor; simpl; tauto.
  - lia.
Qed.

Lemma two_users_wf : wf_store Sample.two_users.
Proof.
  constructor; simpl.
  - repeat constructor; simpl; intuition discriminate.
  - repeat constructor; simpl; intuition discriminate.
  - intros s [<-|[<-|[]]]; simpl; lia.
  - intros t [<-|[<-|[]]]; simpl; lia.
  - intros t [<-|[<-|[]]]; [exists Sample.june | exists Sample.other_june];
      simpl; auto.
  - repeat constructor; simpl; intuition discriminate.
  - lia.
Qed.

(** What the transaction is for: the same two statements sent one
    after the other outside a transaction, the second one refused, leave
    the period of the sample ledger without its transactions. *)
Example without_transaction :
  Prisma_tx.run
    [Prisma_tx.statement true
       (fun prisma =>
          Some (Prisma.transaction.deleteMany
                  (fun t => Transaction.savingId t =? 1) prisma));
     Prisma_tx.statement false (fun prisma => Prisma.saving.delete 1 prisma)]
    Sample.ledger
  = (false, mkStore [Sample.june] [] 2 4).
Proof. reflexivity. Qed.

(** C8: the forced deletion of a period of the caller answers 200 and
    reports the number N of transactions that referred to the period;
    afterwards none of them and no row of the period is in the store,
    every other row is, the ledger is N rows shorter, and a later request
    on the period or on any of those transaction ids is answered 404,
    whoever sends it.  The two deletions are one unit: whichever of the
    two statements the database fails to serve, the answer is 500 and
    the store is the one before the request, with the period and all N
    transactions; only when both are served does anything go, and then
    everything does.  So in every case, whatever the request and the
    store, the store afterwards is either unchanged or holds neither the
    period nor a transaction of it. *)
Theorem C8_force_delete (userId savingId : Z) (st : Store) (s : Saving.t) :
  (forall served,
     let st' := snd (SavingsRoute.delete_force_on served userId savingId st) in
     st' = st
     \/ ((forall r, In r (savings st') -> Saving.id r <> savingId)
         /\ (forall t, In t (transactions st') ->
                       Transaction.savingId t <> savingId)))
  /\ (wf_store st ->
      In s (savings st) ->
      Saving.id s = savingId ->
      Saving.userId s = userId ->
      let dependents :=
        filter (fun t => Transaction.savingId t =? savingId)
               (transactions st) in
      (exists message st',
         SavingsRoute.delete_force userId savingId st
         = (mkResponse 200
              (SavingForceDeleted message (Saving.id s) (Saving.month s)
                 (Saving.year s) (List.length dependents)),
            st')
         /\ (List.length (transactions st') + List.length dependents)%nat
            = List.length (transactions st)
         /\ (forall t, In t (transactions st')
                       <-> In t (transactions st)
                           /\ Transaction.savingId t <> savingId)
         /\ (forall r, In r (savings st') <-> In r (savings st) /\ r <> s)
         /\ (forall u,
               status (fst (TransactionsRoute.get_saving u savingId st'))
               = 404
               /\ status (fst (SavingsRoute.delete u savingId st')) = 404
               /\ status (fst (SavingsRoute.delete_force u savingId st'))
                  = 404)
         /\ (forall t u req,
               In t dependents ->
               status (fst (TransactionsRoute.put u (Transaction.id t) req
                              st')) = 404
               /\ status (fst (TransactionsRoute.delete u
                                 (Transaction.id t) st')) = 404))
      /\ (forall served,
            SavingsRoute.delete_force_on served userId savingId st
            = if served 0%nat && served 1%nat
              then SavingsRoute.delete_force userId savingId st
              else (mkResponse 500 (Err "Internal server error"), st))).
Proof.
  split.
  { intros served st'. subst st'.
    unfold SavingsRoute.delete_force_on, Prisma.saving.findFirst.
    destruct (find _ (savings st)) as [s0|]; [|now left].
    unfold Prisma_tx.transaction_, Prisma_tx.run, Prisma_tx.statement.
    destruct (served 0%nat); [|now left].
    destruct (served 1%nat); [|now left].
    unfold Prisma.saving.delete, Prisma.transaction.deleteMany. simpl.
    destruct (find _ (savings st)) as [s'|]; [|now left].
    right. simpl. split.
    - intros r Hr. now apply DeleteFacts.In_without in Hr.
    - intros x Hx. apply DeleteFacts.In_without in Hx.
      destruct Hx as [Hx _]. now apply DeleteFacts.In_without in Hx. }
  intros W H I U dependents. subst savingId.
  pose proof (wf_saving_ids st W) as N.
  pose proof (wf_transaction_ids st W) as Nt.
  split.
  - unfold SavingsRoute.delete_force, SavingsRoute.delete_force_on,
      Prisma.saving.findFirst.
    rewrite (HandlerFacts.find_saving_owned userId s _ N H U).
    unfold Prisma_tx.transaction_, Prisma_tx.run, Prisma_tx.statement,
      Prisma.saving.delete, Prisma.transaction.deleteMany,
      Prisma.transactions_of. simpl.
    rewrite (TableFacts.find_key_unique Saving.id _ s N H).
    rewrite (DeleteFacts.filter_negb_twice
               (fun t => Transaction.savingId t =? Saving.id s)).
    eexists _, _. split; [reflexivity|]. simpl.
    assert (Gone : forall u,
      find (fun x => (Saving.id x =? Saving.id s) && (Saving.userId x =? u))
           (filter (fun r => negb (Saving.id r =? Saving.id s)) (savings st))
      = None).
    { intro u. destruct (find _ _) as [x|] eqn:F; [|reflexivity].
      destruct (HandlerFacts.find_saving_inv _ _ _ _ F) as (Hx & K & _).
      apply DeleteFacts.In_without in Hx. tauto. }
    assert (GoneT : forall t u, In t dependents ->
      find (fun x => (Transaction.id x =? Transaction.id t)
                     && (Transaction.userId x =? u))
           (filter (fun x => negb (Transaction.savingId x =? Saving.id s))
                   (transactions st))
      = None).
    { intros t u Ht. destruct (find _ _) as [x|] eqn:F; [|reflexivity].
      destruct (HandlerFacts.find_transaction_inv _ _ _ _ F) as (Hx & K & _).
      apply DeleteFacts.In_without in Hx. destruct Hx as [Hx Kx].
      apply filter_In in Ht. destruct Ht as [Ht Kt]. apply Z.eqb_eq in Kt.
      assert (x = t)
        by exact (TableFacts.NoDup_key_inj Transaction.id _ x t Nt Hx Ht K).
      subst x. contradiction. }
    split; [|split; [|split; [|split]]].
    + rewrite Nat.add_comm. apply TableFacts.length_filter_split.
    + intro t. apply DeleteFacts.In_without.
    + intro r. rewrite DeleteFacts.In_without. split.
      * intros [Hr K]. split; [assumption | congruence].
      * intros [Hr K]. split; [assumption|]. intro E. apply K.
        exact (TableFacts.NoDup_key_inj Saving.id _ r s N Hr H E).
    + intro u.
      unfold TransactionsRoute.get_saving, SavingsRoute.delete,
        SavingsRoute.delete_force, SavingsRoute.delete_force_on,
        Prisma.saving.findFirst. simpl.
      rewrite (Gone u). auto.
    + intros t u req Ht.
      unfold TransactionsRoute.put, TransactionsRoute.delete,
        Prisma.transaction.findFirst. simpl.
      rewrite (GoneT t u Ht). auto.
  - intro served.
    unfold SavingsRoute.delete_force, SavingsRoute.delete_force_on,
      Prisma.saving.findFirst.
    rewrite (HandlerFacts.find_saving_owned userId s _ N H U).
    unfold Prisma_tx.transaction_, Prisma_tx.run, Prisma_tx.statement.
    destruct (served 0%nat); [|reflexivity].
    destruct (served 1%nat); reflexivity.
Qed.

Lemma C8_force_delete_witness :
  (exists message st',
     SavingsRoute.delete_force 1 1 Sample.ledger
     = (mkResponse 200 (SavingForceDeleted message 1 6 2024 3), st')
     /\ List.length (transactions st') = 0%nat
     /\ status (fst (TransactionsRoute.put 1 2
                       (TransactionsRoute.PutBody.mk None None None) st'))
        = 404)
  /\ SavingsRoute.delete_force_on (fun n => (n =? 0)%nat) 1 1 Sample.ledger
     = (mkResponse 500 (Err "Internal server error"), Sample.ledger).
Proof.
  destruct (proj2 (C8_force_delete 1 1 Sample.ledger Sample.june)
              ledger_wf (or_introl eq_refl) eq_refl eq_refl)
    as [(message & st' & E & L & _ & _ & _ & T) A].
  split.
  - exists message, st'. split; [exact E|]. split.
    + simpl in L. lia.
    + apply (T (Sample.spent 2 20 9) 1). simpl. auto.
  - exact (A (fun n => (n =? 0)%nat)).
Defined.

(** ** Isolation between users *)

Module IsolationFacts.

Lemma In_firstn {A : Type} (n : nat) (l : list A) (x : A) :
  In x (firstn n l) -> In x l.
Proof.
  revert l. induction n as [|n IH]; intros [|y l]; simpl; try tauto.
  intros [->|H]; auto.
Qed.

Lemma In_skipn {A : Type} (n : nat) (l : list A) (x : A) :
  In x (skipn n l) -> In x l.
Proof.
  revert l. induction n as [|n IH]; intros [|y l]; simpl; try tauto.
  intro H. auto.
Qed.

Lemma filter_set_rows_other {A : Type} (f : A -> Z) (p : A -> bool)
  (k : Z) (data : A -> A) (l : list A) :
  (forall r, In r l -> f r = k -> p r = false /\ p (data r) = false) ->
  filter p (Prisma.set_rows f k data l) = filter p l.
Proof.
  unfold Prisma.set_rows.
  induction l as [|x l IH]; simpl; intro H; [reflexivity|].
  rewrite IH by auto.
  destruct (f x =? k) eqn:K; [|reflexivity].
  apply Z.eqb_eq in K.
  destruct (H x (or_introl eq_refl) K) as [P1 P2].
  now rewrite P1, P2.
Qed.

Lemma filter_app_other {A : Type} (p : A -> bool) (l : list A) (x : A) :
  p x = false -> filter p (l ++ [x]) = filter p l.
Proof.
  intro H. rewrite filter_app. simpl. rewrite H. apply app_nil_r.
Qed.

(** An answer without rows that leaves the store as it is. *)
Ltac no_rows := repeat split; simpl; tauto.

Lemma other_user (a b x : Z) : x = a -> b <> a -> (x =? b) = false.
Proof. intros -> H. apply Z.eqb_neq. congruence. Qed.

Section Store.
Variable st : Store.
Hypothesis W : wf_store st.

(** The period a transaction refers to is a period of its user. *)
Lemma saving_of_owner (savingId userId : Z) (t : Transaction.t)
  (s : Saving.t) :
  In t (transactions st) ->
  Transaction.savingId t = savingId ->
  Transaction.userId t = userId ->
  find (fun x => Saving.id x =? savingId) (savings st) = Some s ->
  Saving.userId s = userId.
Proof.
  intros H <- <- F. destruct (find_some _ _ F) as [Hs K].
  apply Z.eqb_eq in K.
  destruct (wf_owner st W t H) as (s' & Hs' & E1 & E2).
  assert (s = s').
  { apply (TableFacts.NoDup_key_inj Saving.id _ s s'
             (wf_saving_ids st W) Hs Hs'). congruence. }
  now subst s'.
Qed.

(** The transactions of a period are transactions of its user. *)
Lemma transactions_of_owner (s : Saving.t) (t : Transaction.t) :
  In s (savings st) ->
  In t (Prisma.transactions_of s st) ->
  Transaction.userId t = Saving.userId s.
Proof.
  intros Hs H. apply filter_In in H. destruct H as [H K].
  apply Z.eqb_eq in K.
  destruct (wf_owner st W t H) as (s' & Hs' & E1 & E2).
  assert (s = s').
  { apply (TableFacts.NoDup_key_inj Saving.id _ s s'
             (wf_saving_ids st W) Hs Hs'). congruence. }
  subst s'. now symmetry.
Qed.

Lemma transactions_by_saving_owner (s : Saving.t) (t : Transaction.t) :
  In s (savings st) -> In t (transactions st) ->
  Transaction.savingId t = Saving.id s ->
  Transaction.userId t = Saving.userId s.
Proof.
  intros Hs H K. apply transactions_of_owner; [assumption|].
  apply filter_In. split; [assumption | now apply Z.eqb_eq].
Qed.

Lemma post_saving_isolated (userId : Z) (req : SavingsRoute.Body.t) :
  isolated userId st (SavingsRoute.post userId req st).
Proof.
  destruct (UpsertFacts.post_cases userId req st)
    as [[_ [error E]] | [_ E]]; rewrite E.
  { no_rows. }
  destruct (written userId req st) as [[s st']|] eqn:Wr.
  2:{ no_rows. }
  simpl.
  destruct (HandlerFacts.written_wf _ _ _ _ _ W Wr) as (_ & _ & K).
  assert (U : Saving.userId s = userId).
  { rewrite WfFacts.req_key_weekly in K. unfold key in K. congruence. }
  split; [|split]; simpl.
  - intros x [<-|[]]. exact U.
  - tauto.
  - intros other Ho.
    destruct (WrittenFacts.written_outcome _ _ _ _ _ Wr)
      as [r data Hr Hp Hd _ -> | _ _ _ _ _ _ ->]; simpl.
    + split; [|reflexivity].
      apply filter_set_rows_other. intros x Hx Ex.
      assert (x = r)
        by exact (TableFacts.NoDup_key_inj Saving.id _ x r
                    (wf_saving_ids st W) Hx Hr Ex).
      subst x.
      assert (Ur : Saving.userId r = userId).
      { apply WfFacts.lookup_iff in Hp.
        rewrite WfFacts.req_key_weekly in Hp. unfold key in Hp.
        congruence. }
      rewrite Hd. simpl. split; now apply other_user with userId.
    + split; [|reflexivity].
      apply filter_app_other. now apply other_user with userId.
Qed.

Lemma get_savings_all_isolated (userId : Z) :
  isolated userId st (SavingsRoute.get_all userId st).
Proof.
  unfold SavingsRoute.get_all, Prisma.saving.findMany.
  split; [|split]; simpl; [| |tauto].
  - intros s H. rewrite map_map in H. apply in_map_iff in H.
    destruct H as (x & <- & H). simpl.
    apply TableFacts.orderBy_In, filter_In in H.
    now apply Z.eqb_eq.
  - intros t H. apply in_flat_map in H. destruct H as (y & Hy & H).
    apply in_map_iff in Hy. destruct Hy as (x & <- & Hx). simpl in H.
    apply TableFacts.orderBy_In, filter_In in Hx.
    destruct Hx as [Hx U]. apply Z.eqb_eq in U.
    now rewrite (transactions_of_owner x t Hx H).
Qed.

Lemma get_saving_month_isolated (now userId year month : Z) :
  isolated userId st
    (SavingsRoute.get_year_month now userId year month st).
Proof.
  unfold SavingsRoute.get_year_month, Prisma.saving.findFirst.
  destruct (find _ (savings st)) as [s|] eqn:F.
  2:{ no_rows. }
  destruct (find_some _ _ F) as [Hs K].
  apply WfFacts.monthly_key_iff in K.
  assert (U : Saving.userId s = userId)
    by (unfold key in K; congruence).
  split; [|split]; simpl; [| |tauto].
  - intros x [<-|[]]. exact U.
  - intros t H. apply TableFacts.orderBy_In in H.
    now rewrite (transactions_of_owner s t Hs H).
Qed.

(** Removing the rows of a period of [userId] and what refers to it
    leaves the rows of the other users in place. *)
Lemma without_saving_other (userId other : Z) (s : Saving.t) :
  In s (savings st) -> Saving.userId s = userId -> other <> userId ->
  filter (fun x => Saving.userId x =? other)
         (filter (fun r => negb (Saving.id r =? Saving.id s))
                 (savings st))
  = filter (fun x => Saving.userId x =? other) (savings st)
  /\ filter (fun t => Transaction.userId t =? other)
            (filter (fun t => negb (Transaction.savingId t
                                    =? Saving.id s))
                    (transactions st))
     = filter (fun t => Transaction.userId t =? other) (transactions st).
Proof.
  intros Hs U Ho. split; apply TableFacts.filter_filter_ext.
  - intros x Hx Q. apply Z.eqb_eq in Q.
    apply negb_true_iff, Z.eqb_neq. intro E.
    assert (x = s)
      by exact (TableFacts.NoDup_key_inj Saving.id _ x s
                  (wf_saving_ids st W) Hx Hs E).
    subst x. congruence.
  - intros t Ht Q. apply Z.eqb_eq in Q.
    apply negb_true_iff, Z.eqb_neq. intro E.
    pose proof (transactions_by_saving_owner s t Hs Ht E). congruence.
Qed.

Lemma delete_saving_isolated (userId id : Z) :
  isolated userId st (SavingsRoute.delete userId id st).
Proof.
  unfold SavingsRoute.delete, Prisma.saving.findFirst.
  destruct (find _ (savings st)) as [s|] eqn:F.
  2:{ no_rows. }
  destruct (HandlerFacts.find_saving_inv _ _ _ _ F) as (Hs & I & U).
  destruct (0 <? _)%nat.
  { no_rows. }
  unfold Prisma.saving.delete. subst id.
  rewrite (TableFacts.find_key_unique Saving.id _ s
             (wf_saving_ids st W) Hs).
  split; [|split]; simpl; [tauto|tauto|].
  intros other Ho.
  exact (without_saving_other userId other s Hs U Ho).
Qed.

Lemma delete_force_isolated (userId id : Z) :
  isolated userId st (SavingsRoute.delete_force userId id st).
Proof.
  unfold SavingsRoute.delete_force, SavingsRoute.delete_force_on,
    Prisma.saving.findFirst.
  destruct (find _ (savings st)) as [s|] eqn:F.
  2:{ no_rows. }
  destruct (HandlerFacts.find_saving_inv _ _ _ _ F) as (Hs & I & U).
  unfold Prisma_tx.transaction_, Prisma_tx.run, Prisma_tx.statement,
    Prisma.saving.delete, Prisma.transaction.deleteMany. simpl. subst id.
  rewrite (TableFacts.find_key_unique Saving.id _ s
             (wf_saving_ids st W) Hs).
  split; [|split]; simpl; [tauto|tauto|].
  intros other Ho.
  rewrite (DeleteFacts.filter_negb_twice
             (fun t => Transaction.savingId t =? Saving.id s)).
  exact (without_saving_other userId other s Hs U Ho).
Qed.

Lemma post_transaction_isolated (now userId : Z)
  (req : TransactionsRoute.PostBody.t) :
  isolated userId st (TransactionsRoute.post now userId req st).
Proof.
  unfold TransactionsRoute.post, Prisma.saving.findFirst.
  destruct (_ || _).
  { no_rows. }
  destruct (Qle_bool _ 0).
  { no_rows. }
  destruct (find _ (savings st)) as [s|] eqn:F.
  2:{ no_rows. }
  destruct (HandlerFacts.find_saving_inv _ _ _ _ F) as (Hs & I & U).
  split; [|split]; simpl.
  - unfold Prisma.saving_of. simpl.
    rewrite <- I.
    rewrite (TableFacts.find_key_unique Saving.id _ s
               (wf_saving_ids st W) Hs).
    simpl. intros x [<-|[]]. exact U.
  - intros t [<-|[]]. reflexivity.
  - intros other Ho. split; [reflexivity|].
    apply filter_app_other. simpl. now apply other_user with userId.
Qed.

Lemma with_calculations_In (saving : Saving.t) (total : Q)
  (l : list Transaction.t) (c : Calc.t) :
  In c (TransactionsRoute.with_calculations saving st total l) ->
  In (Calc.transaction c) l
  /\ Calc.saving c = Prisma.saving_of (Calc.transaction c) st.
Proof.
  revert total. induction l as [|t l IH]; simpl; intros total H;
    [contradiction|].
  destruct H as [<-|H]; simpl; [auto|].
  destruct (IH _ H). auto.
Qed.

Lemma get_transactions_of_saving_isolated (userId savingId : Z) :
  isolated userId st (TransactionsRoute.get_saving userId savingId st).
Proof.
  unfold TransactionsRoute.get_saving, Prisma.saving.findFirst,
    Prisma.transaction.findMany.
  destruct (find _ (savings st)) as [s|] eqn:F.
  2:{ no_rows. }
  destruct (Prisma.select_ _ _).
  2:{ no_rows. }
  assert (Own : forall c,
    In c (rev (TransactionsRoute.with_calculations s st 0%Q
                 (Prisma.orderBy Prisma.date_desc
                    (filter (fun t => (Transaction.savingId t =? savingId)
                                      && (Transaction.userId t =? userId))
                            (transactions st))))) ->
    In (Calc.transaction c) (transactions st)
    /\ Transaction.userId (Calc.transaction c) = userId
    /\ Calc.saving c = Prisma.saving_of (Calc.transaction c) st).
  { intros c H. apply in_rev, with_calculations_In in H.
    destruct H as [H E]. apply TableFacts.orderBy_In, filter_In in H.
    destruct H as [H K]. apply andb_true_iff in K.
    destruct K as [_ K]. apply Z.eqb_eq in K. auto. }
  split; [|split]; simpl; [| |tauto].
  - intros x H. apply in_flat_map in H. destruct H as (c & Hc & H).
    destruct (Own c Hc) as (Ht & U & E). rewrite E in H.
    destruct (Prisma.saving_of (Calc.transaction c) st) as [s'|] eqn:G;
      [|contradiction].
    destruct H as [<-|[]].
    exact (saving_of_owner _ userId (Calc.transaction c) s' Ht
             eq_refl U G).
  - intros t H. apply in_map_iff in H. destruct H as (c & <- & Hc).
    now destruct (Own c Hc) as (_ & U & _).
Qed.

Lemma get_transactions_isolated (userId : Z) (limit offset : option nat) :
  isolated userId st (TransactionsRoute.get_all userId limit offset st).
Proof.
  unfold TransactionsRoute.get_all, Prisma.transaction.findMany.
  set (n := match limit with Some n => n | None => 50%nat end).
  set (k := match offset with Some n => n | None => 0%nat end).
  assert (Own : forall t,
    In t (firstn n (skipn k
            (Prisma.orderBy Prisma.date_desc
               (filter (fun t => Transaction.userId t =? userId)
                       (transactions st))))) ->
    In t (transactions st) /\ Transaction.userId t = userId).
  { intros t H.
    apply In_firstn, In_skipn, TableFacts.orderBy_In, filter_In in H.
    destruct H as [H K]. apply Z.eqb_eq in K. auto. }
  split; [|split]; simpl; [| |tauto].
  - intros x H. apply in_flat_map in H. destruct H as (y & Hy & H).
    apply in_map_iff in Hy. destruct Hy as (t & <- & Ht). simpl in H.
    destruct (Own t Ht) as [Hin U].
    destruct (Prisma.saving_of t st) as [s'|] eqn:G; [|contradiction].
    destruct H as [<-|[]].
    exact (saving_of_owner _ userId t s' Hin eq_refl U G).
  - intros t H. rewrite map_map in H. simpl in H. rewrite map_id in H.
    now destruct (Own t H).
Qed.

Lemma put_transaction_isolated (userId id : Z)
  (req : TransactionsRoute.PutBody.t) :
  isolated userId st (TransactionsRoute.put userId id req st).
Proof.
  unfold TransactionsRoute.put, Prisma.transaction.findFirst.
  destruct (find _ (transactions st)) as [t|] eqn:F.
  2:{ no_rows. }
  destruct (HandlerFacts.find_transaction_inv _ _ _ _ F)
    as (Ht & I & U).
  subst id. unfold Prisma.transaction.update.
  rewrite (TableFacts.find_key_unique Transaction.id _ t
             (wf_transaction_ids st W) Ht).
  split; [|split]; simpl.
  - unfold Prisma.saving_of. simpl.
    destruct (find _ (savings st)) as [s|] eqn:G; [|now intros x []].
    intros x [<-|[]].
    exact (saving_of_owner _ userId t s Ht eq_refl U G).
  - intros x [<-|[]]. exact U.
  - intros other Ho. split; [reflexivity|].
    apply filter_set_rows_other. intros x Hx Ex.
    assert (x = t)
      by exact (TableFacts.NoDup_key_inj Transaction.id _ x t
                  (wf_transaction_ids st W) Hx Ht Ex).
    subst x. simpl. split; now apply other_user with userId.
Qed.

Lemma delete_transaction_isolated (userId id : Z) :
  isolated userId st (TransactionsRoute.delete userId id st).
Proof.
  unfold TransactionsRoute.delete, Prisma.transaction.findFirst.
  destruct (find _ (transactions st)) as [t|] eqn:F.
  2:{ no_rows. }
  destruct (HandlerFacts.find_transaction_inv _ _ _ _ F)
    as (Ht & I & U).
  unfold Prisma.transaction.delete. subst id.
  rewrite (TableFacts.find_key_unique Transaction.id _ t
             (wf_transaction_ids st W) Ht).
  split; [|split]; simpl; [tauto|tauto|].
  intros other Ho. split; [reflexivity|].
  apply TableFacts.filter_filter_ext.
  intros x Hx Q. apply Z.eqb_eq in Q.
  apply negb_true_iff, Z.eqb_neq. intro E.
  assert (x = t).
  { apply (TableFacts.NoDup_key_inj Transaction.id _ x t
             (wf_transaction_ids st W) Hx Ht). congruence. }
  subst x. congruence.
Qed.

Lemma handle_isolated (now userId : Z) (r : request) :
  isolated userId st (handle now userId r st).
Proof.
  destruct r; simpl.
  - apply post_saving_isolated.
  - apply get_savings_all_isolated.
  - apply get_saving_month_isolated.
  - apply delete_saving_isolated.
  - apply delete_force_isolated.
  - apply post_transaction_isolated.
  - apply get_transactions_of_saving_isolated.
  - apply get_transactions_isolated.
  - apply put_transaction_isolated.
  - apply delete_transaction_isolated.
Qed.

(** A creation that names a period of another user writes nothing,
    whatever its amount: it is answered 400 when the amount fails its
    check, which comes first, and 404 otherwise. *)
Lemma foreign_create_writes_nothing (now userId id : Z)
  (req : TransactionsRoute.PostBody.t) (s : Saving.t) :
  TransactionsRoute.PostBody.savingId req = Some id ->
  In s (savings st) -> Saving.id s = id -> Saving.userId s <> userId ->
  snd (TransactionsRoute.post now userId req st) = st
  /\ (status (fst (TransactionsRoute.post now userId req st)) = 400
      \/ status (fst (TransactionsRoute.post now userId req st)) = 404).
Proof.
  intros Ei H I U.
  unfold TransactionsRoute.post, Prisma.saving.findFirst.
  destruct (_ || _); [simpl; auto|].
  destruct (Qle_bool _ 0); [simpl; auto|].
  rewrite Ei. simpl.
  rewrite (HandlerFacts.find_saving_foreign userId id s _
             (wf_saving_ids st W) H I U).
  simpl. auto.
Qed.

Lemma handle_owned_by_other (now userId : Z) (r : request) :
  owned_by_other userId r st ->
  status (fst (handle now userId r st)) = 404
  /\ snd (handle now userId r st) = st.
Proof.
  pose proof (wf_saving_ids st W) as N.
  pose proof (wf_transaction_ids st W) as Nt.
  destruct r; simpl; try contradiction.
  - intros (s & H & I & U).
    unfold SavingsRoute.delete, Prisma.saving.findFirst.
    now rewrite (HandlerFacts.find_saving_foreign userId id s _ N H I U).
  - intros (s & H & I & U).
    unfold SavingsRoute.delete_force, SavingsRoute.delete_force_on,
      Prisma.saving.findFirst.
    now rewrite (HandlerFacts.find_saving_foreign userId id s _ N H I U).
  - intros (amount & id & s & Ea & Pos & Ei & H & I & U).
    unfold TransactionsRoute.post, Prisma.saving.findFirst.
    rewrite Ea, Ei. simpl.
    rewrite UpsertFacts.Qeq_bool_false.
    2:{ intro E. rewrite E in Pos. exact (Qlt_irrefl _ Pos). }
    pose proof (wf_saving_range st W s H) as R.
    replace (id =? 0) with false by (symmetry; apply Z.eqb_neq; lia).
    simpl. rewrite (UpsertFacts.Qle_bool_false amount 0 Pos).
    now rewrite (HandlerFacts.find_saving_foreign userId id s _ N H I U).
  - intros (s & H & I & U).
    unfold TransactionsRoute.get_saving, Prisma.saving.findFirst.
    now rewrite (HandlerFacts.find_saving_foreign userId savingId s _
                   N H I U).
  - intros (t & H & I & U).
    unfold TransactionsRoute.put, Prisma.transaction.findFirst.
    now rewrite (HandlerFacts.find_transaction_foreign userId id t _
                   Nt H I U).
  - intros (t & H & I & U).
    unfold TransactionsRoute.delete, Prisma.transaction.findFirst.
    now rewrite (HandlerFacts.find_transaction_foreign userId id t _
                   Nt H I U).
Qed.
End Store.

End IsolationFacts.

(** C9, as stated, fails on the code: user 1 asks for a transaction of
    amount -5 on period 2, which exists and belongs to user 2; the
    amount is checked before the period is looked up, and the answer is
    400, not 404. *)
Lemma C9_foreign_create_with_bad_amount_is_400 :
  let req :=
    TransactionsRoute.PostBody.mk (Some (-5)%Q) None None (Some 2) in
  (exists s, In s (savings Sample.two_users)
             /\ Saving.id s = 2 /\ Saving.userId s <> 1)
  /\ status (fst (handle 0 1 (PostTransaction req) Sample.two_users)) = 400
  /\ status (fst (handle 0 1 (PostTransaction req) Sample.two_users)) <> 404.
Proof.
  split; [|split; [reflexivity | discriminate]].
  exists Sample.other_june. simpl. intuition discriminate.
Qed.

(** C9, amended: on every well-formed store (every store the engine
    reaches is one), whatever the request and whoever sends it, the
    answer carries only periods and transactions of the caller, the
    periods and transactions of every other user are in the store
    afterwards exactly as before, and a request that names a period or a
    transaction of another user (to read the ledger of the period, to
    update or delete a transaction, to delete or force-delete the
    period, or to create a transaction of a positive amount) is answered
    404 with the store unchanged.  A creation on a period of another
    user never writes: it is answered 400 when its amount is missing, 0
    or negative, the check the handler makes first, and 404 otherwise. *)
Theorem C9_isolation (now userId : Z) (r : request) (st : Store) :
  wf_store st ->
  (forall s, In s (savings_in (json (fst (handle now userId r st)))) ->
             Saving.userId s = userId)
  /\ (forall t, In t (transactions_in (json (fst (handle now userId r st)))) ->
                Transaction.userId t = userId)
  /\ (forall other, other <> userId ->
        filter (fun s => Saving.userId s =? other)
               (savings (snd (handle now userId r st)))
        = filter (fun s => Saving.userId s =? other) (savings st)
        /\ filter (fun t => Transaction.userId t =? other)
                  (transactions (snd (handle now userId r st)))
           = filter (fun t => Transaction.userId t =? other)
                    (transactions st))
  /\ (owned_by_other userId r st ->
      status (fst (handle now userId r st)) = 404
      /\ snd (handle now userId r st) = st)
  /\ (forall req id s,
        r = PostTransaction req ->
        TransactionsRoute.PostBody.savingId req = Some id ->
        In s (savings st) -> Saving.id s = id -> Saving.userId s <> userId ->
        snd (handle now userId r st) = st
        /\ (status (fst (handle now userId r st)) = 400
            \/ status (fst (handle now userId r st)) = 404)
        /\ (status (fst (handle now userId r st)) = 404
            <-> exists amount,
                  TransactionsRoute.PostBody.amount req = Some amount
                  /\ (0 < amount)%Q)).
Proof.
  intro W.
  destruct (IsolationFacts.handle_isolated st W now userId r)
    as (S & T & O).
  split; [exact S|]. split; [exact T|]. split; [exact O|].
  split; [exact (IsolationFacts.handle_owned_by_other st W now userId r)|].
  intros req id s -> Ei H I U. simpl.
  destruct (IsolationFacts.foreign_create_writes_nothing st W now userId id
              req s Ei H I U) as [Same Status].
  split; [exact Same|]. split; [exact Status|].
  split.
  - unfold TransactionsRoute.post. rewrite Ei.
    destruct (TransactionsRoute.PostBody.amount req) as [amount|];
      simpl; [|discriminate].
    destruct (Qeq_bool amount 0); simpl; [discriminate|].
    destruct (id =? 0); simpl; [discriminate|].
    destruct (Qle_bool amount 0) eqn:L; simpl; [discriminate|].
    intros _. exists amount. split; [reflexivity|].
    now apply UpsertFacts.Qle_bool_false_inv.
  - intros (amount & Ea & Pos).
    apply (IsolationFacts.handle_owned_by_other st W now userId
             (PostTransaction req)).
    simpl. exists amount, id, s. tauto.
Qed.

Lemma C9_isolation_witness :
  status (fst (handle 0 1 (DeleteSavingForce 2) Sample.two_users)) = 404
  /\ snd (handle 0 1 (DeleteSavingForce 2) Sample.two_users)
     = Sample.two_users
  /\ filter (fun t => Transaction.userId t =? 2)
            (transactions (snd (handle 0 1 (DeleteSavingForce 1)
                                  Sample.two_users)))
     = [Sample.other_spent].
Proof.
  destruct (C9_isolation 0 1 (DeleteSavingForce 2) Sample.two_users
              two_users_wf) as (_ & _ & _ & F & _).
  destruct (C9_isolation 0 1 (DeleteSavingForce 1) Sample.two_users
              two_users_wf) as (_ & _ & O & _).
  split; [|split].
  - apply F. exists Sample.other_june. simpl. intuition discriminate.
  - apply F. exists Sample.other_june. simpl. intuition discriminate.
  - rewrite (proj2 (O 2 ltac:(discriminate))). reflexivity.
Defined.

(** The stores the engine reaches from the empty one are well formed. *)
Lemma reachable_wf (st : Store) : reachable st -> wf_store st.
Proof.
  induction 1 as [|now userId r st R IH].
  - exact WfFacts.wf_empty.
  - now apply HandlerFacts.handle_wf.
Qed.

Module OrderFacts.

Section Insertion.
Context {A : Type} (before : A -> A -> bool).
Hypothesis before_total : forall x y, before x y = false -> before y x = true.

Lemma insert_row_HdRel (a x : A) (l : list A) :
  before a x = true ->
  HdRel (fun u v => before u v = true) a l ->
  HdRel (fun u v => before u v = true) a (Prisma.insert_row before x l).
Proof.
  intros Hax H. destruct l as [|y l]; simpl.
  - now constructor.
  - destruct (before x y); constructor; [assumption|].
    now inversion H.
Qed.

Lemma insert_row_sorted (x : A) (l : list A) :
  Sorted (fun u v => before u v = true) l ->
  Sorted (fun u v => before u v = true) (Prisma.insert_row before x l).
Proof.
  induction l as [|y l IH]; simpl; intro S.
  - repeat constructor.
  - destruct (before x y) eqn:B.
    + constructor; [assumption | now constructor].
    + inversion S as [|? ? S' H]; subst.
      constructor; [now apply IH|].
      apply insert_row_HdRel; [now apply before_total | assumption].
Qed.

Lemma orderBy_sorted (l : list A) :
  Sorted (fun u v => before u v = true) (Prisma.orderBy before l).
Proof.
  induction l as [|x l IH]; simpl; [constructor|].
  now apply insert_row_sorted.
Qed.

Lemma insert_row_perm (x : A) (l : list A) :
  Permutation (x :: l) (Prisma.insert_row before x l).
Proof.
  induction l as [|y l IH]; simpl; [reflexivity|].
  destruct (before x y); [reflexivity|].
  rewrite perm_swap. now constructor.
Qed.

Lemma orderBy_perm (l : list A) : Permutation l (Prisma.orderBy before l).
Proof.
  induction l as [|x l IH]; simpl; [constructor|].
  rewrite <- insert_row_perm. now constructor.
Qed.
End Insertion.

Section Strong.
Context {A : Type} (R : A -> A -> Prop).

Lemma StronglySorted_firstn (n : nat) (l : list A) :
  StronglySorted R l -> StronglySorted R (firstn n l).
Proof.
  revert l. induction n as [|n IH]; intros [|x l] S; simpl;
    try constructor.
  - apply IH. now inversion S.
  - inversion S as [|? ? _ F]; subst.
    rewrite Forall_forall in *. intros y Hy. apply F.
    revert Hy. clear. revert l. induction n as [|n IH]; intros [|z l];
      simpl; try tauto.
    intros [->|H]; auto.
Qed.

Lemma StronglySorted_skipn (n : nat) (l : list A) :
  StronglySorted R l -> StronglySorted R (skipn n l).
Proof.
  revert l. induction n as [|n IH]; intros [|x l] S; simpl;
    try assumption.
  apply IH. now inversion S.
Qed.

End Strong.

Lemma date_desc_sorted (l : list Transaction.t) :
  StronglySorted newer_first (Prisma.orderBy Prisma.date_desc l).
Proof.
  apply Sorted_StronglySorted.
  - intros a b c. unfold newer_first. lia.
  - eapply Sorted_ind with (R := fun u v => Prisma.date_desc u v = true)
        (P := Sorted newer_first).
    + constructor.
    + intros a m _ IH H. constructor; [assumption|].
      destruct H; constructor. now apply Z.leb_le.
    + apply orderBy_sorted. intros x y H. unfold Prisma.date_desc in *.
      apply Z.leb_le. apply Z.leb_gt in H. lia.
Qed.

End OrderFacts.

Module LedgerFacts.


Lemma find_owned_none_iff {A : Type} (fid fuser : A -> Z) (id u : Z)
  (l : list A) :
  find (fun x => (fid x =? id) && (fuser x =? u)) l = None
  <-> (forall x, In x l -> fid x = id -> fuser x <> u).
Proof.
  split.
  - intros F x Hx I U. pose proof (find_none _ _ F x Hx) as K.
    simpl in K. apply Z.eqb_eq in I, U. rewrite I, U in K. discriminate.
  - intro H. destruct (find _ l) as [x|] eqn:F; [|reflexivity].
    destruct (find_some _ _ F) as [Hx K].
    apply andb_true_iff in K. destruct K as [K1 K2].
    apply Z.eqb_eq in K1, K2. now destruct (H x Hx K1).
Qed.

End LedgerFacts.

(** [GET /transactions]: the answer is 200 and the store is untouched;
    [total] counts the transactions of the caller; the page holds
    min(limit, total - offset) of them, newest first; [hasMore] tells
    exactly whether transactions remain after the page; and a first page
    at least as long as the total holds every transaction of the caller
    once. *)
Theorem transactions_page (userId : Z) (limit offset : option nat)
  (st : Store) :
  let n := match limit with Some n => n | None => 50%nat end in
  let k := match offset with Some k => k | None => 0%nat end in
  let mine :=
    filter (fun t => Transaction.userId t =? userId) (transactions st) in
  exists l p,
    TransactionsRoute.get_all userId limit offset st
    = (mkResponse 200 (TransactionsPage l p), st)
    /\ Pagination.total p = List.length mine
    /\ List.length l = Nat.min n (List.length mine - k)
    /\ (Pagination.hasMore p = true
        <-> (k + List.length l < List.length mine)%nat)
    /\ StronglySorted newer_first (map fst l)
    /\ (forall t, In t (map fst l) -> In t mine)
    /\ (k = 0%nat -> (List.length mine <= n)%nat ->
        Permutation (map fst l) mine).
Proof.
  intros n k mine.
  unfold TransactionsRoute.get_all, Prisma.transaction.findMany,
    Prisma.transaction.count.
  fold n k mine.
  set (sorted := Prisma.orderBy Prisma.date_desc mine).
  assert (L : List.length sorted = List.length mine).
  { symmetry. apply Permutation_length, OrderFacts.orderBy_perm. }
  eexists _, _. split; [reflexivity|]. simpl.
  rewrite map_map. simpl. rewrite map_id, length_map.
  rewrite length_firstn, length_skipn, L.
  split; [reflexivity|]. split; [reflexivity|]. split; [|split; [|split]].
  - rewrite Nat.ltb_lt. lia.
  - apply OrderFacts.StronglySorted_firstn, OrderFacts.StronglySorted_skipn.
    apply OrderFacts.date_desc_sorted.
  - intros t H.
    apply IsolationFacts.In_firstn, IsolationFacts.In_skipn in H.
    now apply TableFacts.orderBy_In in H.
  - intros -> Hn. simpl. rewrite firstn_all2 by lia.
    symmetry. apply OrderFacts.orderBy_perm.
Qed.


Module RowFacts.

(** Taking the one row of key [f t] out of a table of distinct keys. *)
Lemma without_row {A : Type} (f : A -> Z) (l : list A) (t : A) :
  NoDup (map f l) -> In t l ->
  exists l1 l2,
    l = l1 ++ t :: l2
    /\ filter (fun x => negb (f x =? f t)) l = l1 ++ l2.
Proof.
  intros N H. destruct (in_split _ _ H) as (l1 & l2 & ->).
  exists l1, l2. split; [reflexivity|].
  rewrite map_app in N. simpl in N.
  pose proof (NoDup_remove_2 _ _ _ N) as Nt.
  rewrite filter_app. simpl. rewrite Z.eqb_refl. simpl.
  rewrite !TableFacts.filter_all; [reflexivity| |].
  - intros x Hx. apply negb_true_iff, Z.eqb_neq. intro E. apply Nt.
    apply in_or_app. right. rewrite <- E. now apply in_map.
  - intros x Hx. apply negb_true_iff, Z.eqb_neq. intro E. apply Nt.
    apply in_or_app. left. rewrite <- E. now apply in_map.
Qed.

Lemma find_app {A : Type} (p : A -> bool) (l m : list A) :
  find p (l ++ m)
  = match find p l with Some x => Some x | None => find p m end.
Proof.
  induction l as [|x l IH]; simpl; [reflexivity|].
  now destruct (p x).
Qed.

Lemma find_none_all {A : Type} (p : A -> bool) (l : list A) :
  (forall x, In x l -> p x = false) -> find p l = None.
Proof.
  intro H. destruct (find p l) as [x|] eqn:F; [|reflexivity].
  destruct (find_some _ _ F) as [Hx K]. rewrite (H x Hx) in K.
  discriminate.
Qed.

End RowFacts.

(** [DELETE /transactions/:id] on a transaction of the caller answers 200
    and takes this one row out of the ledger, the others keeping their
    order; periods are untouched, and the same request sent again is
    answered 404 and changes nothing. *)
Theorem delete_transaction_exact (userId : Z) (st : Store)
  (t : Transaction.t) :
  NoDup (map Transaction.id (transactions st)) ->
  In t (transactions st) ->
  Transaction.userId t = userId ->
  exists message st' l1 l2,
    TransactionsRoute.delete userId (Transaction.id t) st
    = (mkResponse 200 (Msg message), st')
    /\ transactions st = l1 ++ t :: l2
    /\ transactions st' = l1 ++ l2
    /\ savings st' = savings st
    /\ status (fst (TransactionsRoute.delete userId (Transaction.id t) st'))
       = 404
    /\ snd (TransactionsRoute.delete userId (Transaction.id t) st') = st'.
Proof.
  intros N H U.
  unfold TransactionsRoute.delete at 1, Prisma.transaction.findFirst.
  rewrite (UpdateFacts.find_owned userId t _ N H U).
  unfold Prisma.transaction.delete.
  rewrite (TableFacts.find_key_unique Transaction.id _ t N H).
  destruct (RowFacts.without_row Transaction.id _ t N H) as (l1 & l2 & E & F).
  eexists _, _, l1, l2. split; [reflexivity|]. simpl.
  split; [exact E|]. split; [exact F|]. split; [reflexivity|].
  unfold TransactionsRoute.delete, Prisma.transaction.findFirst. simpl.
  replace (find _ _) with (@None Transaction.t); [auto|].
  symmetry. apply LedgerFacts.find_owned_none_iff.
  intros x Hx I. apply filter_In in Hx. destruct Hx as [_ K].
  apply negb_true_iff, Z.eqb_neq in K. contradiction.
Qed.

Lemma delete_transaction_exact_witness :
  exists message st' l1 l2,
    TransactionsRoute.delete 1 2 Sample.ledger
    = (mkResponse 200 (Msg message), st')
    /\ transactions Sample.ledger = l1 ++ Sample.spent 2 20 9 :: l2
    /\ transactions st' = l1 ++ l2
    /\ savings st' = savings Sample.ledger
    /\ status (fst (TransactionsRoute.delete 1 2 st')) = 404
    /\ snd (TransactionsRoute.delete 1 2 st') = st'.
Proof.
  apply (delete_transaction_exact 1 Sample.ledger (Sample.spent 2 20 9)).
  - simpl. repeat constructor; simpl; intuition discriminate.
  - simpl. auto.
  - reflexivity.
Defined.

(** Every answer is 200, 201, 400, 404 or 500, and only a 200 or a 201
    comes with a write: a request answered 400, 404 or 500 leaves the
    store as it was, and so does every read, whatever its answer. *)
Theorem answers_and_writes (now userId : Z) (r : request) (st : Store) :
  (status (fst (handle now userId r st)) = 200
   \/ status (fst (handle now userId r st)) = 201
   \/ status (fst (handle now userId r st)) = 400
   \/ status (fst (handle now userId r st)) = 404
   \/ status (fst (handle now userId r st)) = 500)
  /\ (status (fst (handle now userId r st)) = 400
      \/ status (fst (handle now userId r st)) = 404
      \/ status (fst (handle now userId r st)) = 500
      \/ is_read r = true ->
      snd (handle now userId r st) = st).
Proof.
  destruct r; simpl.
  - destruct (UpsertFacts.post_cases userId req st)
      as [[_ [error E]] | [_ E]]; rewrite E; simpl; [intuition|].
    destruct (written userId req st) as [[s st']|]; simpl;
      [intuition discriminate | intuition].
  - intuition.
  - unfold SavingsRoute.get_year_month.
    destruct (Prisma.saving.findFirst _ st); simpl; intuition.
  - unfold SavingsRoute.delete, Prisma.saving.findFirst.
    destruct (find _ (savings st)) as [s|] eqn:F; simpl; [|intuition].
    destruct (0 <? _)%nat; simpl; [intuition|].
    destruct (find_some _ _ F) as [H K].
    apply andb_true_iff in K. destruct K as [K _]. apply Z.eqb_eq in K.
    destruct (TableFacts.find_key_some Saving.id _ s H) as [s' F'].
    unfold Prisma.saving.delete. rewrite <- K, F'. simpl.
    intuition discriminate.
  - unfold SavingsRoute.delete_force, SavingsRoute.delete_force_on,
      Prisma.saving.findFirst.
    destruct (find _ (savings st)) as [s|] eqn:F; simpl; [|intuition].
    destruct (find_some _ _ F) as [H K].
    apply andb_true_iff in K. destruct K as [K _]. apply Z.eqb_eq in K.
    destruct (TableFacts.find_key_some Saving.id _ s H) as [s' F'].
    unfold Prisma_tx.transaction_, Prisma_tx.run, Prisma_tx.statement,
      Prisma.saving.delete. simpl.
    rewrite <- K, F'. simpl. intuition discriminate.
  - unfold TransactionsRoute.post, Prisma.saving.findFirst.
    destruct (_ || _); simpl; [intuition|].
    destruct (Qle_bool _ 0); simpl; [intuition|].
    destruct (find _ (savings st)); simpl; intuition discriminate.
  - destruct (HandlerFacts.get_saving_cases userId savingId st)
      as [[_ ->] | [_ ->]]; simpl; intuition.
  - intuition.
  - unfold TransactionsRoute.put, Prisma.transaction.findFirst.
    destruct (find _ (transactions st)) as [t|] eqn:F; simpl; [|intuition].
    destruct (find_some _ _ F) as [H K].
    apply andb_true_iff in K. destruct K as [K _]. apply Z.eqb_eq in K.
    destruct (TableFacts.find_key_some Transaction.id _ t H) as [t' F'].
    unfold Prisma.transaction.update. rewrite <- K, F'. simpl.
    intuition discriminate.
  - unfold TransactionsRoute.delete, Prisma.transaction.findFirst.
    destruct (find _ (transactions st)) as [t|] eqn:F; simpl; [|intuition].
    destruct (find_some _ _ F) as [H K].
    apply andb_true_iff in K. destruct K as [K _]. apply Z.eqb_eq in K.
    destruct (TableFacts.find_key_some Transaction.id _ t H) as [t' F'].
    unfold Prisma.transaction.delete. rewrite <- K, F'. simpl.
    intuition discriminate.
Qed.

Lemma answers_and_writes_witness :
  snd (handle 0 1 (DeleteTransaction 9) Sample.ledger) = Sample.ledger.
Proof.
  apply (proj2 (answers_and_writes 0 1 (DeleteTransaction 9) Sample.ledger)).
  right. left. reflexivity.
Defined.


Module CreateFacts.
Import TransactionsRoute.



End CreateFacts.





(** Whatever the request, [POST /transactions] keeps every transaction
    and every period as they are and adds at most one row to the end of
    the ledger; a row it adds has a positive amount, belongs to the
    caller and refers to a period of the caller; it adds none unless it
    answers 201. *)
Theorem create_adds_only_valid_rows (now userId : Z)
  (req : TransactionsRoute.PostBody.t) (st : Store) :
  exists added,
    transactions (snd (TransactionsRoute.post now userId req st))
    = transactions st ++ added
    /\ savings (snd (TransactionsRoute.post now userId req st)) = savings st
    /\ (List.length added <= 1)%nat
    /\ (added = []
        \/ status (fst (TransactionsRoute.post now userId req st)) = 201)
    /\ Forall
         (fun t =>
            (0 < Transaction.amount t)%Q
            /\ Transaction.userId t = userId
            /\ exists s, In s (savings st)
                         /\ Saving.id s = Transaction.savingId t
                         /\ Saving.userId s = userId)
         added.
Proof.
  unfold TransactionsRoute.post, Prisma.saving.findFirst.
  destruct (_ || _).
  { exists []. simpl. rewrite app_nil_r.
    split; [reflexivity|]. split; [reflexivity|]. split; [lia|].
    split; [now left | constructor]. }
  destruct (Qle_bool _ 0) eqn:L.
  { exists []. simpl. rewrite app_nil_r.
    split; [reflexivity|]. split; [reflexivity|]. split; [lia|].
    split; [now left | constructor]. }
  destruct (find _ (savings st)) as [s|] eqn:F.
  2:{ exists []. simpl. rewrite app_nil_r.
    split; [reflexivity|]. split; [reflexivity|]. split; [lia|].
    split; [now left | constructor]. }
  destruct (HandlerFacts.find_saving_inv _ _ _ _ F) as (Hs & I & U).
  eexists [_]. simpl. split; [reflexivity|]. split; [reflexivity|].
  split; [lia|]. split; [now right|].
  constructor; [|constructor]. simpl.
  split; [now apply UpsertFacts.Qle_bool_false_inv|].
  split; [reflexivity|]. eauto.
Qed.

Module OverviewFacts.

Lemma year_month_desc_sorted (l : list Saving.t) :
  StronglySorted later_first (Prisma.orderBy Prisma.year_month_desc l).
Proof.
  apply Sorted_StronglySorted.
  - intros a b c. unfold later_first. lia.
  - eapply Sorted_ind
      with (R := fun u v => Prisma.year_month_desc u v = true)
           (P := Sorted later_first).
    + constructor.
    + intros a m _ IH H. constructor; [assumption|].
      destruct H as [|b m' H]; constructor.
      unfold Prisma.year_month_desc in H. unfold later_first.
      apply orb_true_iff in H. destruct H as [H|H].
      * apply Z.ltb_lt in H. now left.
      * apply andb_true_iff in H. destruct H as [H1 H2].
        apply Z.eqb_eq in H1. apply Z.leb_le in H2. now right.
    + apply OrderFacts.orderBy_sorted. intros x y H.
      unfold Prisma.year_month_desc in *.
      apply orb_false_iff in H. destruct H as [H1 H2].
      apply Z.ltb_ge in H1. apply orb_true_iff.
      destruct (Z.eq_dec (Saving.year x) (Saving.year y)) as [E|E].
      * right. rewrite E, Z.eqb_refl in *. simpl in *.
        apply Z.leb_gt in H2. apply Z.leb_le. lia.
      * left. apply Z.ltb_lt. lia.
Qed.

End OverviewFacts.

(** [GET /savings/all] answers 200 without writing; it lists each period
    of the caller once, the later period first (by year, then month);
    with each period come exactly the transactions that refer to it and
    their number; [totalSpent] is their amounts added up from 0 in the
    order of the list, and [remainingBudget] is the available amount of
    the period less [totalSpent]. *)
Theorem savings_overview (userId : Z) (st : Store) :
  exists l,
    SavingsRoute.get_all userId st
    = (mkResponse 200 (SavingsWithSummary l), st)
    /\ Permutation (map (fun x => fst (fst x)) l)
         (filter (fun s => Saving.userId s =? userId) (savings st))
    /\ StronglySorted later_first (map (fun x => fst (fst x)) l)
    /\ Forall
         (fun x =>
            let '(s, txs, summary) := x in
            (forall t, In t txs <->
                       In t (transactions st)
                       /\ Transaction.savingId t = Saving.id s)
            /\ AllSummary.transactionCount summary = List.length txs
            /\ AllSummary.totalSpent summary = sum_amounts txs
            /\ AllSummary.remainingBudget summary
               = (Saving.availableAmount s
                  - AllSummary.totalSpent summary)%Q)
         l.
Proof.
  unfold SavingsRoute.get_all, Prisma.saving.findMany.
  eexists. split; [reflexivity|].
  rewrite map_map. simpl. rewrite map_id.
  split; [|split].
  - symmetry. apply OrderFacts.orderBy_perm.
  - apply OverviewFacts.year_month_desc_sorted.
  - apply Forall_forall. intros x Hx. apply in_map_iff in Hx.
    destruct Hx as (s & <- & _).
    split; [|split; [|split]].
    + intro t. unfold Prisma.transactions_of.
      rewrite filter_In, Z.eqb_eq. reflexivity.
    + reflexivity.
    + reflexivity.
    + reflexivity.
Qed.

Module CountFacts.

Lemma list_sum_perm {A : Type} (f : A -> nat) (l l' : list A) :
  Permutation l l' -> list_sum (map f l) = list_sum (map f l').
Proof.
  induction 1; simpl; lia.
Qed.

Lemma list_sum_indicator {A : Type} (p : A -> bool) (l : list A) :
  list_sum (map (fun x => if p x then 1%nat else 0%nat) l)
  = List.length (filter p l).
Proof.
  induction l as [|x l IH]; simpl; [reflexivity|].
  destruct (p x); simpl; lia.
Qed.

Section Counting.
Variable st : Store.
Hypothesis W : wf_store st.
Variable userId : Z.

Local Notation "'mine'" :=
  (filter (fun s => Saving.userId s =? userId) (savings st)).

(** A transaction refers to one period of the caller when it is the
    caller's, and to none otherwise. *)
Lemma periods_of_transaction (t : Transaction.t) :
  In t (transactions st) ->
  List.length (filter (fun s => Transaction.savingId t =? Saving.id s) mine)
  = if Transaction.userId t =? userId then 1%nat else 0%nat.
Proof.
  intro H. pose proof (wf_saving_ids st W) as N.
  destruct (wf_owner st W t H) as (s0 & H0 & I0 & U0).
  destruct (Transaction.userId t =? userId) eqn:U.
  - apply Z.eqb_eq in U.
    assert (M : In s0 mine).
    { apply filter_In. split; [assumption|]. apply Z.eqb_eq. congruence. }
    rewrite <- I0.
    erewrite filter_ext
      with (g := fun s => Saving.id s =? Saving.id s0)
      by (intro; apply Z.eqb_sym).
    rewrite (DeleteFacts.filter_key_single Saving.id mine s0); [reflexivity| |
      assumption].
    now apply TableFacts.NoDup_map_filter.
  - apply Z.eqb_neq in U.
    rewrite TableFacts.filter_none; [reflexivity|].
    intros s Hs. apply filter_In in Hs. destruct Hs as [Hs Us].
    apply Z.eqb_eq in Us. apply Z.eqb_neq. intro E.
    assert (s = s0).
    { apply (TableFacts.NoDup_key_inj Saving.id _ s s0 N Hs H0).
      congruence. }
    subst s. congruence.
Qed.

Lemma counts_partition (l : list Transaction.t) :
  (forall t, In t l -> In t (transactions st)) ->
  list_sum
    (map (fun s =>
            List.length
              (filter (fun t => Transaction.savingId t =? Saving.id s) l))
         mine)
  = List.length (filter (fun t => Transaction.userId t =? userId) l).
Proof.
  induction l as [|t l IH]; intro Sub; simpl.
  - generalize mine. intro m. induction m as [|s m IHm]; simpl; auto.
  - pose proof (periods_of_transaction t (Sub t (or_introl eq_refl))) as P.
    rewrite <- list_sum_indicator in P.
    specialize (IH (fun x Hx => Sub x (or_intror Hx))).
    transitivity
      (list_sum (map (fun s => if (Transaction.savingId t =? Saving.id s)%Z
                               then 1%nat else 0%nat) mine)
       + list_sum
           (map (fun s =>
                   List.length
                     (filter (fun t0 => (Transaction.savingId t0
                                         =? Saving.id s)%Z) l)) mine))%nat.
    + clear. generalize mine. intro m.
      induction m as [|s m IHm]; simpl; [reflexivity|].
      rewrite IHm. destruct (Transaction.savingId t =? Saving.id s);
        simpl; lia.
    + rewrite P, IH.
      destruct (Transaction.userId t =? userId); simpl; lia.
Qed.
End Counting.

End CountFacts.

(** On a well-formed store the transaction counts of [GET /savings/all]
    add up to the number of transactions of the caller: each of them is
    counted under exactly one period. *)
Theorem overview_counts_every_transaction_once (userId : Z) (st : Store) :
  wf_store st ->
  list_sum
    (map (fun x => AllSummary.transactionCount (snd x))
         (overview_of userId st))
  = List.length
      (filter (fun t => Transaction.userId t =? userId) (transactions st)).
Proof.
  intro W. unfold overview_of, SavingsRoute.get_all, Prisma.saving.findMany.
  simpl. rewrite map_map. simpl.
  rewrite <- (CountFacts.counts_partition st W userId (transactions st))
    by auto.
  symmetry.
  apply (CountFacts.list_sum_perm
           (fun s => List.length (Prisma.transactions_of s st))).
  apply OrderFacts.orderBy_perm.
Qed.

Lemma overview_counts_every_transaction_once_witness :
  list_sum
    (map (fun x => AllSummary.transactionCount (snd x))
         (overview_of 1 Sample.two_users))
  = 1%nat.
Proof.
  exact (overview_counts_every_transaction_once 1 Sample.two_users
           two_users_wf).
Defined.

Module ViewFacts.

Lemma find_unique_key (l : list Saving.t) (s : Saving.t) (u m y : Z) :
  NoDup (map key l) -> In s l -> key s = (u, m, y, None) ->
  find (SavingsRoute.monthly_key u m y) l = Some s.
Proof.
  intros N H K.
  destruct (find _ l) as [x|] eqn:F.
  - destruct (find_some _ _ F) as [Hx Kx].
    apply WfFacts.monthly_key_iff in Kx. f_equal.
    apply (TableFacts.NoDup_map_inj key l x s N Hx H). congruence.
  - apply WfFacts.monthly_key_iff in K.
    rewrite (find_none _ _ F s H) in K. discriminate.
Qed.

Lemma find_set_rows_other {A : Type} (f : A -> Z) (p : A -> bool) (k : Z)
  (data : A -> A) (l : list A) :
  (forall r, In r l -> f r = k -> p r = false /\ p (data r) = false) ->
  find p (Prisma.set_rows f k data l) = find p l.
Proof.
  unfold Prisma.set_rows.
  induction l as [|x l IH]; simpl; intro H; [reflexivity|].
  rewrite IH by auto.
  destruct (f x =? k) eqn:K; [|reflexivity].
  apply Z.eqb_eq in K.
  destruct (H x (or_introl eq_refl) K) as [P1 P2].
  now rewrite P1, P2.
Qed.

Lemma monthly_key_weekly_row (u m y : Z) (r : Saving.t) (w : Z) :
  Saving.weekNumber r = Some w -> SavingsRoute.monthly_key u m y r = false.
Proof.
  intro E. unfold SavingsRoute.monthly_key. rewrite E.
  apply andb_false_r.
Qed.

End ViewFacts.

(** After an accepted monthly [POST /savings] for a month and a year,
    [GET /savings/:year/:month] of the same user answers 200 with the
    very row that the upsert returned. *)
Theorem monthly_view_after_upsert (now userId : Z)
  (req : SavingsRoute.Body.t) (st : Store) (month year : Z) :
  wf_store st ->
  accepted req ->
  is_weekly req = false ->
  SavingsRoute.Body.month req = Some month ->
  SavingsRoute.Body.year req = Some year ->
  exists message saving st' listed summary,
    SavingsRoute.post userId req st
    = (mkResponse 200 (SavingUpdated message saving), st')
    /\ SavingsRoute.get_year_month now userId year month st'
       = (mkResponse 200 (SavingMonth saving listed summary), st').
Proof.
  intros W A M Em Ey.
  pose proof (UpsertFacts.accepted_passed req A) as P.
  destruct (UpsertFacts.post_cases userId req st)
    as [[P' _] | [_ E]]; [congruence|].
  destruct (WrittenFacts.written_some userId req st A) as (s & st' & Wr).
  rewrite Wr in E. simpl in E.
  destruct (HandlerFacts.written_wf _ _ _ _ _ W Wr) as (W' & I & K).
  rewrite WfFacts.req_key_weekly, M, Em, Ey in K. simpl in K.
  exists "Savings updated successfully"%string, s, st'.
  unfold SavingsRoute.get_year_month, Prisma.saving.findFirst.
  rewrite (ViewFacts.find_unique_key _ s userId month year
             (wf_keys st' W') I K).
  eexists _, _. split; [exact E | reflexivity].
Qed.

Lemma monthly_view_after_upsert_witness :
  exists message saving st' listed summary,
    SavingsRoute.post 1 ValidationExamples.june_budget empty_store
    = (mkResponse 200 (SavingUpdated message saving), st')
    /\ SavingsRoute.get_year_month 0 1 2024 6 st'
       = (mkResponse 200 (SavingMonth saving listed summary), st').
Proof.
  exact (monthly_view_after_upsert 0 1 ValidationExamples.june_budget
           empty_store 6 2024 WfFacts.wf_empty accepted_june_budget
           eq_refl eq_refl eq_refl).
Defined.

(** A weekly [POST /savings], accepted or not, changes no answer of
    [GET /savings/:year/:month]: the monthly view of any user, month and
    year reads the same before and after it. *)
Theorem weekly_upsert_leaves_monthly_view (now userId viewer : Z)
  (req : SavingsRoute.Body.t) (st : Store) (year month : Z) :
  wf_store st ->
  is_weekly req = true ->
  fst (SavingsRoute.get_year_month now viewer year month
         (snd (SavingsRoute.post userId req st)))
  = fst (SavingsRoute.get_year_month now viewer year month st).
Proof.
  intros W Wk.
  destruct (UpsertFacts.post_cases userId req st)
    as [[_ [error E]] | [_ E]]; rewrite E; [reflexivity|].
  destruct (written userId req st) as [[s st']|] eqn:Wr; [|reflexivity].
  simpl.
  assert (F : find (SavingsRoute.monthly_key viewer month year) (savings st')
              = find (SavingsRoute.monthly_key viewer month year)
                     (savings st)
              /\ transactions st' = transactions st).
  { destruct (WrittenFacts.written_outcome _ _ _ _ _ Wr)
      as [r data Hr Hp Hd _ -> | _ _ _ _ _ Hw ->]; simpl.
    - split; [|reflexivity].
      rewrite Wk in Hp. apply WfFacts.weekly_key_iff in Hp.
      assert (Er : Saving.weekNumber r
                   = Some (Js.parseInt (SavingsRoute.Body.weekNumber req)))
        by (unfold key in Hp; congruence).
      apply ViewFacts.find_set_rows_other. intros x Hx Ex.
      assert (x = r)
        by exact (TableFacts.NoDup_key_inj Saving.id _ x r
                    (wf_saving_ids st W) Hx Hr Ex).
      subst x. split.
      + exact (ViewFacts.monthly_key_weekly_row _ _ _ r _ Er).
      + apply (ViewFacts.monthly_key_weekly_row _ _ _ (data r)
                 (Js.parseInt (SavingsRoute.Body.weekNumber req))).
        rewrite Hd. exact Er.
    - split; [|reflexivity].
      rewrite RowFacts.find_app. rewrite Wk in Hw.
      destruct (find _ (savings st)); [reflexivity|]. simpl.
      now rewrite (ViewFacts.monthly_key_weekly_row _ _ _ s _ Hw). }
  destruct F as [F T].
  unfold SavingsRoute.get_year_month, Prisma.saving.findFirst,
    Prisma.transactions_of.
  rewrite F, T. now destruct (find _ (savings st)).
Qed.

Lemma weekly_upsert_leaves_monthly_view_witness :
  fst (SavingsRoute.get_year_month 0 1 2024 6
         (snd (SavingsRoute.post 1 MoreExamples.week_two
                 Sample.ledger)))
  = fst (SavingsRoute.get_year_month 0 1 2024 6 Sample.ledger).
Proof.
  exact (weekly_upsert_leaves_monthly_view 0 1 1
           MoreExamples.week_two Sample.ledger 2024 6 ledger_wf
           eq_refl).
Defined.

Lemma accepted_week_two : accepted MoreExamples.week_two.
Proof.
  split; [|split; [|split]].
  - exists 700%Q, 70%Q.
    split; [|split; [|split; [|split]]]; try reflexivity. finite.
  - exists 6. split; [reflexivity | lia].
  - exists 2024. split; [reflexivity | unfold int32; simpl; lia].
  - intros _. exists 2. split; [reflexivity | unfold int32; lia].
Defined.

Lemma upsert_frame (userId : Z) (req : SavingsRoute.Body.t) (st : Store)
  (r : Saving.t) :
  wf_store st -> In r (savings st) ->
  In r (savings (snd (SavingsRoute.post userId req st)))
  \/ key r = req_key userId req.
Proof.
  intros W Hr.
  destruct (UpsertFacts.post_cases userId req st)
    as [[_ [error E]] | [_ E]]; rewrite E; simpl; [auto|].
  destruct (written userId req st) as [[s st']|] eqn:Wr; [|now left].
  simpl.
  destruct (WrittenFacts.written_outcome _ _ _ _ _ Wr)
    as [r0 data Hr0 Hp Hd _ -> | Hn _ _ _ _ _ ->]; simpl.
  - destruct (Z.eq_dec (Saving.id r) (Saving.id r0)) as [Ex|Nx].
    + right.
      rewrite (TableFacts.NoDup_key_inj Saving.id _ r r0
                 (wf_saving_ids st W) Hr Hr0 Ex).
      now apply WfFacts.lookup_iff.
    + left. now apply TableFacts.set_rows_In_other.
  - left. apply in_or_app. now left.
Qed.



(** A monthly period and a weekly period of the same month and year live
    side by side: after an accepted monthly upsert followed by an
    accepted weekly upsert of the same user both rows are in the store,
    under different ids, the one without a week number and the other
    with the week number of the request. *)
Theorem monthly_and_weekly_coexist (userId : Z)
  (monthly weekly : SavingsRoute.Body.t) (st : Store) :
  wf_store st ->
  accepted monthly -> is_weekly monthly = false ->
  accepted weekly -> is_weekly weekly = true ->
  exists m1 s1 st1 m2 s2 st2,
    SavingsRoute.post userId monthly st
    = (mkResponse 200 (SavingUpdated m1 s1), st1)
    /\ SavingsRoute.post userId weekly st1
       = (mkResponse 200 (SavingUpdated m2 s2), st2)
    /\ In s1 (savings st2)
    /\ In s2 (savings st2)
    /\ Saving.id s1 <> Saving.id s2
    /\ Saving.weekNumber s1 = None
    /\ Saving.weekNumber s2
       = Some (Js.parseInt (SavingsRoute.Body.weekNumber weekly)).
Proof.
  intros W A1 M1 A2 M2.
  pose proof (UpsertFacts.accepted_passed _ A1) as P1.
  pose proof (UpsertFacts.accepted_passed _ A2) as P2.
  destruct (UpsertFacts.post_cases userId monthly st)
    as [[P1' _] | [_ E1]]; [congruence|].
  destruct (WrittenFacts.written_some userId monthly st A1)
    as (s1 & st1 & W1).
  rewrite W1 in E1. simpl in E1.
  destruct (HandlerFacts.written_wf _ _ _ _ _ W W1) as (Wf1 & I1 & K1).
  destruct (UpsertFacts.post_cases userId weekly st1)
    as [[P2' _] | [_ E2]]; [congruence|].
  destruct (WrittenFacts.written_some userId weekly st1 A2)
    as (s2 & st2 & W2).
  rewrite W2 in E2. simpl in E2.
  destruct (HandlerFacts.written_wf _ _ _ _ _ Wf1 W2) as (Wf2 & I2 & K2).
  rewrite WfFacts.req_key_weekly, M1 in K1.
  rewrite WfFacts.req_key_weekly, M2 in K2.
  assert (N1 : Saving.weekNumber s1 = None)
    by (unfold key in K1; congruence).
  assert (N2 : Saving.weekNumber s2
               = Some (Js.parseInt (SavingsRoute.Body.weekNumber weekly)))
    by (unfold key in K2; congruence).
  assert (In1 : In s1 (savings st2)).
  { destruct (upsert_frame userId weekly st1 s1 Wf1 I1) as [H|H];
      [now rewrite E2 in H|].
    rewrite WfFacts.req_key_weekly, M2 in H. unfold key in H.
    rewrite N1 in H. congruence. }
  exists "Savings updated successfully"%string, s1, st1,
         "Savings updated successfully"%string, s2, st2.
  repeat match goal with |- _ /\ _ => split end; try assumption.
  intro E.
  assert (s1 = s2)
    by exact (TableFacts.NoDup_key_inj Saving.id _ s1 s2
                (wf_saving_ids st2 Wf2) In1 I2 E).
  subst s2. congruence.
Qed.

Lemma monthly_and_weekly_coexist_witness :
  exists m1 s1 st1 m2 s2 st2,
    SavingsRoute.post 1 ValidationExamples.june_budget empty_store
    = (mkResponse 200 (SavingUpdated m1 s1), st1)
    /\ SavingsRoute.post 1 MoreExamples.week_two st1
       = (mkResponse 200 (SavingUpdated m2 s2), st2)
    /\ In s1 (savings st2)
    /\ In s2 (savings st2)
    /\ Saving.id s1 <> Saving.id s2.
Proof.
  destruct (monthly_and_weekly_coexist 1 ValidationExamples.june_budget
              MoreExamples.week_two empty_store WfFacts.wf_empty
              accepted_june_budget eq_refl accepted_week_two eq_refl)
    as (m1 & s1 & st1 & m2 & s2 & st2 & H).
  exists m1, s1, st1, m2, s2, st2. tauto.
Defined.

(** A monthly request that passes every check for a year before
    -271821 or after 275760, where no month ends within the range of
    [Date], is answered 500 and nothing is written: the day count is
    NaN, so is the daily budget, and the write is refused. *)
Theorem monthly_beyond_date_range (userId : Z) (req : SavingsRoute.Body.t)
  (st : Store) (year : Z) :
  valid req ->
  is_weekly req = false ->
  SavingsRoute.Body.year req = Some year ->
  year < -271821 \/ 275760 < year ->
  SavingsRoute.post userId req st
  = (mkResponse 500 (Err "Internal server error"), st).
Proof.
  intros V M Ey Far.
  pose proof (UpsertFacts.valid_passed req V) as P.
  destruct (UpsertFacts.post_cases userId req st)
    as [[P' _] | [_ E]]; [congruence|].
  rewrite E, WrittenFacts.written_nan; [reflexivity|].
  destruct V as (_ & (month & Em & Hm) & _).
  rewrite Em, Ey. simpl. unfold SavingsRoute.days_of.
  rewrite UpsertFacts.is_weekly_period, M.
  now rewrite JsDateFacts.no_month_end.
Qed.

Lemma monthly_beyond_date_range_witness :
  SavingsRoute.post 1 ValidationExamples.far_june empty_store
  = (mkResponse 500 (Err "Internal server error"), empty_store).
Proof.
  apply (monthly_beyond_date_range 1 ValidationExamples.far_june
           empty_store 300000 valid_far_june eq_refl eq_refl).
  right. lia.
Defined.

Module CascadeFacts.

(** Where every row of an id is the caller's, the deletion by this id
    takes exactly the rows of the id out of the ledger. *)
Lemma delete_by_id (userId id : Z) (st : Store) :
  (forall x, In x (transactions st) -> Transaction.id x = id ->
             Transaction.userId x = userId) ->
  snd (TransactionsRoute.delete userId id st)
  = mkStore (savings st)
      (filter (fun x => negb (Transaction.id x =? id)) (transactions st))
      (nextSavingId st) (nextTransactionId st).
Proof.
  intro Own. unfold TransactionsRoute.delete, Prisma.transaction.findFirst.
  destruct (find _ (transactions st)) as [t|] eqn:F.
  - destruct (HandlerFacts.find_transaction_inv _ _ _ _ F) as (H & I & _).
    unfold Prisma.transaction.delete. subst id.
    destruct (TableFacts.find_key_some Transaction.id _ t H) as [t' F'].
    now rewrite F'.
  - simpl. rewrite TableFacts.filter_all; [now destruct st|].
    intros x Hx. apply negb_true_iff, Z.eqb_neq. intro I.
    pose proof (find_none _ _ F x Hx) as K. simpl in K.
    apply Z.eqb_eq in I. rewrite I in K. simpl in K.
    apply Z.eqb_neq in K. apply K. apply Own; [assumption|].
    now apply Z.eqb_eq.
Qed.

Lemma delete_each_store (userId : Z) (l : list Transaction.t) (st : Store) :
  (forall t x, In t l -> In x (transactions st) ->
               Transaction.id x = Transaction.id t ->
               Transaction.userId x = userId) ->
  delete_each userId l st
  = mkStore (savings st)
      (filter (fun x => forallb (fun t => negb (Transaction.id x
                                                =? Transaction.id t)) l)
              (transactions st))
      (nextSavingId st) (nextTransactionId st).
Proof.
  revert st. induction l as [|t l IH]; intros st Own; simpl.
  - rewrite TableFacts.filter_all by auto. now destruct st.
  - unfold delete_each in *. simpl.
    rewrite (delete_by_id userId (Transaction.id t) st)
      by (intros x Hx I; exact (Own t x (or_introl eq_refl) Hx I)).
    rewrite IH; simpl.
    + f_equal. clear. induction (transactions st) as [|x m IHm]; simpl;
        [reflexivity|].
      destruct (Transaction.id x =? Transaction.id t); simpl;
        [exact IHm|].
      destruct (forallb _ l); [f_equal|]; exact IHm.
    + intros t' x Ht' Hx I. apply filter_In in Hx.
      exact (Own t' x (or_intror Ht') (proj1 Hx) I).
Qed.

End CascadeFacts.

(** The forced deletion of a period of the caller leaves the store that
    results from deleting the transactions of the period one by one and
    then deleting the period the safe way, which then answers 200. *)
Theorem force_delete_is_delete_each_then_delete (userId : Z) (st : Store)
  (s : Saving.t) :
  wf_store st ->
  In s (savings st) ->
  Saving.userId s = userId ->
  let dependents :=
    filter (fun t => Transaction.savingId t =? Saving.id s)
           (transactions st) in
  status (fst (SavingsRoute.delete userId (Saving.id s)
                 (delete_each userId dependents st))) = 200
  /\ snd (SavingsRoute.delete userId (Saving.id s)
            (delete_each userId dependents st))
     = snd (SavingsRoute.delete_force userId (Saving.id s) st).
Proof.
  intros W H U dependents.
  pose proof (wf_saving_ids st W) as N.
  pose proof (wf_transaction_ids st W) as Nt.
  assert (Own : forall t x, In t dependents -> In x (transactions st) ->
                  Transaction.id x = Transaction.id t ->
                  Transaction.userId x = userId).
  { intros t x Ht Hx I. apply filter_In in Ht. destruct Ht as [Ht K].
    apply Z.eqb_eq in K.
    rewrite (TableFacts.NoDup_key_inj Transaction.id _ x t Nt Hx Ht I).
    rewrite <- U.
    exact (IsolationFacts.transactions_by_saving_owner st W s t H Ht K). }
  rewrite (CascadeFacts.delete_each_store userId dependents st Own).
  assert (F : filter
                (fun x => forallb (fun t => negb (Transaction.id x
                                                  =? Transaction.id t))
                                  dependents)
                (transactions st)
              = filter (fun x => negb (Transaction.savingId x
                                       =? Saving.id s))
                       (transactions st)).
  { apply filter_ext_in. intros x Hx.
    destruct (Transaction.savingId x =? Saving.id s) eqn:K; simpl.
    - apply not_true_is_false. intro B. rewrite forallb_forall in B.
      assert (Hd : In x dependents) by (apply filter_In; auto).
      specialize (B x Hd). rewrite Z.eqb_refl in B. discriminate.
    - apply forallb_forall. intros t Ht.
      apply negb_true_iff, Z.eqb_neq. intro I.
      apply filter_In in Ht. destruct Ht as [Ht Kt].
      rewrite (TableFacts.NoDup_key_inj Transaction.id _ x t Nt Hx Ht I)
        in K.
      congruence. }
  rewrite F.
  unfold SavingsRoute.delete, SavingsRoute.delete_force,
    SavingsRoute.delete_force_on, Prisma.saving.findFirst. simpl.
  rewrite (HandlerFacts.find_saving_owned userId s _ N H U).
  unfold Prisma.transactions_of. simpl.
  rewrite TableFacts.filter_none.
  2:{ intros x Hx. apply filter_In in Hx. destruct Hx as [_ K].
      now apply negb_true_iff in K. }
  simpl. unfold Prisma_tx.transaction_, Prisma_tx.run, Prisma_tx.statement,
    Prisma.saving.delete, Prisma.transaction.deleteMany. simpl.
  rewrite (TableFacts.find_key_unique Saving.id _ s N H). simpl.
  split; reflexivity.
Qed.

Lemma force_delete_is_delete_each_then_delete_witness :
  snd (SavingsRoute.delete 1 1
         (delete_each 1 (transactions Sample.ledger) Sample.ledger))
  = snd (SavingsRoute.delete_force 1 1 Sample.ledger).
Proof.
  exact (proj2 (force_delete_is_delete_each_then_delete 1 Sample.ledger
                  Sample.june ledger_wf (or_introl eq_refl) eq_refl)).
Defined.

Lemma reachable_wf_witness :
  wf_store (snd (handle 0 1 (PostSaving ValidationExamples.june_budget)
                   empty_store)).
Proof.
  exact (reachable_wf _
           (reach_step 0 1 (PostSaving ValidationExamples.june_budget)
              empty_store reach_empty)).
Defined.

Module DayFacts.
Import JsDate.

Lemma holds_from_spec (f : Z -> bool) (n : nat) (z x : Z) :
  holds_from f n z = true -> z <= x < z + Z.of_nat n -> f x = true.
Proof.
  revert z. induction n as [|n IH]; simpl; intros z H B; [lia|].
  destruct (f z) eqn:F; [|discriminate].
  destruct (Z.eq_dec x z) as [->|Nx]; [assumption|].
  apply (IH (z + 1)); [assumption | lia].
Qed.

Lemma day_in_cycle :
  holds_from (fun n =>
                let d := snd (civil_from_days (n - 719468)) in
                (1 <=? d) && (d <=? 31))
             (Z.to_nat 146097) 0 = true.
Proof. vm_cast_no_check (eq_refl true). Qed.

(** [getDate] answers a day from 1 to 31, whatever the time value. *)
Lemma getDate_range (t : Z) : 1 <= getDate t <= 31.
Proof.
  unfold getDate. set (n := t / msPerDay).
  pose proof (Z.div_mod (n + 719468) 146097 ltac:(lia)) as E.
  pose proof (Z.mod_pos_bound (n + 719468) 146097 ltac:(lia)) as B.
  set (r := (n + 719468) mod 146097) in *.
  set (k := (n + 719468) / 146097) in *.
  replace n with ((r - 719468) + 146097 * k) by lia.
  rewrite JsDateFacts.day_of_month_shift.
  assert (Hr : 0 <= r < 0 + Z.of_nat (Z.to_nat 146097))
    by (rewrite Z2Nat.id; lia).
  pose proof (holds_from_spec _ _ 0 r day_in_cycle Hr) as C.
  cbv beta zeta in C.
  apply andb_true_iff in C. destruct C as [C1 C2].
  apply Z.leb_le in C1, C2. lia.
Qed.

End DayFacts.

(** [GET /savings/:year/:month] on a month for which the caller has a
    monthly period answers 200 with that period and its transactions,
    newest first; [totalSpent] is their amounts added up from 0 in that
    order and [remainingBudget] the available amount less [totalSpent];
    [expectedSpent] is the daily budget times [currentDay], the day of
    the month of the clock (1 to 31), whatever the month asked for;
    [difference] is [expectedSpent] less [totalSpent]; and [daysInMonth]
    is the number of calendar days of the month when the month is in
    1..12 and the year, other than 0, is between -271820 and 275759. *)
Theorem monthly_view (now userId year month : Z) (st : Store)
  (s : Saving.t) :
  NoDup (map key (savings st)) ->
  In s (savings st) ->
  key s = (userId, month, year, None) ->
  exists listed summary,
    SavingsRoute.get_year_month now userId year month st
    = (mkResponse 200 (SavingMonth s listed summary), st)
    /\ (forall t, In t listed <->
                  In t (transactions st)
                  /\ Transaction.savingId t = Saving.id s)
    /\ StronglySorted newer_first listed
    /\ MonthSummary.totalSpent summary = sum_amounts listed
    /\ MonthSummary.remainingBudget summary
       = (Saving.availableAmount s - MonthSummary.totalSpent summary)%Q
    /\ MonthSummary.currentDay summary = JsDate.getDate now
    /\ 1 <= MonthSummary.currentDay summary <= 31
    /\ MonthSummary.expectedSpent summary
       = (Saving.dailyBudget s
          * inject_Z (MonthSummary.currentDay summary))%Q
    /\ MonthSummary.difference summary
       = (MonthSummary.expectedSpent summary
          - MonthSummary.totalSpent summary)%Q
    /\ (year <> 0 -> -271820 <= year <= 275759 -> 1 <= month <= 12 ->
        MonthSummary.daysInMonth summary
        = Some (JsDate.calendar_days year month)).
Proof.
  intros N H K.
  unfold SavingsRoute.get_year_month, Prisma.saving.findFirst.
  rewrite (ViewFacts.find_unique_key _ s userId month year N H K).
  eexists _, _. split; [reflexivity|]. simpl.
  repeat match goal with |- _ /\ _ => split end; try reflexivity.
  - intro t. rewrite TableFacts.orderBy_In. unfold Prisma.transactions_of.
    rewrite filter_In, Z.eqb_eq. reflexivity.
  - apply OrderFacts.date_desc_sorted.
  - apply DayFacts.getDate_range.
  - apply DayFacts.getDate_range.
  - intros Hy Hr Hm. now apply JsDateFacts.days_in_month.
Qed.

Lemma monthly_view_witness :
  exists listed summary,
    SavingsRoute.get_year_month (Sample.june_1st 12) 1 2024 6 Sample.ledger
    = (mkResponse 200 (SavingMonth Sample.june listed summary),
       Sample.ledger)
    /\ MonthSummary.currentDay summary = 1
    /\ MonthSummary.daysInMonth summary = Some 30.
Proof.
  destruct (monthly_view (Sample.june_1st 12) 1 2024 6 Sample.ledger
              Sample.june (wf_keys _ ledger_wf) (or_introl eq_refl)
              eq_refl)
    as (listed & summary & E & _ & _ & _ & _ & C & _ & _ & _ & D).
  exists listed, summary. split; [exact E|]. split.
  - rewrite C. reflexivity.
  - rewrite D; [reflexivity | lia | lia | lia].
Defined.

Module TrimFacts.
Import JsString.


Lemma trim_start_clean (s : t) : starts_clean s -> trim_start s = s.
Proof.
  destruct s as [|c s]; simpl; [reflexivity|]. now intros ->.
Qed.




Lemma blank_clean_nil (s : t) : blank s -> starts_clean s -> s = [].
Proof.
  destruct s as [|c s]; [reflexivity|]. simpl. intros B C.
  inversion B; subst. congruence.
Qed.



Lemma trim_end_clean (s : t) : starts_clean (rev s) -> trim_end s = s.
Proof.
  intro C. unfold trim_end. rewrite (trim_start_clean _ C).
  apply rev_involutive.
Qed.

Lemma trim_clean (s : t) : clean s -> trim s = s.
Proof.
  intros [C1 C2]. unfold trim. rewrite (trim_start_clean s C1).
  now apply trim_end_clean.
Qed.


End TrimFacts.


Module TodoFacts.
Import TodosRoute.

Lemma find_owned_todo (userId : Z) (r : Todo.t) (l : list Todo.t) :
  NoDup (map Todo.id l) -> In r l -> Todo.userId r = userId ->
  find (owned (Todo.id r) userId) l = Some r.
Proof.
  intros N H U. unfold owned.
  destruct (find _ l) as [x|] eqn:F.
  - destruct (find_some _ _ F) as [Hx K].
    apply andb_true_iff in K. destruct K as [K _]. apply Z.eqb_eq in K.
    f_equal. exact (TableFacts.NoDup_key_inj Todo.id l x r N Hx H K).
  - pose proof (find_none _ _ F r H) as K. simpl in K.
    rewrite Z.eqb_refl, U, Z.eqb_refl in K. discriminate.
Qed.

Lemma find_owned_inv (userId id : Z) (r : Todo.t) (l : list Todo.t) :
  find (owned id userId) l = Some r ->
  In r l /\ Todo.id r = id /\ Todo.userId r = userId.
Proof.
  intro F. destruct (find_some _ _ F) as [H K]. unfold owned in K.
  apply andb_true_iff in K. destruct K as [K1 K2].
  apply Z.eqb_eq in K1, K2. auto.
Qed.

Lemma set_one (r : Todo.t) (data : Todo.t -> Todo.t) (l : list Todo.t) :
  NoDup (map Todo.id l) -> In r l ->
  exists l1 l2,
    l = l1 ++ r :: l2
    /\ Prisma.set_rows Todo.id (Todo.id r) data l = l1 ++ data r :: l2.
Proof.
  intros N H. destruct (in_split _ _ H) as (l1 & l2 & ->).
  exists l1, l2. split; [reflexivity|].
  rewrite map_app in N. simpl in N.
  pose proof (NoDup_remove_2 _ _ _ N) as Nr.
  unfold Prisma.set_rows. rewrite map_app. simpl. rewrite Z.eqb_refl.
  f_equal; [|f_equal].
  - rewrite <- (map_id l1) at 2. apply map_ext_in. intros x Hx.
    replace (Todo.id x =? Todo.id r) with false; [reflexivity|].
    symmetry. apply Z.eqb_neq. intro E. apply Nr. apply in_or_app. left.
    rewrite <- E. now apply in_map.
  - rewrite <- (map_id l2) at 2. apply map_ext_in. intros x Hx.
    replace (Todo.id x =? Todo.id r) with false; [reflexivity|].
    symmetry. apply Z.eqb_neq. intro E. apply Nr. apply in_or_app. right.
    rewrite <- E. now apply in_map.
Qed.

Lemma update_owned (r : Todo.t) (data : Todo.t -> Todo.t) (st : TodoStore) :
  NoDup (map Todo.id (todos st)) -> In r (todos st) ->
  exists l1 l2,
    todos st = l1 ++ r :: l2
    /\ update (Todo.id r) data st
       = Some (data r, mkTodoStore (l1 ++ data r :: l2) (nextTodoId st)).
Proof.
  intros N H. unfold update.
  rewrite (TableFacts.find_key_unique Todo.id _ r N H).
  destruct (set_one r data _ N H) as (l1 & l2 & E & S).
  exists l1, l2. now rewrite S.
Qed.

End TodoFacts.



(** Toggling a to-do of the caller twice gives back the store as it was;
    the first answer carries the to-do with the opposite state. *)
Theorem todo_toggle_twice (userId : Z) (st : TodoStore) (r : Todo.t) :
  NoDup (map Todo.id (todos st)) ->
  In r (todos st) ->
  Todo.userId r = userId ->
  exists message r' st',
    TodosRoute.toggle userId (Todo.id r) st
    = (mkTodoResponse 200 (TodoMsg message r'), st')
    /\ Todo.completed r' = negb (Todo.completed r)
    /\ TodosRoute.toggle userId (Todo.id r) st'
       = (mkTodoResponse 200 (TodoMsg message r), st).
Proof.
  intros N H U. unfold TodosRoute.toggle at 1.
  rewrite (TodoFacts.find_owned_todo userId r _ N H U).
  set (flip := fun x => Todo.mk (Todo.id x) (Todo.userId x) (Todo.title x)
                          (Todo.description x) (negb (Todo.completed r))
                          (Todo.createdAt x)).
  destruct (TodoFacts.update_owned r flip st N H) as (l1 & l2 & El & Eu).
  rewrite Eu. eexists _, _, _. split; [reflexivity|].
  split; [reflexivity|].
  set (st' := mkTodoStore (l1 ++ flip r :: l2) (nextTodoId st)).
  assert (N' : NoDup (map Todo.id (todos st'))).
  { simpl. rewrite El in N. rewrite map_app in *. exact N. }
  assert (H' : In (flip r) (todos st'))
    by (simpl; apply in_or_app; right; now left).
  unfold TodosRoute.toggle.
  change (Todo.id r) with (Todo.id (flip r)).
  rewrite (TodoFacts.find_owned_todo userId (flip r) _ N' H' U).
  set (back := fun x => Todo.mk (Todo.id x) (Todo.userId x) (Todo.title x)
                          (Todo.description x)
                          (negb (Todo.completed (flip r)))
                          (Todo.createdAt x)).
  unfold TodosRoute.update.
  rewrite (TableFacts.find_key_unique Todo.id _ (flip r) N' H').
  assert (B : back (flip r) = r).
  { unfold back, flip. simpl. rewrite negb_involutive. now destruct r. }
  rewrite B. f_equal. f_equal.
  - simpl. rewrite El in N. rewrite map_app in N. simpl in N.
    pose proof (NoDup_remove_2 _ _ _ N) as Nr.
    unfold Prisma.set_rows. rewrite map_app. simpl.
    rewrite Z.eqb_refl. fold (back (flip r)). rewrite B.
    destruct st as [l n]. simpl in *. subst l. f_equal.
    f_equal; [|f_equal].
    + rewrite <- (map_id l1) at 2. apply map_ext_in. intros x Hx.
      replace (Todo.id x =? Todo.id r) with false; [reflexivity|].
      symmetry. apply Z.eqb_neq. intro E. apply Nr. apply in_or_app. left.
      rewrite <- E. now apply in_map.
    + rewrite <- (map_id l2) at 2. apply map_ext_in. intros x Hx.
      replace (Todo.id x =? Todo.id r) with false; [reflexivity|].
      symmetry. apply Z.eqb_neq. intro E. apply Nr. apply in_or_app.
      right. rewrite <- E. now apply in_map.
Qed.

Lemma todo_toggle_twice_witness :
  exists message r' st',
    TodosRoute.toggle 1 1 TodoExamples.board
    = (mkTodoResponse 200 (TodoMsg message r'), st')
    /\ Todo.completed r' = true
    /\ TodosRoute.toggle 1 1 st'
       = (mkTodoResponse 200 (TodoMsg message TodoExamples.buy_milk),
          TodoExamples.board).
Proof.
  exact (todo_toggle_twice 1 TodoExamples.board TodoExamples.buy_milk
           ltac:(simpl; repeat constructor; simpl; intuition discriminate)
           (or_introl eq_refl) eq_refl).
Defined.

Module ListingFacts.
Import TodosRoute.

Lemma pending_then_newest_sorted (l : list Todo.t) :
  StronglySorted todo_order (Prisma.orderBy pending_then_newest l).
Proof.
  apply Sorted_StronglySorted.
  - intros a b c. unfold todo_order.
    destruct (Todo.completed a), (Todo.completed b), (Todo.completed c);
      intuition (try discriminate). 
    + right. split; [reflexivity | lia].
    + right. split; [reflexivity | lia].
  - eapply Sorted_ind
      with (R := fun u v => pending_then_newest u v = true)
           (P := Sorted todo_order).
    + constructor.
    + intros a m _ IH H. constructor; [assumption|].
      destruct H as [|b m' H]; constructor.
      unfold pending_then_newest in H. unfold todo_order.
      apply orb_true_iff in H. destruct H as [H|H].
      * apply andb_true_iff in H. destruct H as [H1 H2].
        apply negb_true_iff in H1. now left.
      * apply andb_true_iff in H. destruct H as [H1 H2].
        apply eqb_prop in H1. apply Z.leb_le in H2. now right.
    + apply OrderFacts.orderBy_sorted. intros x y.
      unfold pending_then_newest.
      destruct (Todo.completed x), (Todo.completed y); simpl;
        try discriminate; try reflexivity;
        intro H; apply Z.leb_gt in H; apply Z.leb_le; lia.
Qed.

Lemma count_by_state (userId : Z) (l : list Todo.t) :
  (List.length
     (filter (fun r => (Todo.userId r =? userId)%Z && Todo.completed r) l)
   + List.length
       (filter (fun r => (Todo.userId r =? userId)%Z
                         && negb (Todo.completed r)) l))%nat
  = List.length (filter (fun r => Todo.userId r =? userId) l).
Proof.
  induction l as [|r l IH]; simpl; [reflexivity|].
  destruct (Todo.userId r =? userId), (Todo.completed r); simpl; lia.
Qed.

End ListingFacts.

(** [GET /todos] answers 200 without writing.  The counts [completed]
    and [pending] are those of all to-dos of the caller, whatever the
    filter, and add up to their number; [total] is that number without a
    filter, the completed ones for [completed=true] and the pending ones
    for any other value.  The page holds min(limit, total - offset)
    to-dos of the caller that pass the filter, pending before completed
    and the newer first among equals, and [hasMore] tells exactly
    whether to-dos remain after the page. *)
Theorem todo_listing (userId : Z) (completed : option JsString.t)
  (limit offset : option nat) (st : TodoStore) :
  let n := match limit with Some n => n | None => 100%nat end in
  let k := match offset with Some k => k | None => 0%nat end in
  let mine := filter (fun r => Todo.userId r =? userId) (todos st) in
  exists l counts page,
    TodosRoute.get_all userId completed limit offset st
    = (mkTodoResponse 200 (TodoList l counts page), st)
    /\ (TodoCounts.completed counts + TodoCounts.pending counts)%nat
       = List.length mine
    /\ TodoCounts.completed counts
       = List.length (filter Todo.completed mine)
    /\ TodoCounts.total counts
       = match completed with
         | None => List.length mine
         | Some v =>
             if list_eq_dec N.eq_dec v (JsString.of_string "true")
             then TodoCounts.completed counts
             else TodoCounts.pending counts
         end
    /\ List.length l = Nat.min n (TodoCounts.total counts - k)
    /\ (TodoPagination.hasMore page = true
        <-> (k + List.length l < TodoCounts.total counts)%nat)
    /\ StronglySorted todo_order l
    /\ (forall r, In r l ->
          In r mine
          /\ match completed with
             | None => True
             | Some v =>
                 Todo.completed r
                 = if list_eq_dec N.eq_dec v (JsString.of_string "true")
                   then true else false
             end).
Proof.
  intros n k mine. unfold TodosRoute.get_all. fold n k.
  eexists _, _, _. split; [reflexivity|]. simpl.
  set (shown := filter (TodosRoute.listed userId completed) (todos st)).
  assert (L : List.length (Prisma.orderBy TodosRoute.pending_then_newest
                             shown) = List.length shown).
  { symmetry. apply Permutation_length, OrderFacts.orderBy_perm. }
  split; [apply ListingFacts.count_by_state|].
  split.
  { unfold mine. clear. induction (todos st) as [|r l IH]; simpl;
      [reflexivity|].
    destruct (Todo.userId r =? userId); simpl; [|exact IH].
    destruct (Todo.completed r); simpl; now rewrite IH. }
  split.
  { unfold shown, TodosRoute.listed, mine.
    destruct completed as [v|].
    - destruct (list_eq_dec N.eq_dec v (JsString.of_string "true")).
      + f_equal; try (apply filter_ext; intro r;
                      now destruct (Todo.completed r)).
      + f_equal; try (apply filter_ext; intro r;
                      now destruct (Todo.completed r)).
    - f_equal. apply filter_ext. intro r. apply andb_true_r. }
  rewrite length_firstn, length_skipn, L.
  split; [reflexivity|]. split; [rewrite Nat.ltb_lt; lia|].
  split.
  { apply OrderFacts.StronglySorted_firstn, OrderFacts.StronglySorted_skipn.
    apply ListingFacts.pending_then_newest_sorted. }
  intros r Hr.
  apply IsolationFacts.In_firstn, IsolationFacts.In_skipn,
    TableFacts.orderBy_In in Hr.
  unfold shown in Hr. apply filter_In in Hr. destruct Hr as [Hr K].
  unfold TodosRoute.listed in K. apply andb_true_iff in K.
  destruct K as [K1 K2]. split.
  - apply filter_In. auto.
  - destruct completed as [v|]; [|exact I]. now apply eqb_prop in K2.
Qed.

(** [DELETE /todos/completed/all] removes the completed to-dos of the
    caller and nothing else, and reports how many they were; the other
    rows keep their order; sent again it removes nothing and reports
    0. *)
Theorem todo_delete_completed (userId : Z) (st : TodoStore) :
  exists message count st',
    TodosRoute.delete_completed userId st
    = (mkTodoResponse 200 (TodosDeleted message count), st')
    /\ (forall r, In r (todos st') <->
                  In r (todos st)
                  /\ ~ (Todo.userId r = userId /\ Todo.completed r = true))
    /\ (List.length (todos st') + count)%nat = List.length (todos st)
    /\ filter (fun r => negb (Todo.userId r =? userId)) (todos st')
       = filter (fun r => negb (Todo.userId r =? userId)) (todos st)
    /\ filter (fun r => negb (Todo.completed r)) (todos st')
       = filter (fun r => negb (Todo.completed r)) (todos st)
    /\ nextTodoId st' = nextTodoId st
    /\ exists message',
         TodosRoute.delete_completed userId st'
         = (mkTodoResponse 200 (TodosDeleted message' 0), st').
Proof.
  unfold TodosRoute.delete_completed at 1.
  eexists _, _, _. split; [reflexivity|]. simpl.
  set (p := fun r => (Todo.userId r =? userId) && Todo.completed r).
  split; [|split; [|split; [|split; [|split]]]].
  - intro r. rewrite filter_In, negb_true_iff. unfold p.
    rewrite andb_false_iff, Z.eqb_neq.
    destruct (Todo.completed r); intuition congruence.
  - rewrite Nat.add_comm. apply (TableFacts.length_filter_split p).
  - apply TableFacts.filter_filter_ext. intros r _ K.
    unfold p. apply negb_true_iff in K. now rewrite K.
  - apply TableFacts.filter_filter_ext. intros r _ K.
    unfold p. apply negb_true_iff in K. rewrite K.
    now rewrite andb_false_r.
  - reflexivity.
  - unfold TodosRoute.delete_completed. simpl. fold p.
    rewrite (TableFacts.filter_none p).
    2:{ intros r Hr. apply filter_In in Hr. destruct Hr as [_ Hr].
        now apply negb_true_iff in Hr. }
    simpl. eexists. do 2 f_equal.
    apply TableFacts.filter_all. intros r Hr. apply filter_In in Hr.
    apply Hr.
Qed.

Module TodoIsolationFacts.
Import TodosRoute.

Section Board.
Variable st : TodoStore.
Hypothesis W : todo_wf st.
Variable userId : Z.

Lemma kept_unchanged (resp : todo_response) :
  (forall t, In t (todos_in (todo_json resp)) -> Todo.userId t = userId) ->
  todo_kept st userId (resp, st).
Proof. intro H. repeat split; simpl; auto; apply W. Qed.

Lemma update_kept (id : Z) (data : Todo.t -> Todo.t) (message : string)
  (r : Todo.t) :
  find (owned id userId) (todos st) = Some r ->
  (forall x, Todo.id (data x) = Todo.id x) ->
  (forall x, Todo.userId (data x) = Todo.userId x) ->
  todo_kept st userId match update id data st with
       | Some (todo, st') => (mkTodoResponse 200 (TodoMsg message todo), st')
       | None => (fail 500 "Internal server error", st)
       end.
Proof.
  intros F Hid Hu. destruct W as [N R].
  destruct (TodoFacts.find_owned_inv _ _ _ _ F) as (H & I & U).
  subst id. unfold update.
  rewrite (TableFacts.find_key_unique Todo.id _ r N H).
  split; [|split]; simpl.
  - split; simpl.
    + now rewrite TableFacts.set_rows_keys.
    + intros x Hx. apply TableFacts.set_rows_In_inv in Hx.
      destruct Hx as [[Hx _] | (y & Hy & _ & ->)]; [auto|].
      rewrite Hid. auto.
  - intros t [<-|[]]. now rewrite Hu.
  - intros other Ho. apply IsolationFacts.filter_set_rows_other.
    intros x Hx Ex.
    assert (x = r) by exact (TableFacts.NoDup_key_inj Todo.id _ x r N Hx H Ex).
    subst x. rewrite Hu.
    split; now apply IsolationFacts.other_user with userId.
Qed.

Lemma handle_kept (now : Z) (r : todo_request) :
  todo_kept st userId (handle_todo now userId r st).
Proof.
  destruct W as [N R]. destruct r; simpl.
  - unfold post. destruct (PostBody.title req) as [title|];
      [|apply kept_unchanged; simpl; tauto].
    destruct (_ || _); [apply kept_unchanged; simpl; tauto|].
    split; [|split]; simpl.
    + split; simpl.
      * rewrite map_app. simpl. apply NoDup_app; [exact N| |].
        { repeat constructor. simpl. tauto. }
        { intros x Hx [<-|[]]. apply in_map_iff in Hx.
          destruct Hx as (y & E & Hy). specialize (R y Hy). lia. }
      * intros x Hx. apply in_app_or in Hx.
        destruct Hx as [Hx|[<-|[]]]; [specialize (R x Hx)|simpl]; lia.
    + intros t [<-|[]]. reflexivity.
    + intros other Ho. apply IsolationFacts.filter_app_other. simpl.
      now apply IsolationFacts.other_user with userId.
  - unfold get_all. apply kept_unchanged. simpl. intros t Ht.
    apply IsolationFacts.In_firstn, IsolationFacts.In_skipn,
      TableFacts.orderBy_In, filter_In in Ht.
    destruct Ht as [_ K]. unfold listed in K.
    apply andb_true_iff in K. destruct K as [K _]. now apply Z.eqb_eq.
  - unfold delete_completed. split; [|split]; simpl; [|tauto|].
    + split; simpl.
      * now apply TableFacts.NoDup_map_filter.
      * intros x Hx. apply filter_In in Hx. apply R, Hx.
    + intros other Ho. apply TableFacts.filter_filter_ext.
      intros x _ K. apply Z.eqb_eq in K. apply negb_true_iff.
      replace (Todo.userId x =? userId) with false; [reflexivity|].
      symmetry. apply Z.eqb_neq. congruence.
  - unfold get_one. destruct (find _ (todos st)) as [t|] eqn:F;
      apply kept_unchanged; simpl; [|tauto].
    intros x [<-|[]].
    exact (proj2 (proj2 (TodoFacts.find_owned_inv _ _ _ _ F))).
  - unfold put. destruct (find _ (todos st)) as [t|] eqn:F;
      [|apply kept_unchanged; simpl; tauto].
    destruct (PutBody.title req) as [[title|]|].
    + destruct (JsString.is_empty _);
        [apply kept_unchanged; simpl; tauto|].
      now apply (update_kept id (put_data req) _ t).
    + apply kept_unchanged; simpl; tauto.
    + now apply (update_kept id (put_data req) _ t).
  - unfold toggle. destruct (find _ (todos st)) as [t|] eqn:F;
      [|apply kept_unchanged; simpl; tauto].
    now apply (update_kept id _ _ t).
  - unfold delete. destruct (find _ (todos st)) as [t|] eqn:F;
      [|apply kept_unchanged; simpl; tauto].
    destruct (TodoFacts.find_owned_inv _ _ _ _ F) as (H & I & U).
    subst id. rewrite (TableFacts.find_key_unique Todo.id _ t N H).
    split; [|split]; simpl; [|tauto|].
    + split; simpl.
      * now apply TableFacts.NoDup_map_filter.
      * intros x Hx. apply filter_In in Hx. apply R, Hx.
    + intros other Ho. apply TableFacts.filter_filter_ext.
      intros x Hx K. apply Z.eqb_eq in K.
      apply negb_true_iff, Z.eqb_neq. intro E.
      assert (x = t)
        by exact (TableFacts.NoDup_key_inj Todo.id _ x t N Hx H E).
      subst x. congruence.
Qed.

Lemma handle_foreign (now : Z) (r : todo_request) :
  todo_of_other userId r st ->
  handle_todo now userId r st = (fail 404 "Todo not found", st).
Proof.
  destruct W as [N R].
  assert (F : forall id, (exists t, In t (todos st) /\ Todo.id t = id
                                    /\ Todo.userId t <> userId) ->
                         find (owned id userId) (todos st) = None).
  { intros id (t & H & I & U).
    apply (LedgerFacts.find_owned_none_iff Todo.id Todo.userId).
    intros x Hx Ex.
    assert (x = t)
      by (apply (TableFacts.NoDup_key_inj Todo.id _ x t N Hx H);
          congruence).
    now subst x. }
  destruct r; simpl; try contradiction; intro H.
  - unfold get_one. now rewrite (F id H).
  - unfold put. now rewrite (F id H).
  - unfold toggle. now rewrite (F id H).
  - unfold delete. now rewrite (F id H).
Qed.
End Board.

End TodoIsolationFacts.

(** The to-do router keeps users apart and its table in order: on a
    table of distinct ids below the counter, every request leaves such a
    table, answers with to-dos of the caller only, leaves the to-dos of
    every other user as they were, and answers 404 without writing when
    it names the to-do of another user by its id. *)
Theorem todo_isolation (now userId : Z) (r : todo_request) (st : TodoStore) :
  todo_wf st ->
  todo_wf (snd (handle_todo now userId r st))
  /\ (forall t, In t (todos_in (todo_json (fst (handle_todo now userId r
                                                  st)))) ->
                Todo.userId t = userId)
  /\ (forall other, other <> userId ->
        filter (fun t => Todo.userId t =? other)
               (todos (snd (handle_todo now userId r st)))
        = filter (fun t => Todo.userId t =? other) (todos st))
  /\ (todo_of_other userId r st ->
      todo_status (fst (handle_todo now userId r st)) = 404
      /\ snd (handle_todo now userId r st) = st).
Proof.
  intro W.
  destruct (TodoIsolationFacts.handle_kept st W userId now r) as (A & B & C).
  split; [exact A|]. split; [exact B|]. split; [exact C|].
  intro H. now rewrite (TodoIsolationFacts.handle_foreign st W userId now r H).
Qed.

Lemma board_wf : todo_wf TodoExamples.board.
Proof.
  split; simpl.
  - repeat constructor; simpl; intuition discriminate.
  - intros r [<-|[<-|[<-|[]]]]; simpl; lia.
Qed.

Lemma todo_isolation_witness :
  todo_status (fst (handle_todo 0 1 (TodoToggle 3) TodoExamples.board)) = 404
  /\ snd (handle_todo 0 1 (TodoToggle 3) TodoExamples.board)
     = TodoExamples.board.
Proof.
  apply (todo_isolation 0 1 (TodoToggle 3) TodoExamples.board board_wf).
  exists TodoExamples.water_plants. simpl. intuition discriminate.
Defined.

(** A to-do just created is what [GET /todos/:id] answers for the id of
    the creation, and [DELETE /todos/:id] for that id gives back the
    table as it was. *)
Theorem todo_create_then_get (now userId : Z)
  (req : TodosRoute.PostBody.t) (st : TodoStore) (message : string)
  (todo : Todo.t) (st' : TodoStore) :
  todo_wf st ->
  TodosRoute.post now userId req st
  = (mkTodoResponse 201 (TodoMsg message todo), st') ->
  TodosRoute.get_one userId (Todo.id todo) st'
  = (mkTodoResponse 200 (TodoOne todo), st')
  /\ todos (snd (TodosRoute.delete userId (Todo.id todo) st')) = todos st.
Proof.
  intros [N R] E. unfold TodosRoute.post in E.
  destruct (TodosRoute.PostBody.title req) as [title|]; [|discriminate].
  destruct (_ || _); [discriminate|].
  injection E as _ <- <-. simpl.
  assert (Old : forall x, In x (todos st) ->
                          (Todo.id x =? nextTodoId st) = false).
  { intros x Hx. apply Z.eqb_neq. specialize (R x Hx). lia. }
  assert (F : forall p, (forall x, p x = true ->
                           (Todo.id x =? nextTodoId st) = true) ->
              forall new, p new = true ->
              find p (todos st ++ [new]) = Some new).
  { intros p Hp new Hn. rewrite RowFacts.find_app.
    rewrite RowFacts.find_none_all; [simpl; now rewrite Hn|].
    intros x Hx. destruct (p x) eqn:P; [|reflexivity].
    specialize (Old x Hx). rewrite (Hp x P) in Old. discriminate. }
  unfold TodosRoute.get_one, TodosRoute.delete. simpl.
  rewrite !F.
  - split; [reflexivity|]. simpl. rewrite filter_app. simpl.
    rewrite Z.eqb_refl. simpl. rewrite app_nil_r.
    apply TableFacts.filter_all. intros x Hx. now rewrite Old.
  - auto.
  - simpl. apply Z.eqb_refl.
  - intros x P. unfold TodosRoute.owned in P.
    now apply andb_true_iff in P.
  - unfold TodosRoute.owned. simpl. now rewrite !Z.eqb_refl.
Qed.

Lemma todo_create_then_get_witness :
  exists todo st',
    TodosRoute.get_one 1 (Todo.id todo) st'
    = (mkTodoResponse 200 (TodoOne todo), st')
    /\ Todo.title todo = JsString.of_string "pay rent"
    /\ todos (snd (TodosRoute.delete 1 (Todo.id todo) st'))
       = todos TodoExamples.board.
Proof.
  eexists _, _.
  pose proof (todo_create_then_get 5 1
                (TodosRoute.PostBody.mk
                   (Some (JsString.of_string "  pay rent ")) None)
                TodoExamples.board _ _ _ board_wf eq_refl) as [G D].
  split; [exact G|]. split; [reflexivity | exact D].
Defined.
